(** * kmldrv: a shallow embedding of src/simrupt.c

    The driver plays tic-tac-toe between two engines from a simulated
    interrupt pipeline (timer -> tasklet -> workqueue) and exports rendered
    boards to user space through a kfifo.

    Conventions of the embedding.
    - The C globals live in one record, [kstate]; every C function is a
      function on [kstate].
    - Code that indexes an array returns a [result]: [Fault] stands for an
      access outside the array (undefined behaviour in C).
    - Locks, memory barriers and pr_info/pr_debug output are not modelled:
      each function runs to completion on its own.  pr_warn is modelled
      (field [klog]).
    - The kernel services the driver calls (kfifo, timers, tasklets,
      workqueues, snprintf, printk_ratelimit) are modelled by their
      documented contract.
    - The target is a 64-bit kernel (LP64): int and unsigned int are 32 bits
      wide, long, unsigned long, size_t and ssize_t 64.
    - game.h, mcts.h and negamax.h are not part of the sources: the constants
      BOARD_SIZE, N_GRIDS, DRAWBUFFER_SIZE and the functions check_win, mcts,
      negamax_predict and count_active_nodes are parameters. *)

From Stdlib Require Import ZArith Ascii String List Bool Lia.
From stdpp Require Import base list.
Import ListNotations.

Local Open Scope Z_scope.

(** ** Results of code that may fault *)

Inductive result (A : Type) : Type :=
| Ok (a : A)
| Fault
| OutOfFuel.

Arguments Ok {A} a.
Arguments Fault {A}.
Arguments OutOfFuel {A}.

Definition bind {A B : Type} (r : result A) (k : A -> result B) : result B :=
  match r with
  | Ok a => k a
  | Fault => Fault
  | OutOfFuel => OutOfFuel
  end.

Notation "'let*' x ':=' r 'in' k" := (bind r (fun x => k))
  (at level 10, x name, r at level 100, k at level 200).

Definition is_ok {A : Type} (r : result A) : bool :=
  match r with Ok _ => true | _ => false end.

(** [a[i]] and [a[i] = x] on a C array held as a list. *)
Definition array_load {A : Type} (a : list A) (i : Z) : result A :=
  if 0 <=? i then
    match a !! Z.to_nat i with
    | Some x => Ok x
    | None => Fault
    end
  else Fault.

Definition array_store {A : Type} (a : list A) (i : Z) (x : A) : result (list A) :=
  if (0 <=? i) && (i <? Z.of_nat (length a)) then Ok (<[Z.to_nat i := x]> a)
  else Fault.

Definition nl : ascii := "010"%char.

(** ** kfifo (linux/kfifo.h), byte elements

    [kf_size] is the capacity fixed by kfifo_alloc, [kf_data] the bytes
    between the out and the in index, oldest first. *)

Record kfifo : Type := mk_kfifo {
  kf_size : Z;
  kf_data : list ascii
}.

Definition kfifo_len (f : kfifo) : Z := Z.of_nat (length (kf_data f)).
Definition kfifo_avail (f : kfifo) : Z := kf_size f - kfifo_len f.

(** kfifo_in copies at most [kfifo_avail] elements and returns how many. *)
Definition kfifo_in (f : kfifo) (src : list ascii) (len : Z) : kfifo * Z :=
  let l := Z.min len (kfifo_avail f) in
  (mk_kfifo (kf_size f) (kf_data f ++ firstn (Z.to_nat l) src), l).

(** A user-space destination: [ub_access_ok] is the answer of access_ok,
    [ub_writable] the number of bytes copy_to_user can store before it
    faults. *)
Record user_buf : Type := mk_user_buf {
  ub_access_ok : bool;
  ub_writable : Z
}.

Definition EFAULT : Z := 14.
Definition EAGAIN : Z := 11.
Definition ERESTARTSYS : Z := 512.
Definition ENOMEM : Z := 12.

(** kfifo_to_user: takes min(len, kfifo_len) bytes; when copy_to_user stops
    short only the bytes that reached user space leave the fifo and the
    call returns -EFAULT.  Result: fifo, bytes delivered, return value,
    [*copied]. *)
Definition kfifo_to_user (f : kfifo) (to : user_buf) (len : Z)
  : kfifo * list ascii * Z * Z :=
  let l := Z.min len (kfifo_len f) in
  let done := Z.min l (Z.max 0 (ub_writable to)) in
  let out := firstn (Z.to_nat done) (kf_data f) in
  let f' := mk_kfifo (kf_size f) (skipn (Z.to_nat done) (kf_data f)) in
  (f', out, if done <? l then - EFAULT else 0, done).

(** ** The driver's globals *)

(** struct kmldrv_attr (the rwlock is not modelled). *)
Record kmldrv_attr : Type := mk_attr {
  display : ascii;
  resume : ascii;
  end_ : ascii
}.

(** The four work items declared with DECLARE_WORK. *)
Inductive work : Type :=
| drawboard_work
| ai_one_work
| ai_two_work
| mcts_calc_load_work.

#[global] Instance work_eq_dec : EqDecision work.
Proof. solve_decision. Defined.

(** pr_warn lines: produce_board reports the number of bytes dropped. *)
Inductive kmsg : Type :=
| WarnDropped (n : Z).

Record kstate : Type := mk_kstate {
  attr_obj : kmldrv_attr;
  timer : bool;                    (* the timer is pending *)
  draw_buffer : list ascii;
  rx_fifo : kfifo;
  rx_wait : nat;                   (* wake_up_interruptible calls so far *)
  fast_buf : Z * Z;                (* head, tail *)
  mcts_avennode : Z * Z * Z;
  table : list ascii;
  turn : ascii;
  finish : Z;
  kmldrv_workqueue : list work;    (* pending work, oldest first *)
  game_tasklet : bool;             (* the tasklet is scheduled *)
  open_cnt : Z;
  ratelimit : nat;                 (* messages printk_ratelimit still lets through *)
  klog : list kmsg
}.

Definition set_attr_obj (v : kmldrv_attr) (s : kstate) : kstate :=
  mk_kstate v (timer s) (draw_buffer s) (rx_fifo s) (rx_wait s) (fast_buf s)
    (mcts_avennode s) (table s) (turn s) (finish s) (kmldrv_workqueue s)
    (game_tasklet s) (open_cnt s) (ratelimit s) (klog s).
Definition set_timer (v : bool) (s : kstate) : kstate :=
  mk_kstate (attr_obj s) v (draw_buffer s) (rx_fifo s) (rx_wait s) (fast_buf s)
    (mcts_avennode s) (table s) (turn s) (finish s) (kmldrv_workqueue s)
    (game_tasklet s) (open_cnt s) (ratelimit s) (klog s).
Definition set_draw_buffer (v : list ascii) (s : kstate) : kstate :=
  mk_kstate (attr_obj s) (timer s) v (rx_fifo s) (rx_wait s) (fast_buf s)
    (mcts_avennode s) (table s) (turn s) (finish s) (kmldrv_workqueue s)
    (game_tasklet s) (open_cnt s) (ratelimit s) (klog s).
Definition set_rx_fifo (v : kfifo) (s : kstate) : kstate :=
  mk_kstate (attr_obj s) (timer s) (draw_buffer s) v (rx_wait s) (fast_buf s)
    (mcts_avennode s) (table s) (turn s) (finish s) (kmldrv_workqueue s)
    (game_tasklet s) (open_cnt s) (ratelimit s) (klog s).
Definition set_rx_wait (v : nat) (s : kstate) : kstate :=
  mk_kstate (attr_obj s) (timer s) (draw_buffer s) (rx_fifo s) v (fast_buf s)
    (mcts_avennode s) (table s) (turn s) (finish s) (kmldrv_workqueue s)
    (game_tasklet s) (open_cnt s) (ratelimit s) (klog s).
Definition set_fast_buf (v : Z * Z) (s : kstate) : kstate :=
  mk_kstate (attr_obj s) (timer s) (draw_buffer s) (rx_fifo s) (rx_wait s) v
    (mcts_avennode s) (table s) (turn s) (finish s) (kmldrv_workqueue s)
    (game_tasklet s) (open_cnt s) (ratelimit s) (klog s).
Definition set_mcts_avennode (v : Z * Z * Z) (s : kstate) : kstate :=
  mk_kstate (attr_obj s) (timer s) (draw_buffer s) (rx_fifo s) (rx_wait s) (fast_buf s)
    v (table s) (turn s) (finish s) (kmldrv_workqueue s)
    (game_tasklet s) (open_cnt s) (ratelimit s) (klog s).
Definition set_table (v : list ascii) (s : kstate) : kstate :=
  mk_kstate (attr_obj s) (timer s) (draw_buffer s) (rx_fifo s) (rx_wait s) (fast_buf s)
    (mcts_avennode s) v (turn s) (finish s) (kmldrv_workqueue s)
    (game_tasklet s) (open_cnt s) (ratelimit s) (klog s).
Definition set_turn (v : ascii) (s : kstate) : kstate :=
  mk_kstate (attr_obj s) (timer s) (draw_buffer s) (rx_fifo s) (rx_wait s) (fast_buf s)
    (mcts_avennode s) (table s) v (finish s) (kmldrv_workqueue s)
    (game_tasklet s) (open_cnt s) (ratelimit s) (klog s).
Definition set_finish (v : Z) (s : kstate) : kstate :=
  mk_kstate (attr_obj s) (timer s) (draw_buffer s) (rx_fifo s) (rx_wait s) (fast_buf s)
    (mcts_avennode s) (table s) (turn s) v (kmldrv_workqueue s)
    (game_tasklet s) (open_cnt s) (ratelimit s) (klog s).
Definition set_kmldrv_workqueue (v : list work) (s : kstate) : kstate :=
  mk_kstate (attr_obj s) (timer s) (draw_buffer s) (rx_fifo s) (rx_wait s) (fast_buf s)
    (mcts_avennode s) (table s) (turn s) (finish s) v
    (game_tasklet s) (open_cnt s) (ratelimit s) (klog s).
Definition set_game_tasklet (v : bool) (s : kstate) : kstate :=
  mk_kstate (attr_obj s) (timer s) (draw_buffer s) (rx_fifo s) (rx_wait s) (fast_buf s)
    (mcts_avennode s) (table s) (turn s) (finish s) (kmldrv_workqueue s)
    v (open_cnt s) (ratelimit s) (klog s).
Definition set_open_cnt (v : Z) (s : kstate) : kstate :=
  mk_kstate (attr_obj s) (timer s) (draw_buffer s) (rx_fifo s) (rx_wait s) (fast_buf s)
    (mcts_avennode s) (table s) (turn s) (finish s) (kmldrv_workqueue s)
    (game_tasklet s) v (ratelimit s) (klog s).
Definition set_ratelimit (v : nat) (s : kstate) : kstate :=
  mk_kstate (attr_obj s) (timer s) (draw_buffer s) (rx_fifo s) (rx_wait s) (fast_buf s)
    (mcts_avennode s) (table s) (turn s) (finish s) (kmldrv_workqueue s)
    (game_tasklet s) (open_cnt s) v (klog s).
Definition set_klog (v : list kmsg) (s : kstate) : kstate :=
  mk_kstate (attr_obj s) (timer s) (draw_buffer s) (rx_fifo s) (rx_wait s) (fast_buf s)
    (mcts_avennode s) (table s) (turn s) (finish s) (kmldrv_workqueue s)
    (game_tasklet s) (open_cnt s) (ratelimit s) v.

(** ** Kernel services *)

(** mod_timer makes the timer pending, del_timer_sync takes it off. *)
Definition mod_timer (s : kstate) : kstate := set_timer true s.
Definition del_timer_sync (s : kstate) : kstate := set_timer false s.

(** queue_work does nothing when the item is already pending. *)
Definition queue_work (w : work) (s : kstate) : kstate :=
  if bool_decide (elem_of w (kmldrv_workqueue s)) then s
  else set_kmldrv_workqueue (kmldrv_workqueue s ++ [w]) s.

Definition tasklet_schedule (s : kstate) : kstate := set_game_tasklet true s.

Definition wake_up_interruptible (s : kstate) : kstate :=
  set_rx_wait (S (rx_wait s)) s.

(** printk_ratelimit: true, and one message of the burst is used up, as
    long as the burst is not exhausted. *)
Definition printk_ratelimit (s : kstate) : bool * kstate :=
  match ratelimit s with
  | O => (false, s)
  | S n => (true, set_ratelimit n s)
  end.

Definition pr_warn (m : kmsg) (s : kstate) : kstate :=
  set_klog (klog s ++ [m]) s.

(** 32-bit int arithmetic of atomic_t. *)
Definition wrap_int (z : Z) : Z := (z + 2 ^ 31) mod 2 ^ 32 - 2 ^ 31.

Definition atomic_inc_return (s : kstate) : Z * kstate :=
  let v := wrap_int (open_cnt s + 1) in (v, set_open_cnt v s).

(** atomic_dec_and_test: decrements and returns 1 exactly when the result
    is 0, else 0. *)
Definition atomic_dec_and_test (s : kstate) : Z * kstate :=
  let v := wrap_int (open_cnt s - 1) in
  ((if v =? 0 then 1 else 0), set_open_cnt v s).

(** snprintf(buf, size, ...) for an already formatted text: stores at most
    size - 1 characters and then a NUL, returns the length of the whole
    text. *)
Definition NUL : ascii := "000"%char.

Definition snprintf (buf : list ascii) (size : Z) (text : list ascii)
  : list ascii * Z :=
  let kept := firstn (Z.to_nat (size - 1)) text in
  let written := if 0 <? size then kept ++ [NUL] else [] in
  (written ++ skipn (length written) buf, Z.of_nat (length text)).

(** ** The driver *)

Section Driver.

(** game.h *)
Variable BOARD_SIZE : Z.
Variable N_GRIDS : Z.
Variable DRAWBUFFER_SIZE : Z.
Variable check_win : list ascii -> ascii.
(** mcts.h, negamax.h: the move each engine picks, -1 for none. *)
Variable mcts : list ascii -> ascii -> Z.
Variable negamax_predict : list ascii -> ascii -> Z.
Variable count_active_nodes : Z.
(** asm/page.h *)
Variable PAGE_SIZE : Z.

(** *** kmldrv_state_show *)

Definition state_text (a : kmldrv_attr) : list ascii :=
  [display a; " "%char; resume a; " "%char; end_ a; nl].

Definition kmldrv_state_show (buf : list ascii) (s : kstate) : list ascii * Z :=
  snprintf buf 6 (state_text (attr_obj s)).

(** *** produce_board *)

Definition produce_board (s : kstate) : kstate :=
  let '(f, len) := kfifo_in (rx_fifo s) (draw_buffer s) DRAWBUFFER_SIZE in
  let s1 := set_rx_fifo f s in
  if len <? DRAWBUFFER_SIZE then
    let '(go, s2) := printk_ratelimit s1 in
    if go then pr_warn (WarnDropped (DRAWBUFFER_SIZE - len)) s2 else s2
  else s1.

(** *** draw_board *)

(** The locals of draw_board: the buffer being filled, [i] and [k]. *)
Record cursor : Type := mk_cursor {
  cur_buf : list ascii;
  cur_i : Z;
  cur_k : Z
}.

(** [draw_buffer[i++] = c] *)
Definition put (c : ascii) (s : cursor) : result cursor :=
  let* b := array_store (cur_buf s) (cur_i s) c in
  Ok (mk_cursor b (cur_i s + 1) (cur_k s)).

(** [draw_buffer[i++] = table[k++]] *)
Definition put_cell (tbl : list ascii) (s : cursor) : result cursor :=
  let* c := array_load tbl (cur_k s) in
  let* b := array_store (cur_buf s) (cur_i s) c in
  Ok (mk_cursor b (cur_i s + 1) (cur_k s + 1)).

(** for (j = 0; j < (BOARD_SIZE << 1) - 1 && k < N_GRIDS; j++) *)
Fixpoint draw_cells (fuel : nat) (tbl : list ascii) (j : Z) (s : cursor)
  : result cursor :=
  if (j <? Z.shiftl BOARD_SIZE 1 - 1) && (cur_k s <? N_GRIDS) then
    match fuel with
    | O => OutOfFuel
    | S fuel' =>
        let* s1 := (if negb (Z.land j 1 =? 0) then put "|"%char s
                    else put_cell tbl s) in
        draw_cells fuel' tbl (j + 1) s1
    end
  else Ok s.

(** for (j = 0; j < (BOARD_SIZE << 1) - 1; j++) *)
Fixpoint draw_dashes (fuel : nat) (j : Z) (s : cursor) : result cursor :=
  if j <? Z.shiftl BOARD_SIZE 1 - 1 then
    match fuel with
    | O => OutOfFuel
    | S fuel' =>
        let* s1 := put "-"%char s in
        draw_dashes fuel' (j + 1) s1
    end
  else Ok s.

Definition row_fuel : nat := Z.to_nat (Z.shiftl BOARD_SIZE 1 - 1).

(** while (i < DRAWBUFFER_SIZE) *)
Fixpoint draw_rows (fuel : nat) (tbl : list ascii) (s : cursor) : result cursor :=
  if cur_i s <? DRAWBUFFER_SIZE then
    match fuel with
    | O => OutOfFuel
    | S fuel' =>
        let* s1 := draw_cells row_fuel tbl 0 s in
        let* s2 := put nl s1 in
        let* s3 := draw_dashes row_fuel 0 s2 in
        let* s4 := put nl s3 in
        draw_rows fuel' tbl s4
    end
  else Ok s.

(** Every turn of the while loop stores at least two bytes, so
    DRAWBUFFER_SIZE turns are always enough. *)
Definition draw_board (tbl : list ascii) (buf : list ascii) : result (list ascii) :=
  let* s1 := put nl (mk_cursor buf 0 0) in
  let* s2 := put nl s1 in
  let* s3 := draw_rows (Z.to_nat DRAWBUFFER_SIZE) tbl s2 in
  Ok (cur_buf s3).

(** *** fast_buf_clear *)

Definition fast_buf_clear (s : kstate) : kstate := set_fast_buf (0, 0) s.

(** *** Work functions *)

Definition drawboard_work_func (s : kstate) : result kstate :=
  if Ascii.eqb (display (attr_obj s)) "0" then Ok s
  else
    let* b := draw_board (table s) (draw_buffer s) in
    let s1 := set_draw_buffer b s in
    let s2 := produce_board s1 in
    Ok (wake_up_interruptible s2).

(** linux/sched/loadavg.h; unsigned long is 64 bits wide. *)
Definition FIXED_1 : Z := Z.shiftl 1 11.
Definition EXP_1 : Z := 1884.
Definition EXP_5 : Z := 2014.
Definition EXP_15 : Z := 2037.
Definition wrap_ulong (z : Z) : Z := z mod 2 ^ 64.

Definition calc_load (load exp active : Z) : Z :=
  let newload := wrap_ulong (load * exp + active * (FIXED_1 - exp)) in
  let newload := if load <=? active then wrap_ulong (newload + (FIXED_1 - 1))
                 else newload in
  newload / FIXED_1.

Definition mcts_calc_load (s : kstate) : kstate :=
  let active_nodes := wrap_ulong (count_active_nodes * FIXED_1) in
  let '(a0, a1, a2) := mcts_avennode s in
  set_mcts_avennode (calc_load a0 EXP_1 active_nodes,
                     calc_load a1 EXP_5 active_nodes,
                     calc_load a2 EXP_15 active_nodes) s.

Definition ai_one_work_func (s : kstate) : result kstate :=
  let move := mcts (table s) "O" in
  let* s1 := (if negb (move =? -1) then
                let* t := array_store (table s) move "O"%char in
                Ok (set_table t s)
              else Ok s) in
  Ok (set_finish 1 (set_turn "X" s1)).

Definition ai_two_work_func (s : kstate) : result kstate :=
  let move := negamax_predict (table s) "X" in
  let* s1 := (if negb (move =? -1) then
                let* t := array_store (table s) move "X"%char in
                Ok (set_table t s)
              else Ok s) in
  Ok (set_finish 1 (set_turn "O" s1)).

Definition work_func (w : work) (s : kstate) : result kstate :=
  match w with
  | drawboard_work => drawboard_work_func s
  | ai_one_work => ai_one_work_func s
  | ai_two_work => ai_two_work_func s
  | mcts_calc_load_work => Ok (mcts_calc_load s)
  end.

(** *** game_tasklet_func, ai_game *)

Definition game_tasklet_func (s : kstate) : kstate :=
  let s1 :=
    if negb (finish s =? 0) && Ascii.eqb (turn s) "O" then
      queue_work ai_one_work (set_finish 0 s)
    else if negb (finish s =? 0) && Ascii.eqb (turn s) "X" then
      queue_work ai_two_work (set_finish 0 s)
    else s in
  queue_work drawboard_work (queue_work mcts_calc_load_work s1).

Definition ai_game (s : kstate) : kstate := tasklet_schedule s.

(** *** timer_handler *)

Definition timer_handler (s : kstate) : result kstate :=
  let win := check_win (table s) in
  if Ascii.eqb win " " then Ok (mod_timer (ai_game s))
  else
    let* s1 := (if Ascii.eqb (display (attr_obj s)) "1" then
                  let* b := draw_board (table s) (draw_buffer s) in
                  Ok (wake_up_interruptible (produce_board (set_draw_buffer b s)))
                else Ok s) in
    if Ascii.eqb (end_ (attr_obj s1)) "0" then
      Ok (mod_timer (set_table (repeat " "%char (Z.to_nat N_GRIDS)) s1))
    else Ok s1.

(** *** kmldrv_read *)

(** What ends a sleep in wait_event_interruptible: a signal, or a
    producer that put bytes into rx_fifo and woke the queue. *)
Inductive wakeup : Type :=
| Signalled
| DataArrived (bytes : list ascii).

(** wait_event_interruptible(rx_wait, kfifo_len(&rx_fifo)): returns 0 at
    once when the condition holds, else sleeps; [None] when the caller
    is still asleep after the last wake-up of [env]. *)
Fixpoint wait_event_interruptible (env : list wakeup) (f : kfifo)
  : option (Z * kfifo * list wakeup) :=
  if negb (kfifo_len f =? 0) then Some (0, f, env)
  else
    match env with
    | [] => None
    | Signalled :: env' => Some (- ERESTARTSYS, f, env')
    | DataArrived bytes :: env' =>
        wait_event_interruptible env'
          (fst (kfifo_in f bytes (Z.of_nat (length bytes))))
    end.

Inductive read_result : Type :=
| Returns (ret : Z) (data : list ascii)  (* return value, bytes in the user buffer *)
| Asleep                                 (* still in wait_event_interruptible *)
| Spinning.                              (* the do-while loop has not ended *)

(** [return ret ? ret : read;] with [int ret] and [unsigned int read]: the
    two arms of the conditional meet as unsigned int, so a negative [ret]
    leaves as [ret + 2^32]; the ssize_t result (64 bits) holds that value
    unchanged. *)
Definition ret_or_read (ret read : Z) : Z :=
  if negb (ret =? 0) then ret mod 2 ^ 32 else read.

(** The do-while loop and the return that follows it; yields the value
    returned, the bytes copied last and the fifo.  [count] is what vfs_read
    passes, at most MAX_RW_COUNT, so kfifo_to_user's unsigned int holds
    it. *)
Fixpoint read_loop (fuel : nat) (nonblock : bool) (to : user_buf) (count : Z)
    (env : list wakeup) (f : kfifo) : read_result * kfifo :=
  match fuel with
  | O => (Spinning, f)
  | S fuel' =>
      let '(f1, data, ret, read) := kfifo_to_user f to count in
      if ret <? 0 then (Returns (ret_or_read ret read) data, f1)
      else if negb (read =? 0) then (Returns (ret_or_read ret read) data, f1)
      else if nonblock then (Returns (ret_or_read (- EAGAIN) read) data, f1)
      else
        match wait_event_interruptible env f1 with
        | None => (Asleep, f1)
        | Some (ret', f2, env') =>
            if ret' =? 0 then read_loop fuel' nonblock to count env' f2
            else (Returns (ret_or_read ret' read) data, f2)
        end
  end.

(** [nonblock] is file->f_flags & O_NONBLOCK, [lock_interrupted] tells
    whether mutex_lock_interruptible was interrupted. *)
Definition kmldrv_read (fuel : nat) (nonblock : bool) (to : user_buf) (count : Z)
    (lock_interrupted : bool) (env : list wakeup) (s : kstate)
  : read_result * kstate :=
  if negb (ub_access_ok to) then (Returns (- EFAULT) [], s)
  else if lock_interrupted then (Returns (- ERESTARTSYS) [], s)
  else
    let '(r, f) := read_loop fuel nonblock to count env (rx_fifo s) in
    (r, set_rx_fifo f s).

(** *** kmldrv_open, kmldrv_release *)

Definition kmldrv_open (s : kstate) : Z * kstate :=
  let '(v, s1) := atomic_inc_return s in
  (0, if v =? 1 then mod_timer s1 else s1).

(** flush_workqueue: every pending item runs (no work function queues
    work). *)
Fixpoint run_works (ws : list work) (s : kstate) : result kstate :=
  match ws with
  | [] => Ok s
  | w :: ws' => let* s1 := work_func w s in run_works ws' s1
  end.

Definition flush_workqueue (s : kstate) : result kstate :=
  run_works (kmldrv_workqueue s) (set_kmldrv_workqueue [] s).

Definition kmldrv_release (s : kstate) : result (Z * kstate) :=
  let '(t, s1) := atomic_dec_and_test s in
  if t =? 0 then
    let* s2 := flush_workqueue (del_timer_sync s1) in
    Ok (0, fast_buf_clear s2)
  else Ok (0, s1).

(** *** kmldrv_init *)

(** Outcomes of the kernel calls of kmldrv_init. *)
Record init_env : Type := mk_init_env {
  kfifo_alloc_ret : Z;
  alloc_chrdev_region_ret : Z;
  cdev_add_ret : Z;
  class_create_err : Z;            (* 0, or PTR_ERR of the class *)
  device_create_file_ret : Z;
  vmalloc_ok : bool;
  alloc_workqueue_ok : bool
}.

Definition kfifo_free (s : kstate) : kstate := set_rx_fifo (mk_kfifo 0 []) s.

Definition kmldrv_init (e : init_env) (s : kstate) : Z * kstate :=
  if kfifo_alloc_ret e <? 0 then (- ENOMEM, s)
  else
    let s1 := set_rx_fifo (mk_kfifo PAGE_SIZE []) s in
    if negb (alloc_chrdev_region_ret e =? 0) then
      (alloc_chrdev_region_ret e, kfifo_free s1)
    else if negb (cdev_add_ret e =? 0) then (cdev_add_ret e, kfifo_free s1)
    else if negb (class_create_err e =? 0) then (class_create_err e, kfifo_free s1)
    else if device_create_file_ret e <? 0 then
      (device_create_file_ret e, kfifo_free s1)
    else if negb (vmalloc_ok e) then (- ENOMEM, kfifo_free s1)
    else if negb (alloc_workqueue_ok e) then (- ENOMEM, kfifo_free s1)
    else
      let s2 := set_kmldrv_workqueue [] s1 in
      let s3 := set_table (repeat " "%char (Z.to_nat N_GRIDS)) s2 in
      let s4 := set_finish 1 (set_turn "O" s3) in
      let s5 := set_attr_obj (mk_attr "1" "1" "0") s4 in
      let s6 := set_open_cnt 0 (set_timer false s5) in
      (device_create_file_ret e, s6).

(** The statics before kmldrv_init: zero-filled; printk's burst is
    DEFAULT_RATELIMIT_BURST. *)
Definition boot_state : kstate :=
  mk_kstate (mk_attr NUL NUL NUL) false
    (repeat NUL (Z.to_nat DRAWBUFFER_SIZE)) (mk_kfifo 0 []) 0%nat (0, 0)
    (0, 0, 0) (repeat NUL (Z.to_nat N_GRIDS)) NUL 0 [] false 0 10%nat [].

Definition init_ok : init_env := mk_init_env 0 0 0 0 0 true true.

(** *** The pipeline, one event at a time *)

Inductive event : Type :=
| EvExpire       (* the pending timer expires and timer_handler runs *)
| EvSoftirq      (* the scheduled tasklet runs *)
| EvWorker       (* a worker runs the oldest pending work item *)
| EvOpen
| EvRelease.

Definition step (e : event) (s : kstate) : result kstate :=
  match e with
  | EvExpire => if timer s then timer_handler (set_timer false s) else Ok s
  | EvSoftirq =>
      if game_tasklet s then Ok (game_tasklet_func (set_game_tasklet false s))
      else Ok s
  | EvWorker =>
      match kmldrv_workqueue s with
      | [] => Ok s
      | w :: ws => work_func w (set_kmldrv_workqueue ws s)
      end
  | EvOpen => Ok (snd (kmldrv_open s))
  | EvRelease => let* r := kmldrv_release s in Ok (snd r)
  end.

Fixpoint run (es : list event) (s : kstate) : result kstate :=
  match es with
  | [] => Ok s
  | e :: es' => let* s1 := step e s in run es' s1
  end.

End Driver.

(** ** The snapshot format, as the specification words it

    Two leading newlines, then one block per board row: the cells of the
    row with a '|' between neighbours, a newline, a line of '-' as wide as
    the row, a newline.  [b] is the number of cells in a row. *)

Fixpoint row_text (cells : list ascii) : list ascii :=
  match cells with
  | [] => []
  | c :: rest =>
      match rest with
      | [] => [c]
      | _ :: _ => c :: "|"%char :: row_text rest
      end
  end.

Definition row_block (b : nat) (cells : list ascii) : list ascii :=
  row_text cells ++ nl :: repeat "-"%char (2 * b - 1) ++ [nl].

Fixpoint grid_text (b rows : nat) (tbl : list ascii) : list ascii :=
  match rows with
  | O => []
  | S r => row_block b (firstn b tbl) ++ grid_text b r (skipn b tbl)
  end.

Definition snapshot_layout (b : nat) (tbl : list ascii) : list ascii :=
  nl :: nl :: grid_text b b tbl.

(** Reading a snapshot back: every separator is checked, the cells are
    collected in order. *)

Definition expect (c : ascii) (text : list ascii) : option (list ascii) :=
  match text with
  | x :: rest => if Ascii.eqb x c then Some rest else None
  | [] => None
  end.

Fixpoint expect_n (n : nat) (c : ascii) (text : list ascii) : option (list ascii) :=
  match n with
  | O => Some text
  | S n' =>
      match expect c text with
      | Some rest => expect_n n' c rest
      | None => None
      end
  end.

Fixpoint parse_cells (n : nat) (text : list ascii) : option (list ascii * list ascii) :=
  match n with
  | O => Some ([], text)
  | S n' =>
      match text with
      | [] => None
      | c :: rest =>
          match n' with
          | O => Some ([c], rest)
          | S _ =>
              match expect "|"%char rest with
              | Some rest' =>
                  match parse_cells n' rest' with
                  | Some (cs, r) => Some (c :: cs, r)
                  | None => None
                  end
              | None => None
              end
          end
      end
  end.

Definition parse_row (b : nat) (text : list ascii) : option (list ascii * list ascii) :=
  match parse_cells b text with
  | Some (cs, r1) =>
      match expect nl r1 with
      | Some r2 =>
          match expect_n (2 * b - 1) "-"%char r2 with
          | Some r3 =>
              match expect nl r3 with
              | Some r4 => Some (cs, r4)
              | None => None
              end
          | None => None
          end
      | None => None
      end
  | None => None
  end.

Fixpoint parse_grid (b rows : nat) (text : list ascii) : option (list ascii) :=
  match rows with
  | O => match text with [] => Some [] | _ :: _ => None end
  | S r =>
      match parse_row b text with
      | Some (cs, rest) =>
          match parse_grid b r rest with
          | Some more => Some (cs ++ more)
          | None => None
          end
      | None => None
      end
  end.

Definition parse_snapshot (b : nat) (buf : list ascii) : option (list ascii) :=
  match expect nl buf with
  | Some r1 =>
      match expect nl r1 with
      | Some r2 => parse_grid b b r2
      | None => None
      end
  | None => None
  end.

(** The sizes game.h must give for draw_board to fill draw_buffer exactly:
    a square board, and two bytes plus 4 * BOARD_SIZE bytes per row. *)
Definition geometry (BOARD_SIZE N_GRIDS DRAWBUFFER_SIZE : Z) : Prop :=
  1 <= BOARD_SIZE /\ N_GRIDS = BOARD_SIZE * BOARD_SIZE /\
  DRAWBUFFER_SIZE = 4 * BOARD_SIZE * BOARD_SIZE + 2.

(** ** Vocabulary of the statements *)

(** The draw_board cursor that has filled [pre] and has [rest] still to
    fill. *)
Definition filled (pre rest : list ascii) (k : nat) : cursor :=
  mk_cursor (pre ++ rest) (Z.of_nat (length pre)) (Z.of_nat k).

(** The arrays have the sizes of their declarations. *)
Definition sized (N_GRIDS DRAWBUFFER_SIZE : Z) (s : kstate) : Prop :=
  Z.of_nat (length (table s)) = N_GRIDS /\
  Z.of_nat (length (draw_buffer s)) = DRAWBUFFER_SIZE.

(** The fifo holds no more than its capacity. *)
Definition fifo_ok (f : kfifo) : Prop := kfifo_len f <= kf_size f.

(** [w] is pending on the workqueue. *)
Definition pending (w : work) (s : kstate) : bool :=
  bool_decide (elem_of w (kmldrv_workqueue s)).

Definition is_move (w : work) : bool :=
  match w with
  | ai_one_work | ai_two_work => true
  | drawboard_work | mcts_calc_load_work => false
  end.

(** What an engine may answer on a board: -1 or the index of a cell. *)
Definition valid_move (tbl : list ascii) (m : Z) : Prop :=
  m = -1 \/ 0 <= m < Z.of_nat (length tbl).

Definition engine_ok (engine : list ascii -> ascii -> Z) : Prop :=
  forall tbl c, valid_move tbl (engine tbl c).

(** The board after an engine's answer [m] for the side [mark]. *)
Definition board_after (tbl : list ascii) (m : Z) (mark : ascii) : list ascii :=
  if m =? -1 then tbl else <[Z.to_nat m := mark]> tbl.

(** The text of a C string: the characters before the first NUL. *)
Fixpoint c_string (buf : list ascii) : list ascii :=
  match buf with
  | [] => []
  | c :: rest => if Ascii.eqb c NUL then [] else c :: c_string rest
  end.

(** The state is [s] except for the export queue, the printk budget and
    the log. *)
Definition same_but_export (s s' : kstate) : Prop :=
  attr_obj s' = attr_obj s /\ timer s' = timer s /\
  draw_buffer s' = draw_buffer s /\ rx_wait s' = rx_wait s /\
  fast_buf s' = fast_buf s /\ mcts_avennode s' = mcts_avennode s /\
  table s' = table s /\ turn s' = turn s /\ finish s' = finish s /\
  kmldrv_workqueue s' = kmldrv_workqueue s /\
  game_tasklet s' = game_tasklet s /\ open_cnt s' = open_cnt s.

(** *** read, as the specification words it *)

(** A suspended reader: it stays suspended until bytes are in the queue or
    a signal arrives. *)
Fixpoint await (env : list wakeup) (f : kfifo) : option (bool * kfifo) :=
  match env with
  | [] => None
  | Signalled :: _ => Some (false, f)
  | DataArrived bytes :: env' =>
      let f' := fst (kfifo_in f bytes (Z.of_nat (length bytes))) in
      if kfifo_len f' =? 0 then await env' f' else Some (true, f')
  end.

(** Take min(max_len, available) bytes off the queue. *)
Definition take_bytes (max_len : Z) (f : kfifo) : read_result * kfifo :=
  let n := Z.min max_len (kfifo_len f) in
  (Returns n (firstn (Z.to_nat n) (kf_data f)),
   mk_kfifo (kf_size f) (skipn (Z.to_nat n) (kf_data f))).

Definition read_spec (blocking : bool) (max_len : Z) (lock_interrupted : bool)
    (env : list wakeup) (f : kfifo) : read_result * kfifo :=
  if lock_interrupted then (Returns (- ERESTARTSYS) [], f)
  else if negb (kfifo_len f =? 0) then take_bytes max_len f
  else if negb blocking then (Returns (- EAGAIN) [], f)
  else
    match await env f with
    | None => (Asleep, f)
    | Some (false, f') => (Returns (- ERESTARTSYS) [], f')
    | Some (true, f') => take_bytes max_len f'
    end.

(** What kmldrv_read returns where the specification's read gives [r]: an
    error code that leaves the do-while loop comes out as an unsigned int;
    the code of an interrupted lock acquisition is returned as it is. *)
Definition as_returned (lock_interrupted : bool) (r : read_result) : read_result :=
  match r with
  | Returns ret data =>
      Returns (if lock_interrupted then ret
               else if ret <? 0 then ret + 2 ^ 32 else ret) data
  | _ => r
  end.

(** *** The first move task of a run *)

Definition move_pending (s : kstate) : option work :=
  find is_move (kmldrv_workqueue s).

Section FirstMove.
Variables BOARD_SIZE N_GRIDS DRAWBUFFER_SIZE : Z.
Variable check_win : list ascii -> ascii.
Variables mcts negamax_predict : list ascii -> ascii -> Z.
Variable count_active_nodes : Z.

(** The first move task that becomes pending while the events [es]
    happen, if any. *)
Fixpoint first_move (es : list event) (s : kstate) : result (option work) :=
  match move_pending s with
  | Some w => Ok (Some w)
  | None =>
      match es with
      | [] => Ok None
      | e :: es' =>
          let* s1 := step BOARD_SIZE N_GRIDS DRAWBUFFER_SIZE check_win mcts
                       negamax_predict count_active_nodes e s in
          first_move es' s1
      end
  end.
End FirstMove.

(** No move task has been scheduled since initialization. *)
Definition fresh (s : kstate) : Prop :=
  turn s = "O"%char /\ finish s <> 0 /\ move_pending s = None.

(** *** Instances used in the examples: a nine-cell board *)

(** The eight lines of a 3 x 3 board. *)
Definition lines_3x3 : list (nat * nat * nat) :=
  [(0, 1, 2); (3, 4, 5); (6, 7, 8); (0, 3, 6); (1, 4, 7); (2, 5, 8);
   (0, 4, 8); (2, 4, 6)]%nat.

Definition line_owner (tbl : list ascii) (l : nat * nat * nat) : option ascii :=
  let '(a, b, c) := l in
  let x := nth a tbl " "%char in
  if negb (Ascii.eqb x " ") && Ascii.eqb x (nth b tbl " "%char)
     && Ascii.eqb x (nth c tbl " "%char)
  then Some x else None.

(** A win check for nine cells: the owner of a full line, 'D' for a full
    board without one, ' ' otherwise. *)
Definition check_win_3x3 (tbl : list ascii) : ascii :=
  match omap (line_owner tbl) lines_3x3 with
  | x :: _ => x
  | [] => if existsb (Ascii.eqb " ") tbl then " "%char else "D"%char
  end.

(** An engine that takes the first empty cell. *)
Fixpoint first_empty (tbl : list ascii) (i : Z) : Z :=
  match tbl with
  | [] => -1
  | c :: rest => if Ascii.eqb c " " then i else first_empty rest (i + 1)
  end.

Definition first_empty_engine (tbl : list ascii) (mark : ascii) : Z :=
  first_empty tbl 0.

(** The driver after a successful kmldrv_init, for nine cells, a 38-byte
    draw_buffer and 4096-byte pages. *)
Definition loaded_3x3 : kstate :=
  snd (kmldrv_init 9 4096 init_ok (boot_state 9 38)).

Definition step_3x3 : event -> kstate -> result kstate :=
  step 3 9 38 check_win_3x3 first_empty_engine first_empty_engine 1.

(** [n] runs of the render task. *)
Fixpoint render_times (n : nat) (s : kstate) : result kstate :=
  match n with
  | O => Ok s
  | S n' => let* s1 := drawboard_work_func 3 9 38 s in render_times n' s1
  end.

(** *** The export step, as the specification words it *)

(** All or nothing: after produce_board the queue has grown by the whole
    draw_buffer or not at all. *)
Definition all_or_dropped (DRAWBUFFER_SIZE : Z) (s : kstate) : Prop :=
  kf_data (rx_fifo (produce_board DRAWBUFFER_SIZE s))
    = kf_data (rx_fifo s) ++ draw_buffer s \/
  kf_data (rx_fifo (produce_board DRAWBUFFER_SIZE s)) = kf_data (rx_fifo s).

(** What timer_handler leaves behind on a board that check_win reports as
    decided. *)
Definition after_final_render (b : nat) (DRAWBUFFER_SIZE : Z) (s : kstate) : kstate :=
  wake_up_interruptible
    (produce_board DRAWBUFFER_SIZE
       (set_draw_buffer (snapshot_layout b (table s)) s)).

(** The nine-cell driver after one and after 107 runs of the render task
    with no reader: 38 and 4066 bytes are queued. *)
Definition one_snapshot_3x3 : kstate :=
  match render_times 1 loaded_3x3 with
  | Ok s => s
  | _ => loaded_3x3
  end.

Definition nearly_full_3x3 : kstate :=
  match render_times 107 loaded_3x3 with
  | Ok s => s
  | _ => loaded_3x3
  end.

Definition release_3x3 : kstate -> result (Z * kstate) :=
  kmldrv_release 3 9 38 first_empty_engine first_empty_engine 1.

Definition run_3x3 : list event -> kstate -> result kstate :=
  run 3 9 38 check_win_3x3 first_empty_engine first_empty_engine 1.

(** The state timer_handler leaves behind. *)
Definition after_timer (B N D : Z) (check_win : list ascii -> ascii) (s : kstate)
  : kstate :=
  if Ascii.eqb (check_win (table s)) " " then mod_timer (ai_game s)
  else
    let s1 := if Ascii.eqb (display (attr_obj s)) "1"
              then after_final_render (Z.to_nat B) D s else s in
    if Ascii.eqb (end_ (attr_obj s)) "0"
    then mod_timer (set_table (repeat " "%char (Z.to_nat N)) s1)
    else s1.

(** A nine-cell board that X has won, with the timer pending. *)
Definition decided_3x3 : kstate :=
  set_timer true (set_table (list_ascii_of_string "XOOOXXOXX") loaded_3x3).

(** The nine-cell driver after 108 runs of the render task with no reader:
    the queue is full (107 snapshots and 30 bytes of the next); and the same
    with a board that X has won and the timer pending. *)
Definition full_queue_3x3 : kstate :=
  match render_times 108 loaded_3x3 with
  | Ok s => s
  | _ => loaded_3x3
  end.

Definition decided_full_3x3 : kstate :=
  set_timer true (set_table (list_ascii_of_string "XOOOXXOXX") full_queue_3x3).

(** The final export, as the specification words it: from [s] to [s'] the
    queue has gained the snapshot of the board. *)
Definition final_snapshot_exported (b : nat) (s s' : kstate) : Prop :=
  kf_data (rx_fifo s') = kf_data (rx_fifo s) ++ snapshot_layout b (table s).

(** The nine-cell driver with the display switched off and a tick due. *)
Definition display_off_3x3 : kstate :=
  set_timer true (set_attr_obj (mk_attr "0" "1" "0") loaded_3x3).

Definition never_moves (tbl : list ascii) (mark : ascii) : Z := -1.

(** A line of text with its newline. *)
Definition text_line (t : string) : list ascii := list_ascii_of_string t ++ [nl].

(** ** kmldrv_state_store, kmldrv_exit *)

(** isspace of the kernel's _ctype table: 9..13, 32 and 160. *)
Definition isspace (c : ascii) : bool :=
  let n := nat_of_ascii c in
  ((9 <=? n)%nat && (n <=? 13)%nat) || (n =? 32)%nat || (n =? 160)%nat.

Fixpoint skip_spaces (str : list ascii) : list ascii :=
  match str with
  | [] => []
  | c :: rest => if isspace c then skip_spaces rest else str
  end.

(** One %c of vsscanf: the scan stops at the end of the string, else one
    character is stored, white space or not. *)
Definition scan_c (str : list ascii) : option (ascii * list ascii) :=
  match str with
  | [] => None
  | c :: rest => Some (c, rest)
  end.

(** sscanf(buf, "%c %c %c", &display, &resume, &end): a blank in the
    format skips any white space of the input, none included; a flag whose
    conversion is not reached keeps its value.  [str] is the text of buf. *)
Definition sscanf_c_c_c (str : list ascii) (a : kmldrv_attr) : kmldrv_attr :=
  match scan_c str with
  | None => a
  | Some (d, s1) =>
      match scan_c (skip_spaces s1) with
      | None => mk_attr d (resume a) (end_ a)
      | Some (r, s2) =>
          match scan_c (skip_spaces s2) with
          | None => mk_attr d r (end_ a)
          | Some (e, _) => mk_attr d r e
          end
      end
  end.

Definition kmldrv_state_store (buf : list ascii) (count : Z) (s : kstate)
  : Z * kstate :=
  (count, set_attr_obj (sscanf_c_c_c (c_string buf) (attr_obj s)) s).

(** tasklet_kill returns once the tasklet is no longer scheduled: a
    scheduled tasklet runs first. *)
Definition tasklet_kill (s : kstate) : kstate :=
  if game_tasklet s then game_tasklet_func (set_game_tasklet false s) else s.

Section Exit.
Variables BOARD_SIZE N_GRIDS DRAWBUFFER_SIZE : Z.
Variables mcts negamax_predict : list ascii -> ascii -> Z.
Variable count_active_nodes : Z.

Definition kmldrv_exit (s : kstate) : result kstate :=
  let s1 := del_timer_sync s in
  let s2 := tasklet_kill s1 in
  let* s3 := flush_workqueue BOARD_SIZE N_GRIDS DRAWBUFFER_SIZE mcts
               negamax_predict count_active_nodes s2 in
  Ok (kfifo_free s3).
End Exit.

(** ** kmldrv_init and the kernel objects it takes *)

(** The kernel objects kmldrv_init registers or allocates besides rx_fifo:
    [true] while the driver holds the object. *)
Record held : Type := mk_held {
  h_region : bool;       (* alloc_chrdev_region / unregister_chrdev_region *)
  h_cdev : bool;         (* cdev_add / cdev_del, kobject_put *)
  h_class : bool;        (* class_create / class_destroy *)
  h_device : bool;       (* device_create / device_destroy *)
  h_fast_buf : bool;     (* vmalloc / vfree *)
  h_workqueue : bool     (* alloc_workqueue / destroy_workqueue *)
}.

Definition nothing_held : held := mk_held false false false false false false.

Definition unregister_chrdev_region (h : held) : held :=
  mk_held false (h_cdev h) (h_class h) (h_device h) (h_fast_buf h) (h_workqueue h).
Definition cdev_del (h : held) : held :=
  mk_held (h_region h) false (h_class h) (h_device h) (h_fast_buf h) (h_workqueue h).
Definition class_destroy (h : held) : held :=
  mk_held (h_region h) (h_cdev h) false (h_device h) (h_fast_buf h) (h_workqueue h).
Definition device_destroy (h : held) : held :=
  mk_held (h_region h) (h_cdev h) (h_class h) false (h_fast_buf h) (h_workqueue h).
Definition vfree (h : held) : held :=
  mk_held (h_region h) (h_cdev h) (h_class h) (h_device h) false (h_workqueue h).

(** The labels error_region and error_cdev of kmldrv_init (error_alloc frees
    rx_fifo, which is part of the state). *)
Definition error_region (h : held) : held := unregister_chrdev_region h.
Definition error_cdev (h : held) : held := error_region (cdev_del h).

(** kmldrv_init once more, for the objects it holds when it returns: each
    call that succeeds takes its object, each cleanup call on the way out
    gives one back.  device_create is not checked by the source and is taken
    to succeed. *)
Definition kmldrv_init_held (e : init_env) : held :=
  if kfifo_alloc_ret e <? 0 then nothing_held
  else if negb (alloc_chrdev_region_ret e =? 0) then nothing_held
  else
    let h1 := mk_held true false false false false false in
    if negb (cdev_add_ret e =? 0) then error_region h1
    else
      let h2 := mk_held true true false false false false in
      if negb (class_create_err e =? 0) then error_cdev h2
      else
        let h3 := mk_held true true true true false false in
        if device_create_file_ret e <? 0 then error_cdev h3
        else if negb (vmalloc_ok e) then
          error_cdev (class_destroy (device_destroy h3))
        else
          let h4 := mk_held true true true true true false in
          if negb (alloc_workqueue_ok e) then
            error_cdev (class_destroy (device_destroy (vfree h4)))
          else mk_held true true true true true true.

(** ** Invariants of the pipeline *)

(** A pending move task is the one of the side whose turn it is, and the
    flag is clear while it waits. *)
Definition move_inv (s : kstate) : Prop :=
  (pending ai_one_work s = true -> turn s = "O"%char /\ finish s = 0) /\
  (pending ai_two_work s = true -> turn s = "X"%char /\ finish s = 0).

Definition pipeline_inv (N_GRIDS DRAWBUFFER_SIZE : Z) (s : kstate) : Prop :=
  sized N_GRIDS DRAWBUFFER_SIZE s /\ fifo_ok (rx_fifo s) /\
  NoDup (kmldrv_workqueue s) /\ move_inv s.

(** The events of the interrupt pipeline itself: timer, tasklet, worker. *)
Definition is_tick (e : event) : bool :=
  match e with
  | EvExpire | EvSoftirq | EvWorker => true
  | EvOpen | EvRelease => false
  end.

(** No timer, tasklet or work is pending. *)
Definition quiescent (s : kstate) : Prop :=
  timer s = false /\ game_tasklet s = false /\ kmldrv_workqueue s = [].

(** The three averages of mcts_calc_load's sample. *)
Definition sample (count_active_nodes : Z) : Z := count_active_nodes * FIXED_1.

(** [new] lies between [old] and [target], and has moved unless [old] is
    already at [target]. *)
Definition toward (old new target : Z) : Prop :=
  Z.min old target <= new <= Z.max old target /\
  (old <> target -> new <> old) /\ (old = target -> new = old).

(** The arrays have their declared sizes and the queue is within its
    capacity. *)
Definition safe (N_GRIDS DRAWBUFFER_SIZE : Z) (s : kstate) : Prop :=
  sized N_GRIDS DRAWBUFFER_SIZE s /\ fifo_ok (rx_fifo s).



(** The nine-cell driver with a tick due, and what the tick leaves once the
    tasklet and the three work items have run. *)
Definition ticking_3x3 : kstate := set_timer true loaded_3x3.

Definition after_tick_3x3 : kstate :=
  match run_3x3 [EvExpire; EvSoftirq; EvWorker; EvWorker; EvWorker] ticking_3x3 with
  | Ok s => s
  | _ => ticking_3x3
  end.

(** The nine-cell driver in the middle of its work: the timer pending, the
    tasklet scheduled, and the three work items of the first tick still
    pending. *)
Definition busy_3x3 : kstate :=
  match run_3x3 [EvExpire; EvSoftirq; EvExpire] ticking_3x3 with
  | Ok s => s
  | _ => ticking_3x3
  end.

(** The marks a cell of the board can hold, and the characters of a
    snapshot of such a board. *)
Definition is_mark (c : ascii) : bool :=
  Ascii.eqb c " " || Ascii.eqb c "O" || Ascii.eqb c "X".

Definition is_drawn (c : ascii) : bool :=
  is_mark c || Ascii.eqb c nl || Ascii.eqb c "|" || Ascii.eqb c "-".

(** The arrays have their declared sizes and the board holds marks only. *)
Definition stream_inv (N_GRIDS DRAWBUFFER_SIZE : Z) (s : kstate) : Prop :=
  sized N_GRIDS DRAWBUFFER_SIZE s /\ forallb is_mark (table s) = true.

(** From [s] to [s'] the queue has kept its capacity and its bytes, and has
    gained [more], made of snapshot characters. *)
Definition extends_by (more : list ascii) (s s' : kstate) : Prop :=
  kf_data (rx_fifo s') = kf_data (rx_fifo s) ++ more /\
  kf_size (rx_fifo s') = kf_size (rx_fifo s) /\
  forallb is_drawn more = true.

(** * Proofs *)

(** ** Stores at the end of the filled part of a buffer *)

Lemma array_store_app {A : Type} (pre rest : list A) (x y : A) :
  array_store (pre ++ x :: rest) (Z.of_nat (length pre)) y = Ok (pre ++ y :: rest).
Proof.
  unfold array_store.
  assert (H : (0 <=? Z.of_nat (length pre)) &&
              (Z.of_nat (length pre) <? Z.of_nat (length (pre ++ x :: rest))) = true).
  { rewrite length_app. cbn [length].
    apply andb_true_intro. split.
    - apply Z.leb_le. lia.
    - apply Z.ltb_lt. lia. }
  rewrite H, Nat2Z.id. f_equal.
  rewrite (insert_app_r_alt pre (x :: rest) (length pre) y) by reflexivity.
  now rewrite Nat.sub_diag.
Qed.

Lemma array_load_nat {A : Type} (a : list A) (n : nat) (x : A) :
  a !! n = Some x -> array_load a (Z.of_nat n) = Ok x.
Proof.
  intros H. unfold array_load.
  destruct (0 <=? Z.of_nat n) eqn:E; [|apply Z.leb_gt in E; lia].
  now rewrite Nat2Z.id, H.
Qed.

Lemma filled_snoc pre c rest k :
  mk_cursor (pre ++ c :: rest) (Z.of_nat (length pre) + 1) (Z.of_nat k)
  = filled (pre ++ [c]) rest k.
Proof.
  unfold filled. rewrite <- app_assoc, length_app. cbn [length app].
  f_equal. lia.
Qed.

Lemma put_filled c pre x rest k :
  put c (filled pre (x :: rest) k) = Ok (filled (pre ++ [c]) rest k).
Proof.
  unfold put, filled. cbn [cur_buf cur_i cur_k].
  rewrite array_store_app. cbn [bind]. now rewrite filled_snoc.
Qed.

Lemma put_cell_filled tbl c pre x rest k :
  tbl !! k = Some c ->
  put_cell tbl (filled pre (x :: rest) k) = Ok (filled (pre ++ [c]) rest (S k)).
Proof.
  intros H. unfold put_cell, filled. cbn [cur_buf cur_i cur_k].
  rewrite (array_load_nat _ _ _ H). cbn [bind].
  rewrite array_store_app. cbn [bind].
  replace (Z.of_nat k + 1) with (Z.of_nat (S k)) by lia.
  now rewrite filled_snoc.
Qed.

Lemma land_1_even m : Z.land (2 * m) 1 = 0.
Proof.
  change 1 with (Z.ones 1). rewrite Z.land_ones by lia.
  change (2 ^ 1) with 2. rewrite Z.mul_comm. apply Z.mod_mul. lia.
Qed.

Lemma land_1_odd m : Z.land (2 * m + 1) 1 = 1.
Proof.
  change 1 with (Z.ones 1) at 2. rewrite Z.land_ones by lia.
  change (2 ^ 1) with 2. rewrite Z.add_comm, Z.mul_comm, Z.mod_add by lia.
  reflexivity.
Qed.

Lemma shiftl_1 b : Z.shiftl b 1 = 2 * b.
Proof. rewrite Z.shiftl_mul_pow2 by lia. change (2 ^ 1) with 2. lia. Qed.

Lemma row_text_cons2 c c' cs :
  row_text (c :: c' :: cs) = c :: "|"%char :: row_text (c' :: cs).
Proof. reflexivity. Qed.

Lemma length_row_text cs : length (row_text cs) = (2 * length cs - 1)%nat.
Proof.
  induction cs as [|c [|c' cs] IH]; try reflexivity.
  rewrite row_text_cons2. cbn [length] in *. lia.
Qed.

Lemma split_at {A : Type} (n : nat) (l : list A) :
  (n <= length l)%nat -> exists l1 l2, l = l1 ++ l2 /\ length l1 = n.
Proof.
  intros H. exists (firstn n l), (skipn n l). split.
  - symmetry. apply firstn_skipn.
  - rewrite length_firstn. lia.
Qed.

Section RenderLoops.
Variables B N D : Z.
Hypothesis HB : 1 <= B.

Lemma draw_cells_stop fuel tbl j s :
  (j <? Z.shiftl B 1 - 1) && (cur_k s <? N) = false ->
  draw_cells B N fuel tbl j s = Ok s.
Proof. intros H. destruct fuel; simpl; now rewrite H. Qed.

Lemma draw_cells_step fuel tbl j s :
  (j <? Z.shiftl B 1 - 1) && (cur_k s <? N) = true ->
  draw_cells B N (S fuel) tbl j s =
  bind (if negb (Z.land j 1 =? 0) then put "|"%char s else put_cell tbl s)
       (fun s1 => draw_cells B N fuel tbl (j + 1) s1).
Proof. intros H. simpl. now rewrite H. Qed.

Lemma draw_cells_row tbl cs :
  cs <> [] ->
  forall tpre tpost pre room rest fuel,
    tbl = tpre ++ cs ++ tpost ->
    Z.of_nat (length (tpre ++ cs)) <= N ->
    length room = length (row_text cs) ->
    (length (row_text cs) <= fuel)%nat ->
    draw_cells B N fuel tbl (2 * (B - Z.of_nat (length cs)))
      (filled pre (room ++ rest) (length tpre))
    = Ok (filled (pre ++ row_text cs) rest (length tpre + length cs)).
Proof.
  induction cs as [|c cs IH]; [congruence|]. intros _.
  intros tpre tpost pre room rest fuel Htbl HN Hroom Hfuel.
  assert (Hc : tbl !! length tpre = Some c).
  { rewrite Htbl. rewrite lookup_app_r by lia. now rewrite Nat.sub_diag. }
  rewrite length_app in HN. cbn [length] in HN.
  destruct cs as [|c' cs].
  - (* last cell of the row *)
    cbn [row_text length] in *.
    destruct room as [|x [|? ?]]; try discriminate.
    destruct fuel as [|fuel]; [lia|].
    rewrite draw_cells_step.
    2:{ unfold filled; cbn [cur_k]. rewrite shiftl_1.
        apply andb_true_intro; split; apply Z.ltb_lt; lia. }
    replace (2 * (B - Z.of_nat 1)) with (2 * (B - 1)) by lia.
    rewrite land_1_even. cbn [Z.eqb negb app].
    rewrite (put_cell_filled _ _ _ _ _ _ Hc). cbn [bind].
    rewrite draw_cells_stop.
    2:{ rewrite shiftl_1. apply andb_false_intro1. apply Z.ltb_ge. lia. }
    f_equal. f_equal. lia.
  - (* a cell, a bar, and the rest of the row *)
    rewrite (row_text_cons2 c c' cs) in *.
    cbn [length] in Hroom, Hfuel, HN |- *.
    destruct room as [|x [|y room]]; try discriminate.
    destruct fuel as [|[|fuel]]; try lia.
    rewrite draw_cells_step.
    2:{ unfold filled; cbn [cur_k]. rewrite shiftl_1.
        apply andb_true_intro; split; apply Z.ltb_lt; lia. }
    rewrite land_1_even. cbn [Z.eqb negb app].
    rewrite (put_cell_filled _ _ _ _ _ _ Hc). cbn [bind].
    rewrite draw_cells_step.
    2:{ unfold filled; cbn [cur_k]. rewrite shiftl_1.
        apply andb_true_intro; split; apply Z.ltb_lt; lia. }
    rewrite land_1_odd. cbn [Z.eqb negb].
    rewrite put_filled. cbn [bind].
    specialize (IH ltac:(discriminate) (tpre ++ [c]) tpost
                  ((pre ++ [c]) ++ ["|"%char]) room rest fuel).
    replace (2 * (B - Z.of_nat (S (S (length cs)))) + 1 + 1)
      with (2 * (B - Z.of_nat (length (c' :: cs)))) by (cbn [length]; lia).
    replace (S (length tpre)) with (length (tpre ++ [c]))
      by (rewrite length_app; cbn [length]; lia).
    rewrite IH.
    + f_equal. rewrite <- !app_assoc. cbn [app]. f_equal.
      rewrite length_app. cbn [length]. lia.
    + rewrite Htbl, <- app_assoc. reflexivity.
    + rewrite !length_app. cbn [length]. lia.
    + cbn [length] in Hroom. lia.
    + lia.
Qed.

Lemma draw_dashes_stop fuel j s :
  (j <? Z.shiftl B 1 - 1) = false -> draw_dashes B fuel j s = Ok s.
Proof. intros H. destruct fuel; simpl; now rewrite H. Qed.

Lemma draw_dashes_step fuel j s :
  (j <? Z.shiftl B 1 - 1) = true ->
  draw_dashes B (S fuel) j s =
  bind (put "-"%char s) (fun s1 => draw_dashes B fuel (j + 1) s1).
Proof. intros H. simpl. now rewrite H. Qed.

Lemma draw_dashes_line n :
  forall pre room rest k fuel,
    length room = n -> (n <= fuel)%nat -> Z.of_nat n <= 2 * B - 1 ->
    draw_dashes B fuel (2 * B - 1 - Z.of_nat n) (filled pre (room ++ rest) k)
    = Ok (filled (pre ++ repeat "-"%char n) rest k).
Proof.
  induction n as [|n IH]; intros pre room rest k fuel Hroom Hfuel Hn.
  - destruct room; [|discriminate]. cbn [repeat app].
    rewrite draw_dashes_stop, app_nil_r; [reflexivity|].
    rewrite shiftl_1. apply Z.ltb_ge. lia.
  - destruct room as [|x room]; [discriminate|].
    destruct fuel as [|fuel]; [lia|].
    rewrite draw_dashes_step by (rewrite shiftl_1; apply Z.ltb_lt; lia).
    cbn [app]. rewrite put_filled. cbn [bind].
    replace (2 * B - 1 - Z.of_nat (S n) + 1) with (2 * B - 1 - Z.of_nat n) by lia.
    rewrite IH by (cbn [length] in Hroom; lia).
    rewrite <- app_assoc. reflexivity.
Qed.

Lemma draw_rows_stop fuel tbl s :
  (cur_i s <? D) = false -> draw_rows B N D fuel tbl s = Ok s.
Proof. intros H. destruct fuel; simpl; now rewrite H. Qed.

Lemma draw_rows_step fuel tbl s :
  (cur_i s <? D) = true ->
  draw_rows B N D (S fuel) tbl s =
  bind (draw_cells B N (row_fuel B) tbl 0 s) (fun s1 =>
  bind (put nl s1) (fun s2 =>
  bind (draw_dashes B (row_fuel B) 0 s2) (fun s3 =>
  bind (put nl s3) (fun s4 => draw_rows B N D fuel tbl s4)))).
Proof. intros H. simpl. now rewrite H. Qed.

Variable b : nat.
Hypothesis Hb : Z.of_nat b = B.

Lemma draw_rows_grid tbl r :
  forall tpre trest pre room fuel,
    tbl = tpre ++ trest ->
    Z.of_nat (length tbl) <= N ->
    length trest = (r * b)%nat ->
    length room = (r * (4 * b))%nat ->
    Z.of_nat (length pre) + Z.of_nat (length room) = D ->
    (r <= fuel)%nat ->
    draw_rows B N D fuel tbl (filled pre room (length tpre))
    = Ok (filled (pre ++ grid_text b r trest) [] (length tbl)).
Proof.
  induction r as [|r IH];
    intros tpre trest pre room fuel Htbl HN Htrest Hroom HD Hfuel.
  - destruct room; [|discriminate]. destruct trest; [|discriminate].
    cbn [length] in HD. cbn [grid_text].
    rewrite draw_rows_stop by (unfold filled; cbn [cur_i]; apply Z.ltb_ge; lia).
    rewrite Htbl, !app_nil_r. reflexivity.
  - destruct fuel as [|fuel]; [lia|].
    rewrite draw_rows_step
      by (unfold filled; cbn [cur_i]; apply Z.ltb_lt; lia).
    (* the cells of this row and the rows below *)
    assert (Hcs : length (firstn b trest) = b)
      by (rewrite length_firstn; lia).
    assert (Hcs0 : firstn b trest <> []).
    { intros E. rewrite E in Hcs. cbn in Hcs. lia. }
    assert (Hrt : length (row_text (firstn b trest)) = (2 * b - 1)%nat)
      by (rewrite length_row_text; lia).
    (* the part of the buffer this row fills *)
    destruct (split_at (2 * b - 1) room) as (room1 & q1 & E1 & L1); [lia|].
    destruct q1 as [|x q1];
      [subst room; rewrite length_app in Hroom; cbn [length] in Hroom; lia|].
    assert (Lq1 : length q1 = (2 * b - 1 + 1 + r * (4 * b))%nat).
    { subst room. rewrite length_app in Hroom. cbn [length] in Hroom. lia. }
    destruct (split_at (2 * b - 1) q1) as (room2 & q2 & E2 & L2); [lia|].
    destruct q2 as [|y room'];
      [subst q1; rewrite length_app in Lq1; cbn [length] in Lq1; lia|].
    assert (Lroom' : length room' = (r * (4 * b))%nat).
    { subst q1. rewrite length_app in Lq1. cbn [length] in Lq1. lia. }
    subst room q1.
    pose proof (draw_cells_row tbl (firstn b trest) Hcs0 tpre (skipn b trest)
                  pre room1 (x :: room2 ++ y :: room') (row_fuel B)) as Hrow.
    rewrite Hcs in Hrow.
    replace (2 * (B - Z.of_nat b)) with 0 in Hrow by lia.
    rewrite Hrow; clear Hrow.
    + cbn [bind]. rewrite put_filled. cbn [bind].
      pose proof (draw_dashes_line (2 * b - 1) ((pre ++ row_text (firstn b trest)) ++ [nl])
                    room2 (y :: room') (length tpre + b) (row_fuel B)) as Hd.
      replace (2 * B - 1 - Z.of_nat (2 * b - 1)) with 0 in Hd by lia.
      rewrite Hd by (unfold row_fuel; rewrite ?shiftl_1; lia). clear Hd.
      cbn [bind]. rewrite put_filled. cbn [bind].
      replace (length tpre + b)%nat with (length (tpre ++ firstn b trest))
        by (rewrite length_app; lia).
      rewrite (IH (tpre ++ firstn b trest) (skipn b trest)).
      * f_equal. cbn [grid_text]. unfold row_block.
        rewrite <- !app_assoc. cbn [app]. rewrite <- !app_assoc. reflexivity.
      * rewrite <- app_assoc, firstn_skipn. exact Htbl.
      * exact HN.
      * rewrite length_skipn. lia.
      * exact Lroom'.
      * rewrite !length_app, repeat_length. cbn [length].
        rewrite !length_app in HD. cbn [length] in HD.
        rewrite length_app in HD. cbn [length] in HD. lia.
      * lia.
    + rewrite firstn_skipn. exact Htbl.
    + rewrite Htbl in HN. rewrite length_app in HN |- *.
      rewrite Hcs. lia.
    + lia.
    + unfold row_fuel. rewrite shiftl_1. lia.
Qed.
End RenderLoops.

Lemma draw_board_layout B N D tbl buf :
  geometry B N D ->
  Z.of_nat (length tbl) = N ->
  Z.of_nat (length buf) = D ->
  draw_board B N D tbl buf = Ok (snapshot_layout (Z.to_nat B) tbl).
Proof.
  intros (HB & HN & HD) Ht Hb.
  destruct buf as [|x [|y room]]; cbn [length] in Hb; try nia.
  unfold draw_board.
  change (mk_cursor (x :: y :: room) 0 0) with (filled [] (x :: y :: room) 0).
  rewrite put_filled. cbn [bind app]. rewrite put_filled. cbn [bind app].
  change 0%nat with (@length ascii []) at 1.
  rewrite (draw_rows_grid B N D HB (Z.to_nat B) ltac:(lia) tbl (Z.to_nat B)
             [] tbl [nl; nl] room).
  - cbn [bind filled cur_buf]. unfold filled. cbn [cur_buf].
    now rewrite app_nil_r.
  - reflexivity.
  - lia.
  - nia.
  - nia.
  - cbn [length]. lia.
  - nia.
Qed.

(** ** The loop budgets of draw_board are never exhausted *)

Section RenderBudget.
Variables B N D : Z.

Lemma put_cur_i c s s' : put c s = Ok s' -> cur_i s' = cur_i s + 1.
Proof.
  unfold put. destruct (array_store (cur_buf s) (cur_i s) c); cbn [bind];
    try discriminate.
  now intros [= <-].
Qed.

Lemma put_cell_cur_i tbl s s' : put_cell tbl s = Ok s' -> cur_i s' = cur_i s + 1.
Proof.
  unfold put_cell. destruct (array_load tbl (cur_k s)); cbn [bind];
    try discriminate.
  destruct (array_store (cur_buf s) (cur_i s) a); cbn [bind]; try discriminate.
  now intros [= <-].
Qed.

Lemma put_no_timeout c s : put c s <> OutOfFuel.
Proof.
  unfold put. destruct (array_store (cur_buf s) (cur_i s) c) eqn:E;
    cbn [bind]; try discriminate.
  unfold array_store in E.
  destruct ((0 <=? cur_i s) && (cur_i s <? Z.of_nat (length (cur_buf s))));
    discriminate.
Qed.

Lemma put_cell_no_timeout tbl s : put_cell tbl s <> OutOfFuel.
Proof.
  unfold put_cell, array_load.
  destruct (0 <=? cur_k s); [|discriminate].
  destruct (tbl !! Z.to_nat (cur_k s)) as [c|]; cbn [bind]; [|discriminate].
  unfold array_store.
  destruct ((0 <=? cur_i s) && (cur_i s <? Z.of_nat (length (cur_buf s))));
    discriminate.
Qed.

Lemma draw_cells_budget tbl fuel :
  forall j s, Z.shiftl B 1 - 1 - j <= Z.of_nat fuel ->
  match draw_cells B N fuel tbl j s with
  | Ok s' => cur_i s <= cur_i s'
  | Fault => True
  | OutOfFuel => False
  end.
Proof.
  induction fuel as [|fuel IH]; intros j s Hf; cbn [draw_cells].
  - destruct (j <? Z.shiftl B 1 - 1) eqn:E; [apply Z.ltb_lt in E; lia|].
    cbn [andb]. lia.
  - destruct ((j <? Z.shiftl B 1 - 1) && (cur_k s <? N)); [|lia].
    destruct (if negb (Z.land j 1 =? 0) then put "|"%char s else put_cell tbl s)
      as [s1| |] eqn:E1; cbn [bind]; [|exact I|].
    + assert (H1 : cur_i s1 = cur_i s + 1).
      { destruct (negb (Z.land j 1 =? 0));
          [eapply put_cur_i | eapply put_cell_cur_i]; exact E1. }
      specialize (IH (j + 1) s1 ltac:(lia)).
      destruct (draw_cells B N fuel tbl (j + 1) s1); [lia | exact I | exact IH].
    + destruct (negb (Z.land j 1 =? 0));
        [now apply put_no_timeout in E1 | now apply put_cell_no_timeout in E1].
Qed.

Lemma draw_dashes_budget fuel :
  forall j s, Z.shiftl B 1 - 1 - j <= Z.of_nat fuel ->
  match draw_dashes B fuel j s with
  | Ok s' => cur_i s <= cur_i s'
  | Fault => True
  | OutOfFuel => False
  end.
Proof.
  induction fuel as [|fuel IH]; intros j s Hf; cbn [draw_dashes].
  - destruct (j <? Z.shiftl B 1 - 1) eqn:E; [apply Z.ltb_lt in E; lia | lia].
  - destruct (j <? Z.shiftl B 1 - 1); [|lia].
    destruct (put "-"%char s) as [s1| |] eqn:E1; cbn [bind]; [|exact I|].
    + apply put_cur_i in E1. specialize (IH (j + 1) s1 ltac:(lia)).
      destruct (draw_dashes B fuel (j + 1) s1); [lia | exact I | exact IH].
    + now apply put_no_timeout in E1.
Qed.


Lemma draw_rows_budget tbl fuel :
  forall s, D - cur_i s <= Z.of_nat fuel ->
  draw_rows B N D fuel tbl s <> OutOfFuel.
Proof.
  induction fuel as [|fuel IH]; intros s Hf; cbn [draw_rows].
  - destruct (cur_i s <? D) eqn:E; [apply Z.ltb_lt in E; lia | discriminate].
  - destruct (cur_i s <? D); [|discriminate].
    pose proof (draw_cells_budget tbl (row_fuel B) 0 s) as H1.
    destruct (draw_cells B N (row_fuel B) tbl 0 s) as [s1| |]; cbn [bind];
      [|discriminate|exfalso; apply H1; unfold row_fuel; lia].
    specialize (H1 ltac:(unfold row_fuel; lia)).
    destruct (put nl s1) as [s2| |] eqn:E2; cbn [bind];
      [|discriminate|now apply put_no_timeout in E2].
    apply put_cur_i in E2.
    pose proof (draw_dashes_budget (row_fuel B) 0 s2) as H3.
    destruct (draw_dashes B (row_fuel B) 0 s2) as [s3| |]; cbn [bind];
      [|discriminate|exfalso; apply H3; unfold row_fuel; lia].
    specialize (H3 ltac:(unfold row_fuel; lia)).
    destruct (put nl s3) as [s4| |] eqn:E4; cbn [bind];
      [|discriminate|now apply put_no_timeout in E4].
    apply put_cur_i in E4. apply IH. lia.
Qed.

(** X15: whatever the sizes, draw_board ends: with a filled buffer or with
    a store outside draw_buffer.  Every turn of its while loop stores at
    least the two newlines, so the loop is left within DRAWBUFFER_SIZE
    turns. *)
Lemma draw_board_terminates tbl buf : draw_board B N D tbl buf <> OutOfFuel.
Proof.
  unfold draw_board.
  destruct (put nl (mk_cursor buf 0 0)) as [s1| |] eqn:E1; cbn [bind];
    [|discriminate|now apply put_no_timeout in E1].
  apply put_cur_i in E1. cbn [cur_i] in E1.
  destruct (put nl s1) as [s2| |] eqn:E2; cbn [bind];
    [|discriminate|now apply put_no_timeout in E2].
  apply put_cur_i in E2.
  pose proof (draw_rows_budget tbl (Z.to_nat D) s2 ltac:(lia)) as H.
  destruct (draw_rows B N D (Z.to_nat D) tbl s2); cbn [bind];
    [discriminate | discriminate | contradiction].
Qed.

End RenderBudget.

(** With nine cells a buffer of 41 bytes is overrun: the fourth turn of the
    while loop starts at byte 38 and stores seven bytes. *)
Example draw_board_overrun :
  draw_board 3 9 41 (repeat " "%char 9) (repeat NUL 41) = Fault.
Proof. reflexivity. Qed.

(** ** Reading the layout back *)

Lemma expect_same c rest : expect c (c :: rest) = Some rest.
Proof. unfold expect. now rewrite Ascii.eqb_refl. Qed.

Lemma expect_n_repeat n c rest : expect_n n c (repeat c n ++ rest) = Some rest.
Proof.
  induction n as [|n IH]; [reflexivity|].
  cbn [repeat app expect_n]. now rewrite expect_same.
Qed.

Lemma parse_cells_row_text cs rest :
  parse_cells (length cs) (row_text cs ++ rest) = Some (cs, rest).
Proof.
  induction cs as [|c [|c' cs] IH]; try reflexivity.
  rewrite row_text_cons2.
  change (length (c :: c' :: cs)) with (S (length (c' :: cs))).
  cbn [app parse_cells]. cbn [length] in *.
  rewrite expect_same, IH. reflexivity.
Qed.

Lemma parse_row_block b cs rest :
  length cs = b ->
  parse_row b (row_block b cs ++ rest) = Some (cs, rest).
Proof.
  intros <-. unfold parse_row, row_block.
  rewrite <- app_assoc, parse_cells_row_text. cbn [app].
  rewrite expect_same, <- app_assoc, expect_n_repeat. cbn [app].
  now rewrite expect_same.
Qed.

Lemma parse_grid_text b r :
  forall tbl, length tbl = (r * b)%nat ->
  parse_grid b r (grid_text b r tbl) = Some tbl.
Proof.
  induction r as [|r IH]; intros tbl Hlen.
  - destruct tbl; [reflexivity | discriminate].
  - cbn [grid_text parse_grid].
    rewrite parse_row_block by (rewrite length_firstn; lia).
    rewrite IH by (rewrite length_skipn; lia).
    now rewrite firstn_skipn.
Qed.

Lemma parse_snapshot_layout b tbl :
  length tbl = (b * b)%nat ->
  parse_snapshot b (snapshot_layout b tbl) = Some tbl.
Proof.
  intros H. unfold parse_snapshot, snapshot_layout.
  rewrite !expect_same. now apply parse_grid_text.
Qed.

Lemma length_grid_text b r :
  forall tbl, (1 <= b)%nat -> length tbl = (r * b)%nat ->
  length (grid_text b r tbl) = (r * (4 * b))%nat.
Proof.
  induction r as [|r IH]; intros tbl Hb Hlen; [reflexivity|].
  cbn [grid_text]. unfold row_block.
  rewrite !length_app, length_row_text, length_firstn. cbn [length].
  rewrite length_app, repeat_length, IH by (rewrite ?length_skipn; lia).
  cbn [length]. lia.
Qed.

Lemma length_snapshot_layout b tbl :
  (1 <= b)%nat -> length tbl = (b * b)%nat ->
  length (snapshot_layout b tbl) = (4 * b * b + 2)%nat.
Proof.
  intros Hb Hlen. unfold snapshot_layout. cbn [length].
  rewrite length_grid_text by assumption. lia.
Qed.

(** ** Rendering *)

(** C8: with the sizes of a square board, draw_board fills draw_buffer
    exactly (a snapshot of DRAWBUFFER_SIZE bytes) with two newlines and then,
    for every row, the cells separated by '|', a newline, a line of '-' and a
    newline; reading that grid back gives the board that was drawn, cell for
    cell, whatever the marks are. *)
Theorem draw_board_roundtrip B N D tbl buf :
  geometry B N D ->
  Z.of_nat (length tbl) = N ->
  Z.of_nat (length buf) = D ->
  exists snap,
    draw_board B N D tbl buf = Ok snap /\
    Z.of_nat (length snap) = D /\
    firstn 2 snap = [nl; nl] /\
    snap = snapshot_layout (Z.to_nat B) tbl /\
    parse_snapshot (Z.to_nat B) snap = Some tbl.
Proof.
  intros Hgeo Ht Hb. exists (snapshot_layout (Z.to_nat B) tbl).
  destruct Hgeo as (HB & HN & HD).
  assert (Hlen : length tbl = (Z.to_nat B * Z.to_nat B)%nat) by nia.
  split; [apply draw_board_layout; unfold geometry; auto|].
  split; [rewrite length_snapshot_layout by (assumption || lia); nia|].
  split; [reflexivity|].
  split; [reflexivity|].
  now apply parse_snapshot_layout.
Qed.

(** A full nine-cell board with X on the diagonal. *)
Lemma draw_board_roundtrip_witness :
  geometry 3 9 38 /\
  exists snap,
    draw_board 3 9 38 (list_ascii_of_string "XOOOXXOXX") (repeat NUL 38)
      = Ok snap /\
    Z.of_nat (length snap) = 38 /\
    firstn 2 snap = [nl; nl] /\
    snap = snapshot_layout 3 (list_ascii_of_string "XOOOXXOXX") /\
    parse_snapshot 3 snap = Some (list_ascii_of_string "XOOOXXOXX").
Proof.
  assert (G : geometry 3 9 38) by (unfold geometry; lia).
  split; [exact G|].
  exact (draw_board_roundtrip 3 9 38 (list_ascii_of_string "XOOOXXOXX")
           (repeat NUL 38) G eq_refl eq_refl).
Defined.

Example draw_board_empty_3x3 :
  draw_board 3 9 38 (repeat " "%char 9) (repeat NUL 38)
    = Ok ([nl; nl] ++ text_line " | | " ++ text_line "-----"
                   ++ text_line " | | " ++ text_line "-----"
                   ++ text_line " | | " ++ text_line "-----")
  /\ parse_snapshot 3 (snapshot_layout 3 (repeat " "%char 9))
     = Some (repeat " "%char 9).
Proof. split; reflexivity. Qed.

(** ** kmldrv_state_show *)

Lemma c_string_show d r e rest :
  (length (c_string (d :: " "%char :: r :: " "%char :: e :: NUL :: rest)) <= 5)%nat.
Proof.
  cbn [c_string].
  destruct (Ascii.eqb d NUL); [cbn; lia|].
  change (Ascii.eqb " " NUL) with false. cbn match.
  destruct (Ascii.eqb r NUL); [cbn; lia|].
  destruct (Ascii.eqb e NUL); [cbn; lia|].
  rewrite Ascii.eqb_refl. cbn. lia.
Qed.

(** C9: kmldrv_state_show stores the three flags separated by spaces and
    then the terminating NUL where the newline of the format would go: at
    most five characters of text whatever the flags are, while the value
    returned is 6. *)
Theorem kmldrv_state_show_truncated buf s :
  kmldrv_state_show buf s =
    (display (attr_obj s) :: " "%char :: resume (attr_obj s) :: " "%char ::
     end_ (attr_obj s) :: NUL :: skipn 6 buf, 6) /\
  (length (c_string (fst (kmldrv_state_show buf s))) <= 5)%nat /\
  Z.of_nat (length (c_string (fst (kmldrv_state_show buf s))))
    < snd (kmldrv_state_show buf s).
Proof.
  assert (E : kmldrv_state_show buf s =
    (display (attr_obj s) :: " "%char :: resume (attr_obj s) :: " "%char ::
     end_ (attr_obj s) :: NUL :: skipn 6 buf, 6)) by reflexivity.
  rewrite E. cbn [fst snd].
  pose proof (c_string_show (display (attr_obj s)) (resume (attr_obj s))
                (end_ (attr_obj s)) (skipn 6 buf)) as H.
  repeat split; [exact H | lia].
Qed.

(** ** The workqueue *)

Lemma queue_work_frame w s :
  attr_obj (queue_work w s) = attr_obj s /\
  timer (queue_work w s) = timer s /\
  draw_buffer (queue_work w s) = draw_buffer s /\
  rx_fifo (queue_work w s) = rx_fifo s /\
  rx_wait (queue_work w s) = rx_wait s /\
  fast_buf (queue_work w s) = fast_buf s /\
  mcts_avennode (queue_work w s) = mcts_avennode s /\
  table (queue_work w s) = table s /\
  turn (queue_work w s) = turn s /\
  finish (queue_work w s) = finish s /\
  game_tasklet (queue_work w s) = game_tasklet s /\
  open_cnt (queue_work w s) = open_cnt s /\
  ratelimit (queue_work w s) = ratelimit s /\
  klog (queue_work w s) = klog s.
Proof. unfold queue_work. case_bool_decide; repeat split. Qed.

Lemma pending_queue_work_same w s : pending w (queue_work w s) = true.
Proof.
  unfold pending, queue_work.
  destruct (bool_decide (elem_of w (kmldrv_workqueue s))) eqn:E.
  - exact E.
  - apply bool_decide_eq_true. cbn. apply elem_of_app. right. constructor.
Qed.

Lemma pending_queue_work_other w w' s :
  w <> w' -> pending w' (queue_work w s) = pending w' s.
Proof.
  intros Hne. unfold pending, queue_work.
  destruct (bool_decide (elem_of w (kmldrv_workqueue s))); [reflexivity|].
  cbn. apply bool_decide_ext. rewrite elem_of_app, list_elem_of_singleton.
  split; [intros [?|?]; [assumption | congruence] | auto].
Qed.

Lemma pending_set_finish w v s : pending w (set_finish v s) = pending w s.
Proof. reflexivity. Qed.

(** ** game_tasklet_func *)

(** What one run of the tasklet does to the flag, the queue and the rest. *)
Lemma game_tasklet_func_effect s :
  (if negb (finish s =? 0) && Ascii.eqb (turn s) "O" then
     finish (game_tasklet_func s) = 0 /\
     pending ai_one_work (game_tasklet_func s) = true /\
     pending ai_two_work (game_tasklet_func s) = pending ai_two_work s
   else if negb (finish s =? 0) && Ascii.eqb (turn s) "X" then
     finish (game_tasklet_func s) = 0 /\
     pending ai_two_work (game_tasklet_func s) = true /\
     pending ai_one_work (game_tasklet_func s) = pending ai_one_work s
   else
     finish (game_tasklet_func s) = finish s /\
     pending ai_one_work (game_tasklet_func s) = pending ai_one_work s /\
     pending ai_two_work (game_tasklet_func s) = pending ai_two_work s) /\
  pending mcts_calc_load_work (game_tasklet_func s) = true /\
  pending drawboard_work (game_tasklet_func s) = true /\
  table (game_tasklet_func s) = table s /\
  turn (game_tasklet_func s) = turn s /\
  attr_obj (game_tasklet_func s) = attr_obj s /\
  draw_buffer (game_tasklet_func s) = draw_buffer s /\
  rx_fifo (game_tasklet_func s) = rx_fifo s /\
  timer (game_tasklet_func s) = timer s /\
  open_cnt (game_tasklet_func s) = open_cnt s.
Proof.
  unfold game_tasklet_func.
  set (c1 := negb (finish s =? 0) && Ascii.eqb (turn s) "O").
  set (c2 := negb (finish s =? 0) && Ascii.eqb (turn s) "X").
  set (s1 := if c1 then queue_work ai_one_work (set_finish 0 s)
             else if c2 then queue_work ai_two_work (set_finish 0 s) else s).
  set (s2 := queue_work mcts_calc_load_work s1).
  destruct (queue_work_frame drawboard_work s2)
    as (A1 & A2 & A3 & A4 & _ & _ & _ & A8 & A9 & A10 & _ & A12 & _).
  destruct (queue_work_frame mcts_calc_load_work s1)
    as (B1 & B2 & B3 & B4 & _ & _ & _ & B8 & B9 & B10 & _ & B12 & _).
  fold s2 in B1, B2, B3, B4, B8, B9, B10, B12.
  assert (P : forall w, is_move w = true ->
                pending w (queue_work drawboard_work s2) = pending w s1).
  { intros w Hw. unfold s2.
    rewrite !pending_queue_work_other; [reflexivity| |]; destruct w; discriminate. }
  assert (F : finish (queue_work drawboard_work s2) = finish s1) by congruence.
  split.
  - rewrite F, !P by reflexivity. unfold s1. destruct c1; [|destruct c2].
    + destruct (queue_work_frame ai_one_work (set_finish 0 s))
        as (_ & _ & _ & _ & _ & _ & _ & _ & _ & C10 & _).
      rewrite C10, pending_queue_work_same,
        pending_queue_work_other by discriminate.
      repeat split.
    + destruct (queue_work_frame ai_two_work (set_finish 0 s))
        as (_ & _ & _ & _ & _ & _ & _ & _ & _ & C10 & _).
      rewrite C10, pending_queue_work_same,
        pending_queue_work_other by discriminate.
      repeat split.
    + repeat split.
  - split.
    { rewrite pending_queue_work_other by discriminate.
      apply pending_queue_work_same. }
    split; [apply pending_queue_work_same|].
    assert (S1 : table s1 = table s /\ turn s1 = turn s /\
                 attr_obj s1 = attr_obj s /\ draw_buffer s1 = draw_buffer s /\
                 rx_fifo s1 = rx_fifo s /\ timer s1 = timer s /\
                 open_cnt s1 = open_cnt s).
    { unfold s1. destruct c1; [|destruct c2]; [| |repeat split].
      - destruct (queue_work_frame ai_one_work (set_finish 0 s))
          as (C1 & C2 & C3 & C4 & _ & _ & _ & C8 & C9 & _ & _ & C12 & _).
        repeat split; assumption.
      - destruct (queue_work_frame ai_two_work (set_finish 0 s))
          as (C1 & C2 & C3 & C4 & _ & _ & _ & C8 & C9 & _ & _ & C12 & _).
        repeat split; assumption. }
    destruct S1 as (T1 & T2 & T3 & T4 & T5 & T6 & T7).
    repeat split; congruence.
Qed.

(** C5: with the flag set and the turn at 'O' the tasklet clears the flag
    and queues the side-A move task (and not the side-B one); with the flag
    set and the turn at 'X' it clears the flag and queues the side-B move
    task (and not the side-A one); otherwise flag and move tasks stay as they
    are.  In every case the load-average task and the render task are
    pending afterwards, and the board, the turn and everything else but the
    flag and the workqueue are untouched. *)
Theorem game_tasklet_func_dispatch s :
  (if negb (finish s =? 0) && Ascii.eqb (turn s) "O" then
     finish (game_tasklet_func s) = 0 /\
     pending ai_one_work (game_tasklet_func s) = true /\
     pending ai_two_work (game_tasklet_func s) = pending ai_two_work s
   else if negb (finish s =? 0) && Ascii.eqb (turn s) "X" then
     finish (game_tasklet_func s) = 0 /\
     pending ai_two_work (game_tasklet_func s) = true /\
     pending ai_one_work (game_tasklet_func s) = pending ai_one_work s
   else
     finish (game_tasklet_func s) = finish s /\
     pending ai_one_work (game_tasklet_func s) = pending ai_one_work s /\
     pending ai_two_work (game_tasklet_func s) = pending ai_two_work s) /\
  pending mcts_calc_load_work (game_tasklet_func s) = true /\
  pending drawboard_work (game_tasklet_func s) = true /\
  table (game_tasklet_func s) = table s /\
  turn (game_tasklet_func s) = turn s /\
  attr_obj (game_tasklet_func s) = attr_obj s /\
  draw_buffer (game_tasklet_func s) = draw_buffer s /\
  rx_fifo (game_tasklet_func s) = rx_fifo s /\
  timer (game_tasklet_func s) = timer s /\
  open_cnt (game_tasklet_func s) = open_cnt s.
Proof. exact (game_tasklet_func_effect s). Qed.

(** ** The move tasks *)

Lemma set_table_same s : set_table (table s) s = s.
Proof. now destruct s. Qed.

Lemma move_store tbl m mark :
  valid_move tbl m ->
  (if negb (m =? -1) then
     bind (array_store tbl m mark) (fun t => Ok t)
   else Ok tbl) = Ok (board_after tbl m mark).
Proof.
  intros [-> | Hm]; [reflexivity|].
  unfold board_after, array_store.
  destruct (m =? -1) eqn:E; [apply Z.eqb_eq in E; lia|]. cbn [negb].
  destruct (0 <=? m) eqn:E1; [|apply Z.leb_gt in E1; lia].
  destruct (m <? Z.of_nat (length tbl)) eqn:E2; [|apply Z.ltb_ge in E2; lia].
  reflexivity.
Qed.

Lemma ai_one_work_func_ok mcts s :
  valid_move (table s) (mcts (table s) "O"%char) ->
  ai_one_work_func mcts s =
  Ok (set_finish 1 (set_turn "X"
        (set_table (board_after (table s) (mcts (table s) "O"%char) "O") s))).
Proof.
  intros H. pose proof (move_store _ _ "O"%char H) as E.
  unfold ai_one_work_func.
  destruct (negb (mcts (table s) "O"%char =? -1)) eqn:Em.
  - destruct (array_store (table s) (mcts (table s) "O"%char) "O"%char) as [t| |];
      cbn [bind] in E |- *; try discriminate.
    now injection E as ->.
  - injection E as <-. cbn [bind]. now rewrite set_table_same.
Qed.

Lemma ai_two_work_func_ok negamax_predict s :
  valid_move (table s) (negamax_predict (table s) "X"%char) ->
  ai_two_work_func negamax_predict s =
  Ok (set_finish 1 (set_turn "O"
        (set_table (board_after (table s) (negamax_predict (table s) "X"%char) "X") s))).
Proof.
  intros H. pose proof (move_store _ _ "X"%char H) as E.
  unfold ai_two_work_func.
  destruct (negb (negamax_predict (table s) "X"%char =? -1)) eqn:Em.
  - destruct (array_store (table s) (negamax_predict (table s) "X"%char) "X"%char)
      as [t| |]; cbn [bind] in E |- *; try discriminate.
    now injection E as ->.
  - injection E as <-. cbn [bind]. now rewrite set_table_same.
Qed.

(** C4: when the engine answers with a cell of the board or with -1, the
    side-A task ends with the board changed at that cell only ('O' written
    there; nothing written for -1), the turn at 'X' and the flag set; the
    side-B task likewise with 'X', the turn at 'O' and the flag set.  So
    the dispatch that follows a side-A task queues the side-B task and not
    the side-A one, and the other way round. *)
Theorem move_tasks_alternate (mcts negamax_predict : list ascii -> ascii -> Z) s :
  valid_move (table s) (mcts (table s) "O"%char) ->
  valid_move (table s) (negamax_predict (table s) "X"%char) ->
  exists sA sB,
    ai_one_work_func mcts s = Ok sA /\
    sA = set_finish 1 (set_turn "X"
           (set_table (board_after (table s) (mcts (table s) "O"%char) "O") s)) /\
    ai_two_work_func negamax_predict s = Ok sB /\
    sB = set_finish 1 (set_turn "O"
           (set_table (board_after (table s) (negamax_predict (table s) "X"%char) "X") s)) /\
    board_after (table s) (-1) "O" = table s /\
    board_after (table s) (-1) "X" = table s /\
    pending ai_two_work (game_tasklet_func sA) = true /\
    pending ai_one_work (game_tasklet_func sA) = pending ai_one_work s /\
    turn (game_tasklet_func sA) = "X"%char /\
    pending ai_one_work (game_tasklet_func sB) = true /\
    pending ai_two_work (game_tasklet_func sB) = pending ai_two_work s /\
    turn (game_tasklet_func sB) = "O"%char.
Proof.
  intros HA HB. eexists. eexists.
  split; [apply ai_one_work_func_ok, HA|]. split; [reflexivity|].
  split; [apply ai_two_work_func_ok, HB|]. split; [reflexivity|].
  split; [reflexivity|]. split; [reflexivity|].
  match goal with |- context [game_tasklet_func ?a] =>
    pose proof (game_tasklet_func_effect a) as (DA & _ & _ & _ & TA & _) end.
  cbn in DA. destruct DA as (_ & DA1 & DA2).
  match goal with |- context [pending ai_one_work (game_tasklet_func ?b) = true] =>
    pose proof (game_tasklet_func_effect b) as (DB & _ & _ & _ & TB & _) end.
  cbn in DB. destruct DB as (_ & DB1 & DB2).
  repeat split; assumption.
Qed.

Lemma move_tasks_alternate_witness :
  valid_move (table loaded_3x3) (first_empty_engine (table loaded_3x3) "O"%char) /\
  valid_move (table loaded_3x3) (first_empty_engine (table loaded_3x3) "X"%char) /\
  exists sA sB,
    ai_one_work_func first_empty_engine loaded_3x3 = Ok sA /\
    sA = set_finish 1 (set_turn "X"
           (set_table (board_after (table loaded_3x3)
                         (first_empty_engine (table loaded_3x3) "O"%char) "O")
              loaded_3x3)) /\
    ai_two_work_func first_empty_engine loaded_3x3 = Ok sB /\
    sB = set_finish 1 (set_turn "O"
           (set_table (board_after (table loaded_3x3)
                         (first_empty_engine (table loaded_3x3) "X"%char) "X")
              loaded_3x3)) /\
    board_after (table loaded_3x3) (-1) "O" = table loaded_3x3 /\
    board_after (table loaded_3x3) (-1) "X" = table loaded_3x3 /\
    pending ai_two_work (game_tasklet_func sA) = true /\
    pending ai_one_work (game_tasklet_func sA) = pending ai_one_work loaded_3x3 /\
    turn (game_tasklet_func sA) = "X"%char /\
    pending ai_one_work (game_tasklet_func sB) = true /\
    pending ai_two_work (game_tasklet_func sB) = pending ai_two_work loaded_3x3 /\
    turn (game_tasklet_func sB) = "O"%char.
Proof.
  assert (V1 : valid_move (table loaded_3x3)
                 (first_empty_engine (table loaded_3x3) "O"%char))
    by (right; vm_compute; split; [discriminate | reflexivity]).
  assert (V2 : valid_move (table loaded_3x3)
                 (first_empty_engine (table loaded_3x3) "X"%char))
    by (right; vm_compute; split; [discriminate | reflexivity]).
  split; [exact V1|]. split; [exact V2|].
  exact (move_tasks_alternate first_empty_engine first_empty_engine loaded_3x3 V1 V2).
Defined.

(** ** produce_board *)

Lemma produce_board_frame D s :
  same_but_export s (produce_board D s) /\
  rx_fifo (produce_board D s) = fst (kfifo_in (rx_fifo s) (draw_buffer s) D).
Proof.
  unfold produce_board, printk_ratelimit, same_but_export.
  destruct (kfifo_in (rx_fifo s) (draw_buffer s) D) as [f len]. cbn [fst].
  destruct (len <? D); [|cbn; tauto].
  destruct s as [a t d f0 w fb av tb tu fi q g o [|r] l]; cbn; tauto.
Qed.

Lemma firstn_length_le_app {A : Type} (l : list A) (n : nat) :
  (n <= length l)%nat -> length (firstn n l) = n.
Proof. intros H. rewrite length_firstn. lia. Qed.

(** C2 (as amended): produce_board appends to the queue the leading
    min(DRAWBUFFER_SIZE, free space) bytes of the snapshot: the whole
    snapshot when it fits, only the part that fits otherwise.  The bytes
    that do not fit are dropped; their number is logged as a warning when
    printk_ratelimit lets the message through.  Apart from the queue, the
    printk budget and the log the state is as before: nothing reaches the
    reader but the queue contents. *)
Theorem produce_board_partial D s :
  Z.of_nat (length (draw_buffer s)) = D ->
  fifo_ok (rx_fifo s) ->
  exists n,
    n = Z.min D (kfifo_avail (rx_fifo s)) /\ 0 <= n <= D /\
    kf_data (rx_fifo (produce_board D s))
      = kf_data (rx_fifo s) ++ firstn (Z.to_nat n) (draw_buffer s) /\
    kf_size (rx_fifo (produce_board D s)) = kf_size (rx_fifo s) /\
    kfifo_len (rx_fifo (produce_board D s)) = kfifo_len (rx_fifo s) + n /\
    fifo_ok (rx_fifo (produce_board D s)) /\
    klog (produce_board D s)
      = klog s ++ (if (n <? D) && negb (Nat.eqb (ratelimit s) 0)
                   then [WarnDropped (D - n)] else []) /\
    ratelimit (produce_board D s)
      = (if n <? D then Nat.pred (ratelimit s) else ratelimit s) /\
    same_but_export s (produce_board D s).
Proof.
  intros HD Hok. unfold fifo_ok in Hok.
  exists (Z.min D (kfifo_avail (rx_fifo s))).
  assert (Hav : 0 <= kfifo_avail (rx_fifo s)) by (unfold kfifo_avail; lia).
  assert (Hn : 0 <= Z.min D (kfifo_avail (rx_fifo s)) <= D) by lia.
  destruct (produce_board_frame D s) as (Hframe & Hfifo).
  split; [reflexivity|]. split; [exact Hn|].
  rewrite Hfifo. unfold kfifo_in. cbn [fst kf_data kf_size].
  split; [reflexivity|]. split; [reflexivity|].
  assert (Hlen : kfifo_len
            (mk_kfifo (kf_size (rx_fifo s))
               (kf_data (rx_fifo s) ++
                firstn (Z.to_nat (Z.min D (kfifo_avail (rx_fifo s)))) (draw_buffer s)))
          = kfifo_len (rx_fifo s) + Z.min D (kfifo_avail (rx_fifo s))).
  { unfold kfifo_len at 1. cbn [kf_data].
    rewrite length_app, firstn_length_le_app by lia.
    unfold kfifo_len. lia. }
  split; [exact Hlen|].
  split; [unfold fifo_ok; rewrite Hlen; cbn [kf_size]; unfold kfifo_avail; lia|].
  split; [|split; [|exact Hframe]].
  - unfold produce_board, kfifo_in, printk_ratelimit.
    destruct (Z.min D (kfifo_avail (rx_fifo s)) <? D); [|now rewrite app_nil_r].
    destruct s as [a t d f0 w fb av tb tu fi q g o [|r] l]; cbn;
      [now rewrite app_nil_r | reflexivity].
  - unfold produce_board, kfifo_in, printk_ratelimit.
    destruct (Z.min D (kfifo_avail (rx_fifo s)) <? D); [|reflexivity].
    destruct s as [a t d f0 w fb av tb tu fi q g o [|r] l]; reflexivity.
Qed.

Lemma produce_board_partial_witness :
  Z.of_nat (length (draw_buffer nearly_full_3x3)) = 38 /\
  fifo_ok (rx_fifo nearly_full_3x3) /\
  exists n,
    n = Z.min 38 (kfifo_avail (rx_fifo nearly_full_3x3)) /\ 0 <= n <= 38 /\
    kf_data (rx_fifo (produce_board 38 nearly_full_3x3))
      = kf_data (rx_fifo nearly_full_3x3)
        ++ firstn (Z.to_nat n) (draw_buffer nearly_full_3x3) /\
    kf_size (rx_fifo (produce_board 38 nearly_full_3x3))
      = kf_size (rx_fifo nearly_full_3x3) /\
    kfifo_len (rx_fifo (produce_board 38 nearly_full_3x3))
      = kfifo_len (rx_fifo nearly_full_3x3) + n /\
    fifo_ok (rx_fifo (produce_board 38 nearly_full_3x3)) /\
    klog (produce_board 38 nearly_full_3x3)
      = klog nearly_full_3x3
        ++ (if (n <? 38) && negb (Nat.eqb (ratelimit nearly_full_3x3) 0)
            then [WarnDropped (38 - n)] else []) /\
    ratelimit (produce_board 38 nearly_full_3x3)
      = (if n <? 38 then Nat.pred (ratelimit nearly_full_3x3)
         else ratelimit nearly_full_3x3) /\
    same_but_export nearly_full_3x3 (produce_board 38 nearly_full_3x3).
Proof.
  assert (H1 : Z.of_nat (length (draw_buffer nearly_full_3x3)) = 38)
    by (vm_compute; reflexivity).
  assert (H2 : fifo_ok (rx_fifo nearly_full_3x3))
    by (unfold fifo_ok; vm_compute; discriminate).
  split; [exact H1|]. split; [exact H2|].
  exact (produce_board_partial 38 nearly_full_3x3 H1 H2).
Defined.

(** C2, as stated, fails: 107 snapshots of 38 bytes leave 30 free bytes in
    the 4096-byte queue; the next run of the render task queues the first 30
    bytes of its snapshot, drops the other 8 and logs the warning. *)
Lemma produce_board_not_all_or_dropped :
  render_times 107 loaded_3x3 = Ok nearly_full_3x3 /\
  kfifo_avail (rx_fifo nearly_full_3x3) = 30 /\
  match drawboard_work_func 3 9 38 nearly_full_3x3 with
  | Ok s' =>
      kfifo_len (rx_fifo s') = kfifo_len (rx_fifo nearly_full_3x3) + 30 /\
      kf_data (rx_fifo s')
        = kf_data (rx_fifo nearly_full_3x3)
          ++ firstn 30 (snapshot_layout 3 (table nearly_full_3x3)) /\
      klog s' = [WarnDropped 8]
  | _ => False
  end /\
  ~ all_or_dropped 38 nearly_full_3x3.
Proof.
  split; [vm_compute; reflexivity|].
  split; [vm_compute; reflexivity|].
  split; [vm_compute; repeat split|].
  intros [H|H]; apply (f_equal (@length ascii)) in H;
    vm_compute in H; discriminate.
Qed.

(** ** kmldrv_read *)

Lemma kfifo_eta f : mk_kfifo (kf_size f) (kf_data f) = f.
Proof. now destruct f. Qed.

Lemma set_rx_fifo_same s : set_rx_fifo (rx_fifo s) s = s.
Proof. now destruct s. Qed.

Lemma kfifo_to_user_writable f to count :
  count <= ub_writable to -> 0 < count ->
  kfifo_to_user f to count =
  (mk_kfifo (kf_size f) (skipn (Z.to_nat (Z.min count (kfifo_len f))) (kf_data f)),
   firstn (Z.to_nat (Z.min count (kfifo_len f))) (kf_data f),
   0, Z.min count (kfifo_len f)).
Proof.
  intros Hw Hc. unfold kfifo_to_user.
  replace (Z.min (Z.min count (kfifo_len f)) (Z.max 0 (ub_writable to)))
    with (Z.min count (kfifo_len f)) by lia.
  now rewrite Z.ltb_irrefl.
Qed.

Lemma kfifo_len_nonneg f : 0 <= kfifo_len f.
Proof. unfold kfifo_len. lia. Qed.

Lemma kfifo_len_0 f : kfifo_len f = 0 -> kf_data f = [].
Proof. unfold kfifo_len. destruct (kf_data f); [reflexivity | cbn; lia]. Qed.

Lemma ret_or_read_0 read : ret_or_read 0 read = read.
Proof. reflexivity. Qed.

(** With bytes in the queue one turn of the loop is enough. *)
Lemma read_loop_nonempty fuel nonblock to count env f :
  count <= ub_writable to -> 0 < count -> kfifo_len f <> 0 ->
  read_loop (S fuel) nonblock to count env f = take_bytes count f.
Proof.
  intros Hw Hc Hne. pose proof (kfifo_len_nonneg f) as H0.
  cbn [read_loop]. rewrite kfifo_to_user_writable by assumption.
  change (0 <? 0) with false. cbn match. rewrite ret_or_read_0.
  destruct (Z.min count (kfifo_len f) =? 0) eqn:E;
    [apply Z.eqb_eq in E; lia | reflexivity].
Qed.

(** On an empty queue wait_event_interruptible sleeps as [await] says. *)
Lemma wait_event_await env :
  forall f, kfifo_len f = 0 ->
  match await env f with
  | None => wait_event_interruptible env f = None
  | Some (false, f') =>
      exists env', wait_event_interruptible env f = Some (- ERESTARTSYS, f', env')
  | Some (true, f') =>
      kfifo_len f' <> 0 /\
      exists env', wait_event_interruptible env f = Some (0, f', env')
  end.
Proof.
  induction env as [|[|bytes] env IH]; intros f Hf.
  - cbn. now rewrite Hf.
  - cbn. rewrite Hf. cbn. eauto.
  - cbn [await wait_event_interruptible]. rewrite Hf.
    change (negb (0 =? 0)) with false. cbn match.
    set (f' := fst (kfifo_in f bytes (Z.of_nat (length bytes)))).
    destruct (kfifo_len f' =? 0) eqn:E.
    + apply Z.eqb_eq in E. apply IH. exact E.
    + apply Z.eqb_neq in E. split; [exact E|].
      exists env. destruct env as [|w env]; cbn [wait_event_interruptible];
        destruct (kfifo_len f' =? 0) eqn:E'; try reflexivity;
        apply Z.eqb_eq in E'; contradiction.
Qed.

Lemma as_returned_take_bytes count f :
  0 < count ->
  as_returned false (fst (take_bytes count f)) = fst (take_bytes count f).
Proof.
  intros Hc. pose proof (kfifo_len_nonneg f) as H0.
  unfold take_bytes. cbn [fst as_returned].
  destruct (Z.min count (kfifo_len f) <? 0) eqn:E;
    [apply Z.ltb_lt in E; lia | reflexivity].
Qed.

(** The loop against the specification's read: the same bytes and the same
    queue; the same value too, but for the error codes, which come out
    2^32 too large. *)
Lemma read_loop_spec fuel nonblock to count env f :
  count <= ub_writable to -> 0 < count ->
  read_loop (S (S fuel)) nonblock to count env f
  = (as_returned false (fst (read_spec (negb nonblock) count false env f)),
     snd (read_spec (negb nonblock) count false env f)).
Proof.
  intros Hw Hc. unfold read_spec.
  destruct (kfifo_len f =? 0) eqn:E; cbn [negb].
  2:{ apply Z.eqb_neq in E. rewrite as_returned_take_bytes by assumption.
      rewrite read_loop_nonempty by assumption.
      now destruct (take_bytes count f). }
  apply Z.eqb_eq in E.
  cbn [read_loop]. rewrite kfifo_to_user_writable by assumption.
  rewrite E. replace (Z.min count 0) with 0 by lia.
  change (Z.to_nat 0) with 0%nat. cbn [firstn skipn].
  change (0 <? 0) with false. change (negb (0 =? 0)) with false. cbn match.
  rewrite kfifo_eta.
  destruct nonblock; cbn [negb]; [reflexivity|].
  pose proof (wait_event_await env f E) as W.
  destruct (await env f) as [[[|] f']|].
  - destruct W as (Hne & env' & ->). change (0 =? 0) with true. cbn match.
    rewrite (kfifo_to_user_writable f') by assumption.
    pose proof (kfifo_len_nonneg f') as H0.
    change (0 <? 0) with false. cbn match. rewrite ret_or_read_0.
    rewrite as_returned_take_bytes by assumption.
    destruct (Z.min count (kfifo_len f') =? 0) eqn:E2;
      [apply Z.eqb_eq in E2; lia | reflexivity].
  - destruct W as (env' & ->). reflexivity.
  - rewrite W. reflexivity.
Qed.

Lemma await_data env :
  forall f f', await env f = Some (true, f') -> kfifo_len f' <> 0.
Proof.
  induction env as [|[|bytes] env IH]; intros f f' H; cbn [await] in H;
    try discriminate.
  match type of H with context [if ?c then _ else _] => destruct c eqn:E end.
  - eapply IH, H.
  - injection H as <-. now apply Z.eqb_neq.
Qed.

Lemma take_bytes_bounds count f :
  0 < count -> kfifo_len f <> 0 ->
  exists n data f',
    take_bytes count f = (Returns n data, f') /\
    0 < n <= count /\ n = Z.of_nat (length data) /\
    data = firstn (Z.to_nat n) (kf_data f).
Proof.
  intros Hc Hne. pose proof (kfifo_len_nonneg f) as H0.
  eexists. eexists. eexists. split; [reflexivity|].
  split; [lia|]. split; [|reflexivity].
  rewrite length_firstn. unfold kfifo_len in *. lia.
Qed.

(** A read of at least one byte into a valid, writable user buffer against
    the specification's read.  The bytes handed over and the queue left
    behind are the specification's, and so is the value returned on success
    and on an interrupted lock acquisition.  -EAGAIN and the -ERESTARTSYS of
    an interrupted wait, which leave through [ret ? ret : read], are
    returned 2^32 too large.  Two turns of the loop are always enough. *)
Lemma kmldrv_read_against_spec fuel nonblock to count lock_interrupted env s :
  ub_access_ok to = true -> count <= ub_writable to -> 0 < count ->
  (2 <= fuel)%nat ->
  kmldrv_read fuel nonblock to count lock_interrupted env s
  = (as_returned lock_interrupted
       (fst (read_spec (negb nonblock) count lock_interrupted env (rx_fifo s))),
     set_rx_fifo
       (snd (read_spec (negb nonblock) count lock_interrupted env (rx_fifo s))) s)
  /\
  match fst (read_spec (negb nonblock) count lock_interrupted env (rx_fifo s)) with
  | Returns ret data =>
      (0 < ret <= count /\ ret = Z.of_nat (length data))
      \/ (ret = - EAGAIN /\ nonblock = true /\ kfifo_len (rx_fifo s) = 0)
      \/ (ret = - ERESTARTSYS /\
          (lock_interrupted = true \/
           (nonblock = false /\ kfifo_len (rx_fifo s) = 0)))
  | Asleep => nonblock = false /\ kfifo_len (rx_fifo s) = 0
  | Spinning => False
  end.
Proof.
  intros Ha Hw Hc Hfuel. split.
  - unfold kmldrv_read. rewrite Ha. cbn [negb].
    destruct lock_interrupted.
    + cbn [read_spec fst snd as_returned]. now rewrite set_rx_fifo_same.
    + destruct fuel as [|[|fuel]]; try lia.
      now rewrite read_loop_spec by assumption.
  - unfold read_spec. destruct lock_interrupted; cbn [fst].
    { right. right. auto. }
    destruct (kfifo_len (rx_fifo s) =? 0) eqn:E; cbn [negb].
    2:{ apply Z.eqb_neq in E.
        destruct (take_bytes_bounds count (rx_fifo s) Hc E)
          as (n & data & f' & -> & Hn & Hlen & _).
        cbn [fst]. left. auto. }
    apply Z.eqb_eq in E.
    destruct nonblock; cbn [negb fst].
    { right. left. auto. }
    destruct (await env (rx_fifo s)) as [[[|] f']|] eqn:Ew; cbn [fst].
    + apply await_data in Ew.
      destruct (take_bytes_bounds count f' Hc Ew)
        as (n & data & f'' & -> & Hn & Hlen & _).
      cbn [fst]. left. auto.
    + right. right. auto.
    + auto.
Qed.

Example kmldrv_read_one_snapshot :
  fst (kmldrv_read 2 false (mk_user_buf true 64) 64 false [] one_snapshot_3x3)
  = Returns 38 (snapshot_layout 3 (repeat " "%char 9)).
Proof. reflexivity. Qed.

Example kmldrv_read_blocks_then_returns :
  fst (kmldrv_read 2 false (mk_user_buf true 64) 64 false
         [DataArrived (snapshot_layout 3 (repeat " "%char 9))] loaded_3x3)
  = Returns 38 (snapshot_layout 3 (repeat " "%char 9)) /\
  fst (kmldrv_read 2 false (mk_user_buf true 64) 64 false [] loaded_3x3) = Asleep.
Proof. repeat split. Qed.

(** A read of length 0 and a destination that access_ok rejects are
    outside what the specification describes: with 38 bytes queued a
    blocking read of length 0 never leaves the loop, and a rejected
    destination gives -EFAULT, returned as it is. *)
Example kmldrv_read_nonempty_without_bytes :
  kfifo_len (rx_fifo one_snapshot_3x3) = 38 /\
  kmldrv_read 1000 false (mk_user_buf true 0) 0 false [] one_snapshot_3x3
    = (Spinning, one_snapshot_3x3) /\
  kmldrv_read 2 true (mk_user_buf false 64) 64 false [] one_snapshot_3x3
    = (Returns (- EFAULT) [], one_snapshot_3x3).
Proof.
  split; [reflexivity|]. split; [vm_compute; reflexivity | reflexivity].
Qed.

(** C3: kmldrv_read does not fail with EAGAIN or ERESTARTSYS where the
    claim says it does.  For every state with an empty queue, every length
    and every accepted destination, a non-blocking read returns
    2^32 - EAGAIN = 4294967285, and a blocking read whose wait is
    interrupted by a signal returns 2^32 - ERESTARTSYS = 4294966784; when
    copy_to_user faults the read returns 2^32 - EFAULT = 4294967282.  All
    three are positive, so the caller is handed a byte count where the
    specification's read fails with the error.  The two returns before the
    loop do it right: a rejected destination gives -EFAULT and an
    interrupted lock acquisition -ERESTARTSYS. *)
Theorem kmldrv_read_errno_as_unsigned :
  (forall (s : kstate) (size w : Z) (count fuel : nat) (env : list wakeup),
     kmldrv_read (S fuel) true (mk_user_buf true w) (Z.of_nat count) false env
       (set_rx_fifo (mk_kfifo size []) s)
     = (Returns (2 ^ 32 - EAGAIN) [], set_rx_fifo (mk_kfifo size []) s) /\
     fst (read_spec false (Z.of_nat count) false env (mk_kfifo size []))
     = Returns (- EAGAIN) []) /\
  (forall (s : kstate) (size w : Z) (count fuel : nat) (env : list wakeup),
     kmldrv_read (S fuel) false (mk_user_buf true w) (Z.of_nat count) false
       (Signalled :: env) (set_rx_fifo (mk_kfifo size []) s)
     = (Returns (2 ^ 32 - ERESTARTSYS) [], set_rx_fifo (mk_kfifo size []) s) /\
     fst (read_spec true (Z.of_nat count) false (Signalled :: env)
            (mk_kfifo size []))
     = Returns (- ERESTARTSYS) []) /\
  fst (kmldrv_read 1 true (mk_user_buf true 5) 38 false [] one_snapshot_3x3)
  = Returns (2 ^ 32 - EFAULT)
      (firstn 5 (snapshot_layout 3 (repeat " "%char 9))) /\
  (forall (s : kstate) (fuel : nat) (nonblock : bool) (w count : Z)
          (env : list wakeup),
     kmldrv_read fuel nonblock (mk_user_buf true w) count true env s
     = (Returns (- ERESTARTSYS) [], s) /\
     kmldrv_read fuel nonblock (mk_user_buf false w) count false env s
     = (Returns (- EFAULT) [], s)) /\
  2 ^ 32 - EAGAIN = 4294967285 /\ 2 ^ 32 - ERESTARTSYS = 4294966784 /\
  2 ^ 32 - EFAULT = 4294967282.
Proof.
  assert (K : forall (size w : Z) (count : nat),
            kfifo_to_user (mk_kfifo size []) (mk_user_buf true w) (Z.of_nat count)
            = (mk_kfifo size [], [], 0, 0)).
  { intros size w count. unfold kfifo_to_user, kfifo_len.
    cbn [kf_data kf_size length ub_writable].
    replace (Z.min (Z.of_nat count) (Z.of_nat 0)) with 0 by lia.
    replace (Z.min 0 (Z.max 0 w)) with 0 by lia. reflexivity. }
  split; [|split; [|split; [|split]]].
  - intros s size w count fuel env. split; [|reflexivity].
    unfold kmldrv_read. cbn [ub_access_ok negb rx_fifo set_rx_fifo read_loop].
    replace (rx_fifo (set_rx_fifo (mk_kfifo size []) s)) with (mk_kfifo size [])
      by now destruct s.
    rewrite K. cbn. now destruct s.
  - intros s size w count fuel env. split; [|reflexivity].
    unfold kmldrv_read. cbn [ub_access_ok negb read_loop].
    replace (rx_fifo (set_rx_fifo (mk_kfifo size []) s)) with (mk_kfifo size [])
      by now destruct s.
    rewrite K. cbn. now destruct s.
  - vm_compute. reflexivity.
  - intros s fuel nonblock w count env. split; reflexivity.
  - repeat split.
Qed.

(** ** kmldrv_open, kmldrv_release *)

(** C1: kmldrv_release tests atomic_dec_and_test(&open_cnt) == 0, so its
    teardown runs exactly when the count does not reach 0.
    One open and one close: the count goes 1 -> 0 and the timer is still
    pending; work queued by a tick in between is still pending too.  Two
    opens and one close: the count is 1 and the timer has been deleted. *)
Theorem kmldrv_release_test_inverted :
  open_cnt loaded_3x3 = 0 /\ timer loaded_3x3 = false /\
  match run_3x3 [EvOpen; EvRelease] loaded_3x3 with
  | Ok s => open_cnt s = 0 /\ timer s = true
  | _ => False
  end /\
  match run_3x3 [EvOpen; EvExpire; EvSoftirq; EvRelease] loaded_3x3 with
  | Ok s =>
      open_cnt s = 0 /\ timer s = true /\
      kmldrv_workqueue s = [ai_one_work; mcts_calc_load_work; drawboard_work]
  | _ => False
  end /\
  match run_3x3 [EvOpen; EvOpen] loaded_3x3 with
  | Ok s => open_cnt s = 2 /\ timer s = true
  | _ => False
  end /\
  match run_3x3 [EvOpen; EvOpen; EvRelease] loaded_3x3 with
  | Ok s => open_cnt s = 1 /\ timer s = false
  | _ => False
  end /\
  match run_3x3 [EvOpen; EvOpen; EvExpire; EvSoftirq; EvRelease] loaded_3x3 with
  | Ok s =>
      open_cnt s = 1 /\ timer s = false /\ kmldrv_workqueue s = [] /\
      fast_buf s = (0, 0)
  | _ => False
  end.
Proof. vm_compute. repeat split. Qed.

(** ** timer_handler *)

Lemma after_final_render_frame b D s :
  attr_obj (after_final_render b D s) = attr_obj s /\
  timer (after_final_render b D s) = timer s /\
  table (after_final_render b D s) = table s /\
  turn (after_final_render b D s) = turn s /\
  finish (after_final_render b D s) = finish s /\
  kmldrv_workqueue (after_final_render b D s) = kmldrv_workqueue s /\
  game_tasklet (after_final_render b D s) = game_tasklet s /\
  open_cnt (after_final_render b D s) = open_cnt s /\
  draw_buffer (after_final_render b D s) = snapshot_layout b (table s) /\
  rx_fifo (after_final_render b D s)
    = fst (kfifo_in (rx_fifo s) (snapshot_layout b (table s)) D) /\
  rx_wait (after_final_render b D s) = S (rx_wait s).
Proof.
  unfold after_final_render.
  destruct (produce_board_frame D (set_draw_buffer (snapshot_layout b (table s)) s))
    as ((A1 & A2 & A3 & A4 & A5 & A6 & A7 & A8 & A9 & A10 & A11 & A12) & F).
  unfold wake_up_interruptible. cbn [attr_obj timer table turn finish
    kmldrv_workqueue game_tasklet open_cnt draw_buffer rx_fifo rx_wait set_rx_wait].
  rewrite A1, A2, A3, A4, A7, A8, A9, A10, A11, A12, F.
  repeat split.
Qed.

Lemma timer_handler_eq B N D check_win s :
  geometry B N D -> sized N D s ->
  timer_handler B N D check_win s = Ok (after_timer B N D check_win s).
Proof.
  intros Hgeo (Ht & Hd). unfold timer_handler, after_timer.
  destruct (Ascii.eqb (check_win (table s)) " "); [reflexivity|].
  destruct (Ascii.eqb (display (attr_obj s)) "1"); cbn [bind].
  - rewrite (draw_board_layout B N D (table s) (draw_buffer s) Hgeo Ht Hd).
    cbn [bind]. fold (after_final_render (Z.to_nat B) D s).
    destruct (after_final_render_frame (Z.to_nat B) D s) as (-> & _).
    now destruct (Ascii.eqb (end_ (attr_obj s)) "0").
  - now destruct (Ascii.eqb (end_ (attr_obj s)) "0").
Qed.

(** timer_handler never draws when the display flag is not '1'. *)
Lemma timer_handler_display_off B N D check_win s :
  Ascii.eqb (display (attr_obj s)) "1" = false ->
  exists s', timer_handler B N D check_win s = Ok s' /\
             rx_fifo s' = rx_fifo s /\ attr_obj s' = attr_obj s /\
             draw_buffer s' = draw_buffer s /\ rx_wait s' = rx_wait s.
Proof.
  intros H. unfold timer_handler. rewrite H. cbn [bind].
  destruct (Ascii.eqb (check_win (table s)) " ");
    [|destruct (Ascii.eqb (end_ (attr_obj s)) "0")];
    eexists; (split; [reflexivity|]); repeat split.
Qed.

(** What kfifo_in leaves in the queue, written out. *)
Lemma kfifo_in_data f src len :
  kf_size (fst (kfifo_in f src len)) = kf_size f /\
  kf_data (fst (kfifo_in f src len))
  = kf_data f ++
    firstn (Z.to_nat (Z.min len (kf_size f - Z.of_nat (length (kf_data f))))) src.
Proof. split; reflexivity. Qed.

(** C6 (as amended): when the pending timer expires.  If check_win reports
    no winner (' '), the tasklet is scheduled and the timer is pending
    again; board, snapshot and queue are untouched.  Otherwise, exactly when
    the display flag is '1', the final board is rendered into draw_buffer,
    the leading min(DRAWBUFFER_SIZE, free space) bytes of the snapshot are
    appended to the queue (the whole snapshot when it fits, nothing when the
    queue is full) and the readers are woken; with any other display flag
    draw_buffer, the queue and its wait queue are untouched.  Exactly when
    the end flag is '0' the board becomes all-empty and the timer is pending
    again; with any other end flag the board is kept and the timer is not
    pending. *)
Theorem timer_expiry B N D check_win mcts negamax_predict count_active_nodes s :
  geometry B N D -> sized N D s -> timer s = true ->
  exists s',
    step B N D check_win mcts negamax_predict count_active_nodes EvExpire s
      = Ok s' /\
    if Ascii.eqb (check_win (table s)) " " then
      game_tasklet s' = true /\ timer s' = true /\ table s' = table s /\
      draw_buffer s' = draw_buffer s /\ rx_fifo s' = rx_fifo s
    else
      game_tasklet s' = game_tasklet s /\
      (if Ascii.eqb (display (attr_obj s)) "1" then
         draw_buffer s' = snapshot_layout (Z.to_nat B) (table s) /\
         kf_size (rx_fifo s') = kf_size (rx_fifo s) /\
         kf_data (rx_fifo s')
         = kf_data (rx_fifo s) ++
           firstn (Z.to_nat (Z.min D (kf_size (rx_fifo s)
                                      - Z.of_nat (length (kf_data (rx_fifo s))))))
             (snapshot_layout (Z.to_nat B) (table s)) /\
         (D <= kf_size (rx_fifo s) - Z.of_nat (length (kf_data (rx_fifo s))) ->
          kf_data (rx_fifo s')
          = kf_data (rx_fifo s) ++ snapshot_layout (Z.to_nat B) (table s)) /\
         (kf_size (rx_fifo s) - Z.of_nat (length (kf_data (rx_fifo s))) <= 0 ->
          rx_fifo s' = rx_fifo s) /\
         rx_wait s' = S (rx_wait s)
       else
         draw_buffer s' = draw_buffer s /\ rx_fifo s' = rx_fifo s /\
         rx_wait s' = rx_wait s) /\
      (if Ascii.eqb (end_ (attr_obj s)) "0" then
         table s' = repeat " "%char (Z.to_nat N) /\ timer s' = true
       else table s' = table s /\ timer s' = false).
Proof.
  intros Hgeo Hsz Ht. cbn [step]. rewrite Ht.
  rewrite (timer_handler_eq B N D check_win (set_timer false s) Hgeo Hsz).
  eexists. split; [reflexivity|].
  unfold after_timer. cbn [table attr_obj set_timer].
  destruct (Ascii.eqb (check_win (table s)) " "); [repeat split|].
  destruct (after_final_render_frame (Z.to_nat B) D (set_timer false s))
    as (_ & A2 & A3 & _ & _ & _ & A7 & _ & A9 & A10 & A11).
  cbn [timer table game_tasklet rx_fifo rx_wait set_timer] in A2, A3, A7, A9, A10, A11.
  destruct (kfifo_in_data (rx_fifo s) (snapshot_layout (Z.to_nat B) (table s)) D)
    as (K1 & K2).
  rewrite <- A10 in K1, K2.
  assert (Hlen : Z.of_nat (length (snapshot_layout (Z.to_nat B) (table s))) = D).
  { destruct Hgeo as (HB & HN & HD). destruct Hsz as (Hsz & _).
    rewrite length_snapshot_layout by nia. nia. }
  assert (Whole : D <= kf_size (rx_fifo s) - Z.of_nat (length (kf_data (rx_fifo s))) ->
            kf_data (rx_fifo (after_final_render (Z.to_nat B) D (set_timer false s)))
            = kf_data (rx_fifo s) ++ snapshot_layout (Z.to_nat B) (table s)).
  { intros Hfit. rewrite K2. f_equal. apply firstn_all2. lia. }
  assert (None : kf_size (rx_fifo s) - Z.of_nat (length (kf_data (rx_fifo s))) <= 0 ->
            rx_fifo (after_final_render (Z.to_nat B) D (set_timer false s))
            = rx_fifo s).
  { intros Hfull.
    rewrite <- (kfifo_eta (rx_fifo (after_final_render _ _ _))), K1, K2.
    replace (Z.to_nat (Z.min D (kf_size (rx_fifo s)
                               - Z.of_nat (length (kf_data (rx_fifo s))))))
      with 0%nat by lia.
    cbn [firstn]. rewrite app_nil_r. apply kfifo_eta. }
  destruct (Ascii.eqb (display (attr_obj s)) "1");
    destruct (Ascii.eqb (end_ (attr_obj s)) "0");
    cbn [mod_timer set_timer set_table game_tasklet draw_buffer rx_fifo rx_wait
         table timer];
    repeat split; assumption.
Qed.

Lemma timer_expiry_witness :
  geometry 3 9 38 /\ sized 9 38 decided_3x3 /\ timer decided_3x3 = true /\
  exists s',
    step 3 9 38 check_win_3x3 first_empty_engine first_empty_engine 1
      EvExpire decided_3x3 = Ok s' /\
    if Ascii.eqb (check_win_3x3 (table decided_3x3)) " " then
      game_tasklet s' = true /\ timer s' = true /\ table s' = table decided_3x3 /\
      draw_buffer s' = draw_buffer decided_3x3 /\ rx_fifo s' = rx_fifo decided_3x3
    else
      game_tasklet s' = game_tasklet decided_3x3 /\
      (if Ascii.eqb (display (attr_obj decided_3x3)) "1" then
         draw_buffer s' = snapshot_layout (Z.to_nat 3) (table decided_3x3) /\
         kf_size (rx_fifo s') = kf_size (rx_fifo decided_3x3) /\
         kf_data (rx_fifo s')
         = kf_data (rx_fifo decided_3x3) ++
           firstn (Z.to_nat (Z.min 38 (kf_size (rx_fifo decided_3x3)
                     - Z.of_nat (length (kf_data (rx_fifo decided_3x3))))))
             (snapshot_layout (Z.to_nat 3) (table decided_3x3)) /\
         (38 <= kf_size (rx_fifo decided_3x3)
                - Z.of_nat (length (kf_data (rx_fifo decided_3x3))) ->
          kf_data (rx_fifo s')
          = kf_data (rx_fifo decided_3x3)
            ++ snapshot_layout (Z.to_nat 3) (table decided_3x3)) /\
         (kf_size (rx_fifo decided_3x3)
          - Z.of_nat (length (kf_data (rx_fifo decided_3x3))) <= 0 ->
          rx_fifo s' = rx_fifo decided_3x3) /\
         rx_wait s' = S (rx_wait decided_3x3)
       else
         draw_buffer s' = draw_buffer decided_3x3 /\
         rx_fifo s' = rx_fifo decided_3x3 /\
         rx_wait s' = rx_wait decided_3x3) /\
      (if Ascii.eqb (end_ (attr_obj decided_3x3)) "0" then
         table s' = repeat " "%char (Z.to_nat 9) /\ timer s' = true
       else table s' = table decided_3x3 /\ timer s' = false).
Proof.
  assert (G : geometry 3 9 38) by (unfold geometry; lia).
  assert (Z : sized 9 38 decided_3x3) by (split; reflexivity).
  split; [exact G|]. split; [exact Z|]. split; [reflexivity|].
  exact (timer_expiry 3 9 38 check_win_3x3 first_empty_engine first_empty_engine
           1 decided_3x3 G Z eq_refl).
Defined.

(** C6, as stated, fails on a full queue: the board is decided and the
    display flag is '1', yet the expiry leaves the queue as it was; the
    final snapshot is not exported. *)
Lemma timer_expiry_final_snapshot_not_exported :
  check_win_3x3 (table decided_full_3x3) = "X"%char /\
  display (attr_obj decided_full_3x3) = "1"%char /\
  timer decided_full_3x3 = true /\
  kfifo_len (rx_fifo decided_full_3x3) = 4096 /\
  kf_size (rx_fifo decided_full_3x3) = 4096 /\
  exists s',
    step_3x3 EvExpire decided_full_3x3 = Ok s' /\
    rx_fifo s' = rx_fifo decided_full_3x3 /\
    ~ final_snapshot_exported 3 decided_full_3x3 s'.
Proof.
  split; [vm_compute; reflexivity|]. split; [vm_compute; reflexivity|].
  split; [vm_compute; reflexivity|]. split; [vm_compute; reflexivity|].
  split; [vm_compute; reflexivity|].
  eexists. split; [vm_compute; reflexivity|].
  split; [vm_compute; reflexivity|].
  unfold final_snapshot_exported. intros H.
  apply (f_equal (@length ascii)) in H. vm_compute in H. discriminate.
Qed.

Example timer_expiry_decided_3x3 :
  check_win_3x3 (table decided_3x3) = "X"%char /\
  match step_3x3 EvExpire decided_3x3 with
  | Ok s' =>
      table s' = repeat " "%char 9 /\ timer s' = true /\
      kf_data (rx_fifo s') = snapshot_layout 3 (list_ascii_of_string "XOOOXXOXX")
  | _ => False
  end.
Proof. vm_compute. repeat split. Qed.

(** ** The display flag *)

Section DisplayOff.
Variables B N D : Z.
Variable check_win : list ascii -> ascii.
Variables mcts negamax_predict : list ascii -> ascii -> Z.
Variable count_active_nodes : Z.
Hypothesis mcts_ok : engine_ok mcts.
Hypothesis negamax_ok : engine_ok negamax_predict.

Lemma drawboard_work_func_display_off s :
  display (attr_obj s) = "0"%char -> drawboard_work_func B N D s = Ok s.
Proof. intros H. unfold drawboard_work_func. now rewrite H. Qed.

Lemma work_func_display_off w s :
  display (attr_obj s) = "0"%char ->
  exists s',
    work_func B N D mcts negamax_predict count_active_nodes w s = Ok s' /\
    rx_fifo s' = rx_fifo s /\ attr_obj s' = attr_obj s.
Proof.
  intros H. destruct w; cbn [work_func].
  - rewrite drawboard_work_func_display_off by assumption. eauto.
  - rewrite ai_one_work_func_ok by apply mcts_ok. eauto.
  - rewrite ai_two_work_func_ok by apply negamax_ok. eauto.
  - unfold mcts_calc_load. destruct (mcts_avennode s) as [[a0 a1] a2]. eauto.
Qed.

Lemma run_works_display_off ws :
  forall s, display (attr_obj s) = "0"%char ->
  exists s',
    run_works B N D mcts negamax_predict count_active_nodes ws s = Ok s' /\
    rx_fifo s' = rx_fifo s /\ attr_obj s' = attr_obj s.
Proof.
  induction ws as [|w ws IH]; intros s H; cbn [run_works]; [eauto|].
  destruct (work_func_display_off w s H) as (s1 & -> & F1 & A1). cbn [bind].
  destruct (IH s1) as (s2 & -> & F2 & A2); [now rewrite A1|].
  exists s2. repeat split; congruence.
Qed.

Lemma step_display_off e s :
  display (attr_obj s) = "0"%char ->
  exists s',
    step B N D check_win mcts negamax_predict count_active_nodes e s = Ok s' /\
    rx_fifo s' = rx_fifo s /\ attr_obj s' = attr_obj s.
Proof.
  intros H. destruct e; cbn [step].
  - destruct (timer s); [|eauto].
    destruct (timer_handler_display_off B N D check_win (set_timer false s))
      as (s' & -> & F & A & _); [cbn; now rewrite H|].
    eauto.
  - destruct (game_tasklet s); [|eauto].
    destruct (game_tasklet_func_effect (set_game_tasklet false s))
      as (_ & _ & _ & _ & _ & A & _ & F & _).
    eauto.
  - destruct (kmldrv_workqueue s) as [|w ws]; [eauto|].
    apply (work_func_display_off w (set_kmldrv_workqueue ws s)). exact H.
  - unfold kmldrv_open, atomic_inc_return.
    destruct (wrap_int (open_cnt s + 1) =? 1); eauto.
  - unfold kmldrv_release, atomic_dec_and_test.
    destruct (wrap_int (open_cnt s - 1) =? 0); cbn [Z.eqb bind snd]; [eauto|].
    unfold flush_workqueue.
    match goal with |- context [run_works _ _ _ _ _ _ ?ws ?s0] =>
      destruct (run_works_display_off ws s0 H) as (s2 & -> & F & A) end.
    cbn [bind snd]. eauto.
Qed.

Lemma run_display_off es :
  forall s, display (attr_obj s) = "0"%char ->
  exists s',
    run B N D check_win mcts negamax_predict count_active_nodes es s = Ok s' /\
    rx_fifo s' = rx_fifo s /\ attr_obj s' = attr_obj s.
Proof.
  induction es as [|e es IH]; intros s H; cbn [run]; [eauto|].
  destruct (step_display_off e s H) as (s1 & -> & F1 & A1). cbn [bind].
  destruct (IH s1) as (s2 & -> & F2 & A2); [now rewrite A1|].
  exists s2. repeat split; congruence.
Qed.

End DisplayOff.

Lemma first_empty_range tbl :
  forall i, first_empty tbl i = -1 \/
            i <= first_empty tbl i < i + Z.of_nat (length tbl).
Proof.
  induction tbl as [|c tbl IH]; intros i; cbn [first_empty length]; [now left|].
  destruct (Ascii.eqb c " "); [right; lia|].
  destruct (IH (i + 1)) as [E | E]; [now left | right; lia].
Qed.

Lemma first_empty_engine_ok : engine_ok first_empty_engine.
Proof.
  intros tbl c. unfold valid_move, first_empty_engine.
  destruct (first_empty_range tbl 0) as [E | E]; [now left | right; lia].
Qed.

(** C7: while the display flag is '0' nothing enters the export queue.
    The render task returns without touching anything, timer_handler skips
    the final render, and whatever ticks, tasklet runs, worker runs, opens
    and closes happen (with engines that answer a cell or -1), the queue
    holds exactly what it held before and the flag is still '0'. *)
Theorem display_off_exports_nothing B N D check_win mcts negamax_predict
    count_active_nodes es s :
  engine_ok mcts -> engine_ok negamax_predict ->
  display (attr_obj s) = "0"%char ->
  drawboard_work_func B N D s = Ok s /\
  (exists s1, timer_handler B N D check_win s = Ok s1 /\ rx_fifo s1 = rx_fifo s) /\
  exists s',
    run B N D check_win mcts negamax_predict count_active_nodes es s = Ok s' /\
    rx_fifo s' = rx_fifo s /\ display (attr_obj s') = "0"%char.
Proof.
  intros H1 H2 H. split; [now apply drawboard_work_func_display_off|]. split.
  - destruct (timer_handler_display_off B N D check_win s) as (s1 & E & F & _);
      [now rewrite H|]. eauto.
  - destruct (run_display_off B N D check_win mcts negamax_predict
                count_active_nodes H1 H2 es s H) as (s' & E & F & A).
    exists s'. repeat split; congruence.
Qed.

Lemma display_off_exports_nothing_witness :
  engine_ok first_empty_engine /\ engine_ok first_empty_engine /\
  display (attr_obj display_off_3x3) = "0"%char /\
  drawboard_work_func 3 9 38 display_off_3x3 = Ok display_off_3x3 /\
  (exists s1, timer_handler 3 9 38 check_win_3x3 display_off_3x3 = Ok s1 /\
              rx_fifo s1 = rx_fifo display_off_3x3) /\
  exists s',
    run 3 9 38 check_win_3x3 first_empty_engine first_empty_engine 1
      [EvOpen; EvExpire; EvSoftirq; EvWorker; EvWorker; EvWorker; EvExpire;
       EvSoftirq; EvWorker; EvWorker; EvWorker; EvRelease]
      display_off_3x3 = Ok s' /\
    rx_fifo s' = rx_fifo display_off_3x3 /\ display (attr_obj s') = "0"%char.
Proof.
  split; [exact first_empty_engine_ok|]. split; [exact first_empty_engine_ok|].
  split; [reflexivity|].
  exact (display_off_exports_nothing 3 9 38 check_win_3x3 first_empty_engine
           first_empty_engine 1
           [EvOpen; EvExpire; EvSoftirq; EvWorker; EvWorker; EvWorker; EvExpire;
            EvSoftirq; EvWorker; EvWorker; EvWorker; EvRelease]
           display_off_3x3 first_empty_engine_ok first_empty_engine_ok eq_refl).
Defined.

Example display_off_two_ticks :
  match run_3x3 [EvExpire; EvSoftirq; EvWorker; EvWorker; EvWorker; EvExpire;
                 EvSoftirq; EvWorker; EvWorker; EvWorker] display_off_3x3 with
  | Ok s' =>
      table s' = list_ascii_of_string "OX       " /\ kf_data (rx_fifo s') = []
  | _ => False
  end.
Proof. vm_compute. repeat split. Qed.

(** ** From initialization to the first move task *)

Lemma find_app_is_move (l1 l2 : list work) :
  find is_move (l1 ++ l2)
  = match find is_move l1 with Some x => Some x | None => find is_move l2 end.
Proof.
  induction l1 as [|x l1 IH]; cbn [app find]; [reflexivity|].
  now destruct (is_move x).
Qed.

Lemma find_is_move_none (l : list work) w :
  find is_move l = None -> elem_of w l -> is_move w = false.
Proof.
  induction l as [|x l IH]; intros Hf Hin; [inversion Hin|].
  cbn [find] in Hf. destruct (is_move x) eqn:E; [discriminate|].
  apply elem_of_cons in Hin as [-> | Hin]; [exact E | now apply IH].
Qed.

Lemma move_pending_queue_work w s :
  move_pending (queue_work w s)
  = match move_pending s with
    | Some x => Some x
    | None => if is_move w then Some w else None
    end.
Proof.
  unfold move_pending, queue_work.
  destruct (bool_decide (elem_of w (kmldrv_workqueue s))) eqn:E.
  - apply bool_decide_eq_true in E.
    destruct (find is_move (kmldrv_workqueue s)) eqn:F; [reflexivity|].
    now rewrite (find_is_move_none _ _ F E).
  - cbn [kmldrv_workqueue set_kmldrv_workqueue].
    rewrite find_app_is_move. cbn [find].
    destruct (find is_move (kmldrv_workqueue s)); [reflexivity|].
    now destruct (is_move w).
Qed.

Section Fresh.
Variables B N D : Z.
Variable check_win : list ascii -> ascii.
Variables mcts negamax_predict : list ascii -> ascii -> Z.
Variable count_active_nodes : Z.
Hypothesis Hgeo : geometry B N D.

Lemma sized_snapshot s :
  sized N D s ->
  Z.of_nat (length (snapshot_layout (Z.to_nat B) (table s))) = D.
Proof.
  intros (Ht & _). destruct Hgeo as (HB & HN & HD).
  rewrite length_snapshot_layout by nia. nia.
Qed.

Lemma sized_repeat : Z.of_nat (length (repeat " "%char (Z.to_nat N))) = N.
Proof. destruct Hgeo as (HB & HN & HD). rewrite repeat_length. nia. Qed.

Lemma after_timer_frame s :
  sized N D s ->
  sized N D (after_timer B N D check_win s) /\
  turn (after_timer B N D check_win s) = turn s /\
  finish (after_timer B N D check_win s) = finish s /\
  kmldrv_workqueue (after_timer B N D check_win s) = kmldrv_workqueue s /\
  table (after_timer B N D check_win s)
  = (if negb (Ascii.eqb (check_win (table s)) " ")
        && Ascii.eqb (end_ (attr_obj s)) "0"
     then repeat " "%char (Z.to_nat N) else table s).
Proof.
  intros Hs. pose proof (sized_snapshot s Hs) as Hsnap.
  pose proof sized_repeat as Hrep. destruct Hs as (Ht & Hd).
  destruct (after_final_render_frame (Z.to_nat B) D s)
    as (_ & _ & A3 & A4 & A5 & A6 & _ & _ & A9 & _).
  unfold after_timer, sized.
  destruct (Ascii.eqb (check_win (table s)) " "); cbn [negb andb];
    [repeat split; assumption|].
  destruct (Ascii.eqb (display (attr_obj s)) "1");
    destruct (Ascii.eqb (end_ (attr_obj s)) "0");
    cbn [mod_timer set_timer set_table table draw_buffer turn finish
         kmldrv_workqueue];
    rewrite ?A3, ?A4, ?A5, ?A6, ?A9; repeat split; assumption.
Qed.

(** A work item that is not a move task leaves turn, flag and queue alone. *)
Lemma work_func_idle w s :
  sized N D s -> is_move w = false ->
  exists s',
    work_func B N D mcts negamax_predict count_active_nodes w s = Ok s' /\
    sized N D s' /\ turn s' = turn s /\ finish s' = finish s /\
    kmldrv_workqueue s' = kmldrv_workqueue s.
Proof.
  intros Hs Hw. destruct w; try discriminate; cbn [work_func].
  - unfold drawboard_work_func.
    destruct (Ascii.eqb (display (attr_obj s)) "0"); [eauto 6|].
    pose proof (sized_snapshot s Hs) as Hsnap.
    destruct Hs as (Ht & Hd).
    rewrite (draw_board_layout B N D (table s) (draw_buffer s) Hgeo Ht Hd).
    cbn [bind]. fold (after_final_render (Z.to_nat B) D s).
    destruct (after_final_render_frame (Z.to_nat B) D s)
      as (_ & _ & A3 & A4 & A5 & A6 & _ & _ & A9 & _).
    eexists. split; [reflexivity|]. unfold sized.
    rewrite A3, A4, A5, A6, A9. repeat split; assumption.
  - unfold mcts_calc_load. destruct (mcts_avennode s) as [[a0 a1] a2].
    eexists. split; [reflexivity|]. repeat split; apply Hs.
Qed.

Lemma run_works_idle ws :
  forall s, sized N D s -> find is_move ws = None ->
  exists s',
    run_works B N D mcts negamax_predict count_active_nodes ws s = Ok s' /\
    sized N D s' /\ turn s' = turn s /\ finish s' = finish s /\
    kmldrv_workqueue s' = kmldrv_workqueue s.
Proof.
  induction ws as [|w ws IH]; intros s Hs Hf; cbn [run_works]; [eauto 6|].
  cbn [find] in Hf. destruct (is_move w) eqn:Ew; [discriminate|].
  destruct (work_func_idle w s Hs Ew) as (s1 & -> & Hs1 & T1 & F1 & Q1).
  cbn [bind].
  destruct (IH s1 Hs1 Hf) as (s2 & -> & Hs2 & T2 & F2 & Q2).
  exists s2. repeat split; try apply Hs2; congruence.
Qed.

Ltac still_fresh :=
  split; [reflexivity|]; split; [assumption|]; left; unfold fresh; auto.

(** Until a move task is pending every event keeps the state fresh, or
    makes the side-A task the first pending move task. *)
Lemma step_fresh e s :
  sized N D s -> fresh s ->
  exists s',
    step B N D check_win mcts negamax_predict count_active_nodes e s = Ok s' /\
    sized N D s' /\ (fresh s' \/ move_pending s' = Some ai_one_work).
Proof.
  intros Hs (Ht & Hf & Hq). destruct e; cbn [step].
  - (* timer *)
    destruct (timer s); [|exists s; still_fresh].
    assert (Hs0 : sized N D (set_timer false s)) by exact Hs.
    rewrite (timer_handler_eq B N D check_win _ Hgeo Hs0).
    destruct (after_timer_frame (set_timer false s) Hs0) as (S1 & T1 & F1 & Q1 & _).
    eexists. split; [reflexivity|]. split; [exact S1|]. left.
    unfold fresh, move_pending. rewrite T1, F1, Q1. auto.
  - (* tasklet *)
    destruct (game_tasklet s); [|exists s; still_fresh].
    eexists. split; [reflexivity|].
    destruct (game_tasklet_func_effect (set_game_tasklet false s))
      as (_ & _ & _ & A & _ & _ & A' & _).
    split; [unfold sized; rewrite A, A'; exact Hs|]. right.
    assert (C : negb (finish s =? 0) && Ascii.eqb (turn s) "O" = true).
    { rewrite Ht. apply andb_true_intro. split; [|reflexivity].
      apply negb_true_iff, Z.eqb_neq. exact Hf. }
    unfold game_tasklet_func. cbn [finish turn set_game_tasklet].
    rewrite C. rewrite !move_pending_queue_work.
    unfold move_pending in *. cbn [kmldrv_workqueue set_finish set_game_tasklet].
    now rewrite Hq.
  - (* worker *)
    unfold move_pending in Hq.
    destruct (kmldrv_workqueue s) as [|w ws] eqn:Eq.
    { exists s. split; [reflexivity|]. split; [exact Hs|]. left.
      unfold fresh, move_pending. rewrite Eq. auto. }
    cbn [find] in Hq. destruct (is_move w) eqn:Ew; [discriminate|].
    destruct (work_func_idle w (set_kmldrv_workqueue ws s) Hs Ew)
      as (s1 & -> & Hs1 & T1 & F1 & Q1).
    exists s1. split; [reflexivity|]. split; [exact Hs1|]. left.
    unfold fresh, move_pending. rewrite T1, F1, Q1. auto.
  - (* open *)
    unfold kmldrv_open, atomic_inc_return.
    destruct (wrap_int (open_cnt s + 1) =? 1); eexists; still_fresh.
  - (* release *)
    unfold kmldrv_release, atomic_dec_and_test.
    destruct (wrap_int (open_cnt s - 1) =? 0); cbn [Z.eqb bind snd].
    + eexists. still_fresh.
    + unfold flush_workqueue.
      match goal with |- context [run_works _ _ _ _ _ _ ?ws ?s0] =>
        destruct (run_works_idle ws s0 Hs Hq) as (s2 & -> & Hs2 & T2 & F2 & Q2) end.
      cbn [bind snd]. eexists. split; [reflexivity|].
      split; [exact Hs2|]. left. unfold fresh, move_pending.
      cbn [fast_buf_clear set_fast_buf turn finish kmldrv_workqueue].
      rewrite T2, F2, Q2. cbn. auto.
Qed.

Lemma first_move_pending es s w :
  move_pending s = Some w ->
  first_move B N D check_win mcts negamax_predict count_active_nodes es s
  = Ok (Some w).
Proof. intros H. destruct es; cbn [first_move]; now rewrite H. Qed.

Lemma first_move_fresh es :
  forall s, sized N D s -> fresh s ->
  first_move B N D check_win mcts negamax_predict count_active_nodes es s = Ok None \/
  first_move B N D check_win mcts negamax_predict count_active_nodes es s
  = Ok (Some ai_one_work).
Proof.
  induction es as [|e es IH]; intros s Hs Hf.
  - left. cbn [first_move]. destruct Hf as (_ & _ & ->). reflexivity.
  - cbn [first_move].
    destruct (step_fresh e s Hs Hf) as (s1 & -> & Hs1 & [Hf1 | Hp]).
    + destruct Hf as (_ & _ & ->). cbn [bind]. now apply IH.
    + destruct Hf as (_ & _ & ->). cbn [bind]. right.
      now apply first_move_pending.
Qed.

End Fresh.

(** ** kmldrv_init *)

(** kmldrv_init returns 0 only on the path that reaches the end. *)
Lemma kmldrv_init_success N PAGE_SIZE e s :
  fst (kmldrv_init N PAGE_SIZE e s) = 0 ->
  snd (kmldrv_init N PAGE_SIZE e s)
  = set_open_cnt 0 (set_timer false
      (set_attr_obj (mk_attr "1" "1" "0")
         (set_finish 1 (set_turn "O"
            (set_table (repeat " "%char (Z.to_nat N))
               (set_kmldrv_workqueue []
                  (set_rx_fifo (mk_kfifo PAGE_SIZE []) s))))))).
Proof.
  unfold kmldrv_init.
  destruct (kfifo_alloc_ret e <? 0); [discriminate|].
  destruct (alloc_chrdev_region_ret e =? 0) eqn:E1; cbn [negb];
    [|apply Z.eqb_neq in E1; cbn [fst]; intros; contradiction].
  destruct (cdev_add_ret e =? 0) eqn:E2; cbn [negb];
    [|apply Z.eqb_neq in E2; cbn [fst]; intros; contradiction].
  destruct (class_create_err e =? 0) eqn:E3; cbn [negb];
    [|apply Z.eqb_neq in E3; cbn [fst]; intros; contradiction].
  destruct (device_create_file_ret e <? 0) eqn:E4;
    [apply Z.ltb_lt in E4; cbn [fst]; intros; lia|].
  destruct (vmalloc_ok e); cbn [negb]; [|discriminate].
  destruct (alloc_workqueue_ok e); cbn [negb]; [|discriminate].
  reflexivity.
Qed.

(** C10: when kmldrv_init succeeds the board is all-empty, the turn is 'O'
    and the flag is 1; from there, whatever events follow, the first move
    task that becomes pending (if any does) is the side-A task.  And
    timer_handler never writes the turn or the flag: on a decided board with
    the end flag at '0' it resets the cells and nothing else of the three,
    so the side to move after the restart is the one that was due before. *)
Theorem init_then_side_A_first B N D PAGE_SIZE check_win mcts negamax_predict
    count_active_nodes e es s :
  geometry B N D ->
  fst (kmldrv_init N PAGE_SIZE e (boot_state N D)) = 0 ->
  sized N D s ->
  table (snd (kmldrv_init N PAGE_SIZE e (boot_state N D)))
    = repeat " "%char (Z.to_nat N) /\
  turn (snd (kmldrv_init N PAGE_SIZE e (boot_state N D))) = "O"%char /\
  finish (snd (kmldrv_init N PAGE_SIZE e (boot_state N D))) = 1 /\
  pending ai_one_work
    (game_tasklet_func (snd (kmldrv_init N PAGE_SIZE e (boot_state N D)))) = true /\
  pending ai_two_work
    (game_tasklet_func (snd (kmldrv_init N PAGE_SIZE e (boot_state N D)))) = false /\
  (first_move B N D check_win mcts negamax_predict count_active_nodes es
     (snd (kmldrv_init N PAGE_SIZE e (boot_state N D))) = Ok None \/
   first_move B N D check_win mcts negamax_predict count_active_nodes es
     (snd (kmldrv_init N PAGE_SIZE e (boot_state N D))) = Ok (Some ai_one_work)) /\
  exists s',
    timer_handler B N D check_win s = Ok s' /\
    turn s' = turn s /\ finish s' = finish s /\
    table s' = (if negb (Ascii.eqb (check_win (table s)) " ")
                   && Ascii.eqb (end_ (attr_obj s)) "0"
                then repeat " "%char (Z.to_nat N) else table s).
Proof.
  intros Hgeo Hret Hs.
  rewrite (kmldrv_init_success N PAGE_SIZE e (boot_state N D) Hret).
  set (s0 := set_open_cnt 0 _).
  assert (Hs0 : sized N D s0).
  { destruct Hgeo as (HB & HN & HD).
    split; cbn; rewrite repeat_length; nia. }
  assert (Hf0 : fresh s0) by (repeat split; discriminate).
  split; [reflexivity|]. split; [reflexivity|]. split; [reflexivity|].
  split; [reflexivity|]. split; [reflexivity|].
  split; [now apply first_move_fresh|].
  rewrite (timer_handler_eq B N D check_win s Hgeo Hs).
  destruct (after_timer_frame B N D check_win Hgeo s Hs) as (_ & T & F & _ & Tb).
  eexists. split; [reflexivity|]. auto.
Qed.

Lemma init_then_side_A_first_witness :
  geometry 3 9 38 /\
  fst (kmldrv_init 9 4096 init_ok (boot_state 9 38)) = 0 /\
  sized 9 38 decided_3x3 /\
  table (snd (kmldrv_init 9 4096 init_ok (boot_state 9 38)))
    = repeat " "%char (Z.to_nat 9) /\
  turn (snd (kmldrv_init 9 4096 init_ok (boot_state 9 38))) = "O"%char /\
  finish (snd (kmldrv_init 9 4096 init_ok (boot_state 9 38))) = 1 /\
  pending ai_one_work
    (game_tasklet_func (snd (kmldrv_init 9 4096 init_ok (boot_state 9 38)))) = true /\
  pending ai_two_work
    (game_tasklet_func (snd (kmldrv_init 9 4096 init_ok (boot_state 9 38)))) = false /\
  (first_move 3 9 38 check_win_3x3 first_empty_engine first_empty_engine 1
     [EvOpen; EvExpire; EvSoftirq; EvWorker]
     (snd (kmldrv_init 9 4096 init_ok (boot_state 9 38))) = Ok None \/
   first_move 3 9 38 check_win_3x3 first_empty_engine first_empty_engine 1
     [EvOpen; EvExpire; EvSoftirq; EvWorker]
     (snd (kmldrv_init 9 4096 init_ok (boot_state 9 38))) = Ok (Some ai_one_work)) /\
  exists s',
    timer_handler 3 9 38 check_win_3x3 decided_3x3 = Ok s' /\
    turn s' = turn decided_3x3 /\ finish s' = finish decided_3x3 /\
    table s' = (if negb (Ascii.eqb (check_win_3x3 (table decided_3x3)) " ")
                   && Ascii.eqb (end_ (attr_obj decided_3x3)) "0"
                then repeat " "%char (Z.to_nat 9) else table decided_3x3).
Proof.
  assert (G : geometry 3 9 38) by (unfold geometry; lia).
  assert (Z : sized 9 38 decided_3x3) by (split; reflexivity).
  split; [exact G|]. split; [reflexivity|]. split; [exact Z|].
  exact (init_then_side_A_first 3 9 38 4096 check_win_3x3 first_empty_engine
           first_empty_engine 1 init_ok [EvOpen; EvExpire; EvSoftirq; EvWorker]
           decided_3x3 G eq_refl Z).
Defined.

Example first_move_after_one_tick :
  first_move 3 9 38 check_win_3x3 first_empty_engine first_empty_engine 1
    [EvOpen; EvExpire; EvSoftirq; EvWorker] loaded_3x3 = Ok (Some ai_one_work).
Proof. reflexivity. Qed.

(** * Further properties of the driver *)

(** ** kmldrv_state_store *)

Lemma skip_spaces_app sp rest :
  forallb isspace sp = true -> skip_spaces (sp ++ rest) = skip_spaces rest.
Proof.
  induction sp as [|c sp IH]; intros H; [reflexivity|].
  cbn [forallb] in H. apply andb_true_iff in H as (Hc & Hsp).
  cbn [app skip_spaces]. rewrite Hc. now apply IH.
Qed.

Lemma skip_spaces_stop c rest :
  isspace c = false -> skip_spaces (c :: rest) = c :: rest.
Proof. intros H. cbn [skip_spaces]. now rewrite H. Qed.

Lemma skip_spaces_all sp : forallb isspace sp = true -> skip_spaces sp = [].
Proof.
  intros H. rewrite <- (app_nil_r sp). now rewrite skip_spaces_app.
Qed.

Lemma attr_eta a : mk_attr (display a) (resume a) (end_ a) = a.
Proof. now destruct a. Qed.

Lemma set_attr_obj_same s : set_attr_obj (attr_obj s) s = s.
Proof. now destruct s. Qed.

(** X1: a text of three flags, separated by any amount of white space
    (none included), sets display, resume and end to them; the first flag
    is taken as it comes, white space or not.  The call returns count, and
    a kmldrv_state_show that follows prints the three flags. *)
Theorem kmldrv_state_store_three_flags buf out count s d r e sp1 sp2 rest :
  c_string buf = d :: sp1 ++ r :: sp2 ++ e :: rest ->
  forallb isspace sp1 = true -> forallb isspace sp2 = true ->
  isspace r = false -> isspace e = false ->
  kmldrv_state_store buf count s = (count, set_attr_obj (mk_attr d r e) s) /\
  kmldrv_state_show out (snd (kmldrv_state_store buf count s))
  = (d :: " "%char :: r :: " "%char :: e :: NUL :: skipn 6 out, 6).
Proof.
  intros Hs H1 H2 Hr He.
  assert (E : kmldrv_state_store buf count s
              = (count, set_attr_obj (mk_attr d r e) s)).
  { unfold kmldrv_state_store, sscanf_c_c_c. rewrite Hs. cbn [scan_c].
    rewrite (skip_spaces_app sp1) by assumption.
    rewrite (skip_spaces_stop r) by assumption. cbn [scan_c].
    rewrite (skip_spaces_app sp2) by assumption.
    rewrite (skip_spaces_stop e) by assumption. reflexivity. }
  rewrite E. split; reflexivity.
Qed.

Lemma kmldrv_state_store_three_flags_witness :
  c_string (list_ascii_of_string "0  10" ++ [nl; NUL; "x"%char])
    = "0"%char :: [" "%char; " "%char] ++ "1"%char :: [] ++ "0"%char :: [nl] /\
  forallb isspace [" "%char; " "%char] = true /\ forallb isspace [] = true /\
  isspace "1" = false /\ isspace "0" = false /\
  kmldrv_state_store (list_ascii_of_string "0  10" ++ [nl; NUL; "x"%char]) 6
    loaded_3x3
    = (6, set_attr_obj (mk_attr "0" "1" "0") loaded_3x3) /\
  kmldrv_state_show (repeat "x"%char 8)
    (snd (kmldrv_state_store (list_ascii_of_string "0  10" ++ [nl; NUL; "x"%char]) 6
            loaded_3x3))
  = ("0"%char :: " "%char :: "1"%char :: " "%char :: "0"%char :: NUL
       :: skipn 6 (repeat "x"%char 8), 6).
Proof.
  split; [reflexivity|]. split; [reflexivity|]. split; [reflexivity|].
  split; [reflexivity|]. split; [reflexivity|].
  exact (kmldrv_state_store_three_flags
           (list_ascii_of_string "0  10" ++ [nl; NUL; "x"%char])
           (repeat "x"%char 8) 6 loaded_3x3 "0" "1" "0"
           [" "%char; " "%char] [] [nl] eq_refl eq_refl eq_refl eq_refl eq_refl).
Defined.

Lemma c_string_cons c rest :
  c <> NUL -> c_string (c :: rest) = c :: c_string rest.
Proof.
  intros H. cbn [c_string].
  destruct (Ascii.eqb c NUL) eqn:E; [apply Ascii.eqb_eq in E; contradiction|].
  reflexivity.
Qed.

Lemma isspace_not_nul c : isspace c = true -> c <> NUL.
Proof. intros H ->. discriminate. Qed.

Lemma c_string_spaces sp tail :
  forallb isspace sp = true -> c_string (sp ++ NUL :: tail) = sp.
Proof.
  induction sp as [|c sp IH]; intros H; [reflexivity|].
  cbn [forallb] in H. apply andb_true_iff in H as (Hc & Hsp).
  cbn [app]. rewrite c_string_cons by now apply isspace_not_nul.
  now rewrite IH.
Qed.

(** X2: a text that ends early leaves the flags it does not reach as they
    were: an empty text changes nothing, one flag (with white space after
    it or not) sets display only, two flags set display and resume only.
    Nothing but the three flags is written, and the call returns count. *)
Theorem kmldrv_state_store_short_text tail count s d r sp1 sp2 :
  d <> NUL -> r <> NUL -> isspace r = false ->
  forallb isspace sp1 = true -> forallb isspace sp2 = true ->
  kmldrv_state_store (NUL :: tail) count s = (count, s) /\
  kmldrv_state_store (d :: sp1 ++ NUL :: tail) count s
  = (count, set_attr_obj (mk_attr d (resume (attr_obj s)) (end_ (attr_obj s))) s) /\
  kmldrv_state_store (d :: sp1 ++ r :: sp2 ++ NUL :: tail) count s
  = (count, set_attr_obj (mk_attr d r (end_ (attr_obj s))) s).
Proof.
  intros Hd Hr Hrs H1 H2. unfold kmldrv_state_store, sscanf_c_c_c.
  split; [|split].
  - cbn [c_string]. rewrite Ascii.eqb_refl. cbn [scan_c].
    now rewrite set_attr_obj_same.
  - rewrite c_string_cons, c_string_spaces by assumption. cbn [scan_c].
    now rewrite (skip_spaces_all sp1).
  - rewrite c_string_cons by assumption.
    assert (E : c_string (sp1 ++ r :: sp2 ++ NUL :: tail) = sp1 ++ r :: sp2).
    { change (r :: sp2 ++ NUL :: tail) with ((r :: sp2) ++ NUL :: tail).
      rewrite app_assoc.
      induction sp1 as [|c sp1 IH]; cbn [app].
      - now rewrite c_string_cons, c_string_spaces.
      - cbn [forallb] in H1. apply andb_true_iff in H1 as (Hc & Hsp).
        rewrite c_string_cons by now apply isspace_not_nul.
        now rewrite IH. }
    rewrite E. cbn [scan_c].
    rewrite (skip_spaces_app sp1), (skip_spaces_stop r) by assumption.
    cbn [scan_c]. now rewrite (skip_spaces_all sp2).
Qed.

Lemma kmldrv_state_store_short_text_witness :
  "0"%char <> NUL /\ "1"%char <> NUL /\ isspace "1" = false /\
  forallb isspace [nl] = true /\ forallb isspace [" "%char; nl] = true /\
  kmldrv_state_store (NUL :: []) 1 loaded_3x3 = (1, loaded_3x3) /\
  kmldrv_state_store ("0"%char :: [nl] ++ NUL :: []) 1 loaded_3x3
  = (1, set_attr_obj (mk_attr "0" (resume (attr_obj loaded_3x3))
                        (end_ (attr_obj loaded_3x3))) loaded_3x3) /\
  kmldrv_state_store ("0"%char :: [nl] ++ "1"%char :: [" "%char; nl] ++ NUL :: [])
    1 loaded_3x3
  = (1, set_attr_obj (mk_attr "0" "1" (end_ (attr_obj loaded_3x3))) loaded_3x3).
Proof.
  split; [discriminate|]. split; [discriminate|]. split; [reflexivity|].
  split; [reflexivity|]. split; [reflexivity|].
  apply (kmldrv_state_store_short_text [] 1 loaded_3x3 "0" "1" [nl]
           [" "%char; nl]); [discriminate | discriminate | reflexivity ..].
Defined.

Example kmldrv_state_store_one_flag :
  attr_obj (snd (kmldrv_state_store (list_ascii_of_string "0" ++ [nl; NUL]) 2
                   loaded_3x3))
  = mk_attr "0" "1" "0" /\
  attr_obj (snd (kmldrv_state_store (list_ascii_of_string "101" ++ [NUL]) 3
                   loaded_3x3))
  = mk_attr "1" "0" "1" /\
  attr_obj (snd (kmldrv_state_store (list_ascii_of_string " 0 0" ++ [NUL]) 4
                   loaded_3x3))
  = mk_attr " " "0" "0".
Proof. repeat split. Qed.

(** X3: what kmldrv_state_show prints, kmldrv_state_store reads back: the
    flags are as before, provided resume is not a white-space character
    (a blank resume would be skipped and end read in its place). *)
Theorem show_then_store buf count s :
  isspace (resume (attr_obj s)) = false ->
  kmldrv_state_store (fst (kmldrv_state_show buf s)) count s = (count, s).
Proof.
  intros Hr. unfold kmldrv_state_store.
  change (fst (kmldrv_state_show buf s))
    with (display (attr_obj s) :: " "%char :: resume (attr_obj s) :: " "%char ::
          end_ (attr_obj s) :: NUL :: skipn 6 buf).
  assert (E : sscanf_c_c_c
                (c_string
                   (display (attr_obj s) :: " "%char :: resume (attr_obj s)
                    :: " "%char :: end_ (attr_obj s) :: NUL :: skipn 6 buf))
                (attr_obj s) = attr_obj s).
  { destruct (attr_obj s) as [d r e]. cbn [display resume end_] in *.
    unfold sscanf_c_c_c. cbn [c_string].
    destruct (Ascii.eqb d NUL) eqn:Ed; [reflexivity|].
    change (Ascii.eqb " " NUL) with false. cbn match. cbn [scan_c skip_spaces].
    change (isspace " ") with true. cbn match.
    destruct (Ascii.eqb r NUL) eqn:Er; [reflexivity|].
    cbn [skip_spaces]. rewrite Hr. cbn [scan_c skip_spaces].
    change (isspace " ") with true. cbn match.
    destruct (Ascii.eqb e NUL) eqn:Ee; [reflexivity|].
    rewrite Ascii.eqb_refl. cbn [skip_spaces].
    destruct (isspace e); reflexivity. }
  now rewrite E, set_attr_obj_same.
Qed.

Lemma show_then_store_witness :
  isspace (resume (attr_obj loaded_3x3)) = false /\
  kmldrv_state_store (fst (kmldrv_state_show (repeat NUL 8) loaded_3x3)) 6 loaded_3x3
  = (6, loaded_3x3).
Proof.
  split; [reflexivity|].
  exact (show_then_store (repeat NUL 8) 6 loaded_3x3 eq_refl).
Defined.

Example show_then_store_blank_resume :
  attr_obj
    (snd (kmldrv_state_store
            (fst (kmldrv_state_show (repeat NUL 8)
                    (set_attr_obj (mk_attr "1" " " "0") loaded_3x3)))
            6 (set_attr_obj (mk_attr "1" " " "0") loaded_3x3)))
  = mk_attr "1" "0" "0".
Proof. reflexivity. Qed.

(** ** mcts_calc_load *)

Lemma calc_load_toward load exp active :
  0 <= load -> 0 <= active -> 0 < exp < FIXED_1 ->
  load * exp + active * (FIXED_1 - exp) + (FIXED_1 - 1) < 2 ^ 64 ->
  toward load (calc_load load exp active) active.
Proof.
  intros Hl Ha He Hov. unfold calc_load, wrap_ulong, toward.
  change FIXED_1 with 2048 in *.
  rewrite (Z.mod_small (load * exp + active * (2048 - exp))) by nia.
  destruct (load <=? active) eqn:E.
  - apply Z.leb_le in E. rewrite Z.mod_small by nia.
    pose proof (Z.div_mod (load * exp + active * (2048 - exp) + (2048 - 1)) 2048
                  ltac:(lia)) as Hdm.
    pose proof (Z.mod_pos_bound (load * exp + active * (2048 - exp) + (2048 - 1))
                  2048 ltac:(lia)) as Hmb.
    set (q := (load * exp + active * (2048 - exp) + (2048 - 1)) / 2048) in *.
    set (m := (load * exp + active * (2048 - exp) + (2048 - 1)) mod 2048) in *.
    repeat split; nia.
  - apply Z.leb_gt in E.
    pose proof (Z.div_mod (load * exp + active * (2048 - exp)) 2048
                  ltac:(lia)) as Hdm.
    pose proof (Z.mod_pos_bound (load * exp + active * (2048 - exp))
                  2048 ltac:(lia)) as Hmb.
    set (q := (load * exp + active * (2048 - exp)) / 2048) in *.
    set (m := (load * exp + active * (2048 - exp)) mod 2048) in *.
    repeat split; nia.
Qed.

(** X4: mcts_calc_load moves each of the three averages toward the sample
    count_active_nodes * FIXED_1: the new value lies between the old one and
    the sample, differs from the old one unless that is already the sample,
    and stays put when it is.  Nothing else of the state changes.  (Sizes
    for which neither int nor unsigned long arithmetic wraps.) *)
Theorem mcts_calc_load_toward_sample count_active_nodes s a0 a1 a2 :
  0 <= count_active_nodes < 2 ^ 20 ->
  mcts_avennode s = (a0, a1, a2) ->
  0 <= a0 < 2 ^ 52 -> 0 <= a1 < 2 ^ 52 -> 0 <= a2 < 2 ^ 52 ->
  exists b0 b1 b2,
    mcts_calc_load count_active_nodes s = set_mcts_avennode (b0, b1, b2) s /\
    toward a0 b0 (sample count_active_nodes) /\
    toward a1 b1 (sample count_active_nodes) /\
    toward a2 b2 (sample count_active_nodes).
Proof.
  intros Hc Hs H0 H1 H2. unfold mcts_calc_load. rewrite Hs.
  assert (Hw : wrap_ulong (count_active_nodes * FIXED_1)
               = sample count_active_nodes).
  { unfold wrap_ulong, sample. change FIXED_1 with 2048.
    apply Z.mod_small. lia. }
  rewrite Hw.
  assert (Hsm : 0 <= sample count_active_nodes < 2 ^ 31)
    by (unfold sample; change FIXED_1 with 2048; lia).
  eexists. eexists. eexists. split; [reflexivity|].
  change (2 ^ 52) with 4503599627370496 in *.
  change (2 ^ 31) with 2147483648 in *.
  repeat split; apply calc_load_toward; try lia;
    unfold EXP_1, EXP_5, EXP_15; change FIXED_1 with 2048;
    change (2 ^ 64) with 18446744073709551616; try lia; nia.
Qed.

Lemma mcts_calc_load_toward_sample_witness :
  0 <= 3 < 2 ^ 20 /\
  mcts_avennode (set_mcts_avennode (0, 6144, 10000) loaded_3x3) = (0, 6144, 10000) /\
  0 <= 0 < 2 ^ 52 /\ 0 <= 6144 < 2 ^ 52 /\ 0 <= 10000 < 2 ^ 52 /\
  exists b0 b1 b2,
    mcts_calc_load 3 (set_mcts_avennode (0, 6144, 10000) loaded_3x3)
    = set_mcts_avennode (b0, b1, b2)
        (set_mcts_avennode (0, 6144, 10000) loaded_3x3) /\
    toward 0 b0 (sample 3) /\ toward 6144 b1 (sample 3) /\
    toward 10000 b2 (sample 3).
Proof.
  split; [lia|]. split; [reflexivity|]. split; [lia|]. split; [lia|].
  split; [lia|].
  apply (mcts_calc_load_toward_sample 3
           (set_mcts_avennode (0, 6144, 10000) loaded_3x3) 0 6144 10000);
    [lia | reflexivity | lia | lia | lia].
Defined.

Example mcts_calc_load_values :
  mcts_avennode (mcts_calc_load 3 (set_mcts_avennode (0, 6144, 10000) loaded_3x3))
  = (492, 6144, 9979).
Proof. reflexivity. Qed.

(** ** More on kmldrv_read *)




Example kmldrv_read_nonblocking_3x3 :
  fst (kmldrv_read 1 true (mk_user_buf true 64) 10 false [] one_snapshot_3x3)
  = Returns 10 (firstn 10 (snapshot_layout 3 (repeat " "%char 9))) /\
  fst (kmldrv_read 1 true (mk_user_buf true 64) 10 false [] loaded_3x3)
  = Returns 4294967285 [] /\
  fst (kmldrv_read 1 true (mk_user_buf true 64) 10 true [] one_snapshot_3x3)
  = Returns (-512) [].
Proof. repeat split. Qed.

(** X6: a blocking read of length 0 with bytes in the queue never leaves
    the do-while loop: kfifo_to_user copies nothing, the wait returns at
    once because the queue is not empty, and the loop starts over; however
    many turns are allowed, the call has not returned and the state is as
    it was. *)
Theorem kmldrv_read_zero_length_spins fuel to env s :
  ub_access_ok to = true -> kfifo_len (rx_fifo s) <> 0 ->
  kmldrv_read fuel false to 0 false env s = (Spinning, s).
Proof.
  intros Ha Hne. unfold kmldrv_read. rewrite Ha. cbn [negb].
  assert (H : read_loop fuel false to 0 env (rx_fifo s) = (Spinning, rx_fifo s)).
  { pose proof (kfifo_len_nonneg (rx_fifo s)) as H0.
    induction fuel as [|fuel IH]; [reflexivity|].
    cbn [read_loop]. unfold kfifo_to_user.
    replace (Z.min 0 (kfifo_len (rx_fifo s))) with 0 by lia.
    replace (Z.min 0 (Z.max 0 (ub_writable to))) with 0 by lia.
    change (Z.to_nat 0) with 0%nat. cbn [firstn skipn].
    rewrite kfifo_eta. change (0 <? 0) with false.
    change (negb (0 =? 0)) with false. cbn match.
    destruct env as [|w env]; cbn [wait_event_interruptible];
      destruct (kfifo_len (rx_fifo s) =? 0) eqn:E;
      try (apply Z.eqb_eq in E; contradiction);
      cbn [negb]; change (0 =? 0) with true; cbn match; exact IH. }
  rewrite H. now rewrite set_rx_fifo_same.
Qed.

Lemma kmldrv_read_zero_length_spins_witness :
  ub_access_ok (mk_user_buf true 0) = true /\
  kfifo_len (rx_fifo one_snapshot_3x3) <> 0 /\
  kmldrv_read 50 false (mk_user_buf true 0) 0 false [Signalled] one_snapshot_3x3
  = (Spinning, one_snapshot_3x3).
Proof.
  assert (H : kfifo_len (rx_fifo one_snapshot_3x3) <> 0)
    by (vm_compute; discriminate).
  split; [reflexivity|]. split; [exact H|].
  exact (kmldrv_read_zero_length_spins 50 (mk_user_buf true 0) [Signalled]
           one_snapshot_3x3 eq_refl H).
Defined.

(** X7: when copy_to_user faults after w bytes, short of what the read
    would have copied, the call returns 2^32 - EFAULT (-EFAULT leaving
    through [ret ? ret : read] as unsigned int), and the w bytes that were
    copied have left the queue: the next read starts after them. *)
Theorem kmldrv_read_fault_consumes fuel nonblock to count env s :
  (1 <= fuel)%nat -> ub_access_ok to = true ->
  0 <= ub_writable to < Z.min count (kfifo_len (rx_fifo s)) ->
  kmldrv_read fuel nonblock to count false env s
  = (Returns (2 ^ 32 - EFAULT)
       (firstn (Z.to_nat (ub_writable to)) (kf_data (rx_fifo s))),
     set_rx_fifo
       (mk_kfifo (kf_size (rx_fifo s))
          (skipn (Z.to_nat (ub_writable to)) (kf_data (rx_fifo s)))) s).
Proof.
  intros Hf Ha Hw. destruct fuel as [|fuel]; [lia|].
  unfold kmldrv_read. rewrite Ha. cbn [negb read_loop]. unfold kfifo_to_user.
  replace (Z.min (Z.min count (kfifo_len (rx_fifo s)))
             (Z.max 0 (ub_writable to))) with (ub_writable to) by lia.
  destruct (ub_writable to <? Z.min count (kfifo_len (rx_fifo s))) eqn:E;
    [|apply Z.ltb_ge in E; lia].
  reflexivity.
Qed.

Lemma kmldrv_read_fault_consumes_witness :
  (1 <= 1)%nat /\ ub_access_ok (mk_user_buf true 5) = true /\
  0 <= ub_writable (mk_user_buf true 5)
    < Z.min 38 (kfifo_len (rx_fifo one_snapshot_3x3)) /\
  kmldrv_read 1 true (mk_user_buf true 5) 38 false [] one_snapshot_3x3
  = (Returns (2 ^ 32 - EFAULT)
       (firstn (Z.to_nat (ub_writable (mk_user_buf true 5)))
          (kf_data (rx_fifo one_snapshot_3x3))),
     set_rx_fifo
       (mk_kfifo (kf_size (rx_fifo one_snapshot_3x3))
          (skipn (Z.to_nat (ub_writable (mk_user_buf true 5)))
             (kf_data (rx_fifo one_snapshot_3x3)))) one_snapshot_3x3).
Proof.
  assert (H : 0 <= ub_writable (mk_user_buf true 5)
                < Z.min 38 (kfifo_len (rx_fifo one_snapshot_3x3)))
    by (vm_compute; split; [discriminate | reflexivity]).
  split; [lia|]. split; [reflexivity|]. split; [exact H|].
  exact (kmldrv_read_fault_consumes 1 true (mk_user_buf true 5) 38 []
           one_snapshot_3x3 (le_n 1) eq_refl H).
Defined.

(** ** From the board to the reader *)

Lemma kfifo_in_whole f src len :
  kfifo_len f = 0 -> 0 <= len <= kf_size f -> Z.of_nat (length src) = len ->
  fst (kfifo_in f src len) = mk_kfifo (kf_size f) src.
Proof.
  intros H0 Hl Hs. unfold kfifo_in, kfifo_avail. rewrite H0. cbn [fst].
  rewrite (kfifo_len_0 f H0). cbn [app].
  replace (Z.min len (kf_size f - 0)) with len by lia.
  rewrite firstn_all2 by lia. reflexivity.
Qed.

(** X8: the render task followed by a read is the identity on boards.
    With the display not '0', an empty queue that can hold a snapshot and a
    destination of at least DRAWBUFFER_SIZE bytes, the read (blocking or
    not) returns DRAWBUFFER_SIZE, hands over exactly the snapshot of the
    current board, which reads back as that board, and leaves the queue
    empty. *)
Theorem render_then_read B N D fuel nonblock to count env s :
  geometry B N D -> sized N D s ->
  Ascii.eqb (display (attr_obj s)) "0" = false ->
  kfifo_len (rx_fifo s) = 0 -> D <= kf_size (rx_fifo s) ->
  (1 <= fuel)%nat -> ub_access_ok to = true ->
  D <= count -> count <= ub_writable to ->
  exists s1 s2 data,
    drawboard_work_func B N D s = Ok s1 /\
    kmldrv_read fuel nonblock to count false env s1 = (Returns D data, s2) /\
    data = snapshot_layout (Z.to_nat B) (table s) /\
    parse_snapshot (Z.to_nat B) data = Some (table s) /\
    kfifo_len (rx_fifo s2) = 0 /\ table s2 = table s.
Proof.
  intros Hgeo Hs Hdisp H0 Hcap Hf Ha Hc Hw.
  destruct fuel as [|fuel]; [lia|].
  pose proof Hs as (Ht & Hd). pose proof Hgeo as (HB & HN & HD).
  assert (Hlen : Z.of_nat (length (snapshot_layout (Z.to_nat B) (table s))) = D).
  { rewrite length_snapshot_layout by nia. nia. }
  unfold drawboard_work_func. rewrite Hdisp.
  rewrite (draw_board_layout B N D (table s) (draw_buffer s) Hgeo Ht Hd).
  cbn [bind]. fold (after_final_render (Z.to_nat B) D s).
  destruct (after_final_render_frame (Z.to_nat B) D s)
    as (_ & _ & A3 & _ & _ & _ & _ & _ & _ & A10 & _).
  rewrite (kfifo_in_whole (rx_fifo s) _ D H0 ltac:(lia) Hlen) in A10.
  eexists. eexists. eexists. split; [reflexivity|].
  unfold kmldrv_read. rewrite Ha. cbn [negb].
  rewrite read_loop_nonempty;
    [|assumption|lia|rewrite A10; unfold kfifo_len; cbn [kf_data]; lia].
  unfold take_bytes. rewrite A10.
  assert (Hk : kfifo_len (mk_kfifo (kf_size (rx_fifo s))
                            (snapshot_layout (Z.to_nat B) (table s))) = D)
    by (unfold kfifo_len; cbn [kf_data]; exact Hlen).
  rewrite Hk. cbn [kf_data kf_size].
  replace (Z.min count D) with D by lia.
  replace (Z.to_nat D)
    with (length (snapshot_layout (Z.to_nat B) (table s))) by lia.
  rewrite firstn_all, skipn_all.
  split; [reflexivity|]. split; [reflexivity|].
  split; [apply parse_snapshot_layout; nia|].
  split; [reflexivity|]. exact A3.
Qed.

Lemma render_then_read_witness :
  geometry 3 9 38 /\ sized 9 38 decided_3x3 /\
  Ascii.eqb (display (attr_obj decided_3x3)) "0" = false /\
  kfifo_len (rx_fifo decided_3x3) = 0 /\ 38 <= kf_size (rx_fifo decided_3x3) /\
  (1 <= 1)%nat /\ ub_access_ok (mk_user_buf true 64) = true /\
  38 <= 64 /\ 64 <= ub_writable (mk_user_buf true 64) /\
  exists s1 s2 data,
    drawboard_work_func 3 9 38 decided_3x3 = Ok s1 /\
    kmldrv_read 1 false (mk_user_buf true 64) 64 false [] s1 = (Returns 38 data, s2) /\
    data = snapshot_layout (Z.to_nat 3) (table decided_3x3) /\
    parse_snapshot (Z.to_nat 3) data = Some (table decided_3x3) /\
    kfifo_len (rx_fifo s2) = 0 /\ table s2 = table decided_3x3.
Proof.
  assert (G : geometry 3 9 38) by (unfold geometry; lia).
  assert (Z : sized 9 38 decided_3x3) by (split; reflexivity).
  split; [exact G|]. split; [exact Z|]. split; [reflexivity|].
  split; [reflexivity|]. split; [cbn; lia|]. split; [lia|].
  split; [reflexivity|]. split; [lia|]. split; [cbn; lia|].
  apply (render_then_read 3 9 38 1 false (mk_user_buf true 64) 64 [] decided_3x3);
    [exact G | exact Z | reflexivity | reflexivity | cbn; lia | lia
    | reflexivity | lia | cbn; lia].
Defined.

(** ** What every event keeps *)

Lemma kfifo_in_ok f src len :
  fifo_ok f ->
  fifo_ok (fst (kfifo_in f src len)) /\
  kf_size (fst (kfifo_in f src len)) = kf_size f.
Proof.
  unfold fifo_ok, kfifo_in, kfifo_avail, kfifo_len. cbn [fst kf_data kf_size].
  intros H. split; [|reflexivity].
  rewrite length_app, length_firstn. lia.
Qed.

Lemma length_board_after tbl m mark :
  length (board_after tbl m mark) = length tbl.
Proof.
  unfold board_after. destruct (m =? -1); [reflexivity|]. apply length_insert.
Qed.

(** What a work function leaves alone, whenever it ends without a fault. *)
Lemma work_func_frame B N D mcts negamax_predict count_active_nodes w s s' :
  work_func B N D mcts negamax_predict count_active_nodes w s = Ok s' ->
  kmldrv_workqueue s' = kmldrv_workqueue s /\ timer s' = timer s /\
  game_tasklet s' = game_tasklet s /\ open_cnt s' = open_cnt s /\
  attr_obj s' = attr_obj s /\
  match w with
  | ai_one_work => turn s' = "X"%char /\ finish s' = 1
  | ai_two_work => turn s' = "O"%char /\ finish s' = 1
  | _ => turn s' = turn s /\ finish s' = finish s /\ table s' = table s
  end.
Proof.
  destruct w; cbn [work_func].
  - unfold drawboard_work_func.
    destruct (Ascii.eqb (display (attr_obj s)) "0");
      [intros [= <-]; repeat split|].
    destruct (draw_board B N D (table s) (draw_buffer s)) as [b| |];
      cbn [bind]; try discriminate.
    intros [= <-].
    destruct (produce_board_frame D (set_draw_buffer b s))
      as ((A1 & A2 & _ & _ & _ & _ & A7 & A8 & A9 & A10 & A11 & A12) & _).
    unfold wake_up_interruptible.
    cbn [kmldrv_workqueue timer game_tasklet open_cnt attr_obj turn finish table
         set_rx_wait].
    rewrite A1, A2, A7, A8, A9, A10, A11, A12. repeat split.
  - unfold ai_one_work_func.
    destruct (negb (mcts (table s) "O"%char =? -1)).
    + destruct (array_store (table s) (mcts (table s) "O"%char) "O"%char);
        cbn [bind]; try discriminate.
      intros [= <-]. repeat split.
    + cbn [bind]. intros [= <-]. repeat split.
  - unfold ai_two_work_func.
    destruct (negb (negamax_predict (table s) "X"%char =? -1)).
    + destruct (array_store (table s) (negamax_predict (table s) "X"%char) "X"%char);
        cbn [bind]; try discriminate.
      intros [= <-]. repeat split.
    + cbn [bind]. intros [= <-]. repeat split.
  - unfold mcts_calc_load. destruct (mcts_avennode s) as [[a0 a1] a2].
    intros [= <-]. repeat split.
Qed.

Lemma run_works_frame B N D mcts negamax_predict count_active_nodes ws :
  forall s s',
  run_works B N D mcts negamax_predict count_active_nodes ws s = Ok s' ->
  kmldrv_workqueue s' = kmldrv_workqueue s /\ timer s' = timer s /\
  game_tasklet s' = game_tasklet s /\ open_cnt s' = open_cnt s.
Proof.
  induction ws as [|w ws IH]; intros s s' H; cbn [run_works] in H.
  - injection H as <-. repeat split.
  - destruct (work_func B N D mcts negamax_predict count_active_nodes w s)
      as [s1| |] eqn:E; cbn [bind] in H; try discriminate.
    apply work_func_frame in E as (Q1 & T1 & G1 & O1 & _).
    apply IH in H as (Q2 & T2 & G2 & O2).
    repeat split; congruence.
Qed.

Section Safe.
Variables B N D : Z.
Variable check_win : list ascii -> ascii.
Variables mcts negamax_predict : list ascii -> ascii -> Z.
Variable count_active_nodes : Z.
Hypothesis Hgeo : geometry B N D.
Hypothesis mcts_ok : engine_ok mcts.
Hypothesis negamax_ok : engine_ok negamax_predict.

Lemma after_final_render_safe s :
  safe N D s ->
  safe N D (after_final_render (Z.to_nat B) D s) /\
  kf_size (rx_fifo (after_final_render (Z.to_nat B) D s)) = kf_size (rx_fifo s).
Proof.
  intros (Hs & Hf). pose proof (sized_snapshot B N D Hgeo s Hs) as Hsnap.
  destruct (after_final_render_frame (Z.to_nat B) D s)
    as (_ & _ & A3 & _ & _ & _ & _ & _ & A9 & A10 & _).
  destruct (kfifo_in_ok (rx_fifo s) (snapshot_layout (Z.to_nat B) (table s)) D Hf)
    as (K1 & K2).
  unfold safe, sized. rewrite A3, A9, A10.
  repeat split; try assumption. apply Hs.
Qed.

Lemma work_func_safe w s :
  safe N D s ->
  exists s',
    work_func B N D mcts negamax_predict count_active_nodes w s = Ok s' /\
    safe N D s' /\ kf_size (rx_fifo s') = kf_size (rx_fifo s).
Proof.
  intros Hsafe. pose proof Hsafe as ((Ht & Hd) & Hf).
  destruct w; cbn [work_func].
  - unfold drawboard_work_func.
    destruct (Ascii.eqb (display (attr_obj s)) "0"); [eauto|].
    rewrite (draw_board_layout B N D (table s) (draw_buffer s) Hgeo Ht Hd).
    cbn [bind]. fold (after_final_render (Z.to_nat B) D s).
    destruct (after_final_render_safe s Hsafe). eauto.
  - rewrite ai_one_work_func_ok by apply mcts_ok.
    eexists. split; [reflexivity|]. split; [|reflexivity].
    split; [split|]; cbn [table draw_buffer rx_fifo set_finish set_turn set_table];
      rewrite ?length_board_after; assumption.
  - rewrite ai_two_work_func_ok by apply negamax_ok.
    eexists. split; [reflexivity|]. split; [|reflexivity].
    split; [split|]; cbn [table draw_buffer rx_fifo set_finish set_turn set_table];
      rewrite ?length_board_after; assumption.
  - unfold mcts_calc_load. destruct (mcts_avennode s) as [[a0 a1] a2].
    eexists. split; [reflexivity|]. split; [exact Hsafe | reflexivity].
Qed.

Lemma run_works_safe ws :
  forall s, safe N D s ->
  exists s',
    run_works B N D mcts negamax_predict count_active_nodes ws s = Ok s' /\
    safe N D s' /\ kf_size (rx_fifo s') = kf_size (rx_fifo s).
Proof.
  induction ws as [|w ws IH]; intros s Hs; cbn [run_works]; [eauto|].
  destruct (work_func_safe w s Hs) as (s1 & -> & Hs1 & K1). cbn [bind].
  destruct (IH s1 Hs1) as (s2 & -> & Hs2 & K2).
  exists s2. repeat split; try apply Hs2. congruence.
Qed.

Lemma after_timer_safe s :
  safe N D s ->
  safe N D (after_timer B N D check_win s) /\
  kf_size (rx_fifo (after_timer B N D check_win s)) = kf_size (rx_fifo s).
Proof.
  intros Hsafe. pose proof Hsafe as ((Ht & Hd) & Hf).
  pose proof (sized_repeat B N D Hgeo) as Hrep.
  destruct (after_final_render_safe s Hsafe) as (((Rt & Rd) & Rf) & Rk).
  unfold after_timer, safe, sized.
  destruct (Ascii.eqb (check_win (table s)) " "); [repeat split; assumption|].
  destruct (Ascii.eqb (display (attr_obj s)) "1");
    destruct (Ascii.eqb (end_ (attr_obj s)) "0");
    cbn [mod_timer set_timer set_table table draw_buffer rx_fifo];
    repeat split; assumption.
Qed.

Lemma step_safe e s :
  safe N D s ->
  exists s',
    step B N D check_win mcts negamax_predict count_active_nodes e s = Ok s' /\
    safe N D s' /\ kf_size (rx_fifo s') = kf_size (rx_fifo s).
Proof.
  intros Hsafe. destruct e; cbn [step].
  - destruct (timer s); [|eauto].
    assert (H0 : safe N D (set_timer false s)) by exact Hsafe.
    rewrite (timer_handler_eq B N D check_win _ Hgeo (proj1 H0)).
    destruct (after_timer_safe _ H0). eauto.
  - destruct (game_tasklet s); [|eauto].
    eexists. split; [reflexivity|].
    destruct (game_tasklet_func_effect (set_game_tasklet false s))
      as (_ & _ & _ & A & _ & _ & A' & A'' & _).
    unfold safe, sized. rewrite A, A', A''. split; [exact Hsafe | reflexivity].
  - destruct (kmldrv_workqueue s) as [|w ws]; [eauto|].
    apply (work_func_safe w (set_kmldrv_workqueue ws s)). exact Hsafe.
  - unfold kmldrv_open, atomic_inc_return.
    destruct (wrap_int (open_cnt s + 1) =? 1); eauto.
  - unfold kmldrv_release, atomic_dec_and_test.
    destruct (wrap_int (open_cnt s - 1) =? 0); cbn [Z.eqb bind snd]; [eauto|].
    unfold flush_workqueue.
    match goal with |- context [run_works _ _ _ _ _ _ ?ws ?s0] =>
      destruct (run_works_safe ws s0 Hsafe) as (s2 & -> & Hs2 & K2) end.
    cbn [bind snd]. eexists. split; [reflexivity|].
    split; [exact Hs2 | exact K2].
Qed.

Lemma run_safe es :
  forall s, safe N D s ->
  exists s',
    run B N D check_win mcts negamax_predict count_active_nodes es s = Ok s' /\
    safe N D s' /\ kf_size (rx_fifo s') = kf_size (rx_fifo s).
Proof.
  induction es as [|e es IH]; intros s Hs; cbn [run]; [eauto|].
  destruct (step_safe e s Hs) as (s1 & -> & Hs1 & K1). cbn [bind].
  destruct (IH s1 Hs1) as (s2 & -> & Hs2 & K2).
  exists s2. repeat split; try apply Hs2. congruence.
Qed.

End Safe.

(** ** The workqueue holds each item once, and a move task for the side to move *)

Lemma queue_work_nodup w s :
  NoDup (kmldrv_workqueue s) -> NoDup (kmldrv_workqueue (queue_work w s)).
Proof.
  intros H. unfold queue_work.
  destruct (bool_decide (elem_of w (kmldrv_workqueue s))) eqn:E; [exact H|].
  apply bool_decide_eq_false in E. cbn [kmldrv_workqueue set_kmldrv_workqueue].
  apply list.NoDup_app. split; [exact H|]. split.
  - intros x Hx Hw. apply list_elem_of_singleton in Hw. now subst.
  - apply NoDup_singleton.
Qed.

Lemma work_nodup_length (l : list work) : NoDup l -> (length l <= 4)%nat.
Proof.
  intros H. apply NoDup_ListNoDup in H.
  apply (NoDup_incl_length (l' := [drawboard_work; ai_one_work; ai_two_work;
                                   mcts_calc_load_work]) H).
  intros w _. destruct w; cbn; auto.
Qed.

Lemma timer_handler_frame B N D check_win s s' :
  timer_handler B N D check_win s = Ok s' ->
  kmldrv_workqueue s' = kmldrv_workqueue s /\ turn s' = turn s /\
  finish s' = finish s /\ open_cnt s' = open_cnt s /\ attr_obj s' = attr_obj s.
Proof.
  unfold timer_handler.
  destruct (Ascii.eqb (check_win (table s)) " "); [intros [= <-]; repeat split|].
  destruct (Ascii.eqb (display (attr_obj s)) "1"); cbn [bind].
  - destruct (draw_board B N D (table s) (draw_buffer s)) as [b| |];
      cbn [bind]; try discriminate.
    destruct (produce_board_frame D (set_draw_buffer b s))
      as ((A1 & _ & _ & _ & _ & _ & _ & A8 & A9 & A10 & _ & A12) & _).
    unfold wake_up_interruptible. cbn [attr_obj set_rx_wait].
    destruct (Ascii.eqb (end_ (attr_obj (produce_board D (set_draw_buffer b s)))) "0");
      intros [= <-];
      cbn [mod_timer set_timer set_table set_rx_wait kmldrv_workqueue turn
           finish open_cnt attr_obj];
      rewrite ?A1, ?A8, ?A9, ?A10, ?A12; repeat split.
  - destruct (Ascii.eqb (end_ (attr_obj s)) "0"); intros [= <-]; repeat split.
Qed.

Lemma pending_same_queue w s s' :
  kmldrv_workqueue s' = kmldrv_workqueue s -> pending w s' = pending w s.
Proof. unfold pending. now intros ->. Qed.

Lemma move_inv_same s s' :
  kmldrv_workqueue s' = kmldrv_workqueue s -> turn s' = turn s ->
  finish s' = finish s -> move_inv s -> move_inv s'.
Proof.
  intros Q T F (H1 & H2). unfold move_inv.
  rewrite !(pending_same_queue _ s s' Q), T, F. auto.
Qed.

Lemma move_inv_empty s : kmldrv_workqueue s = [] -> move_inv s.
Proof.
  intros Q. unfold move_inv, pending. rewrite Q. split; intros H; discriminate.
Qed.

Section Order.
Variables B N D : Z.
Variable check_win : list ascii -> ascii.
Variables mcts negamax_predict : list ascii -> ascii -> Z.
Variable count_active_nodes : Z.

Lemma step_order e s s' :
  NoDup (kmldrv_workqueue s) -> move_inv s ->
  step B N D check_win mcts negamax_predict count_active_nodes e s = Ok s' ->
  NoDup (kmldrv_workqueue s') /\ move_inv s'.
Proof.
  intros Hnd Hinv. destruct e; cbn [step].
  - (* timer *)
    destruct (timer s); [|intros [= <-]; auto].
    intros H. apply timer_handler_frame in H as (Q & T & F & _).
    split; [now rewrite Q|]. now apply (move_inv_same s).
  - (* tasklet *)
    destruct (game_tasklet s); [|intros [= <-]; auto].
    intros [= <-]. split.
    + unfold game_tasklet_func.
      do 2 apply queue_work_nodup.
      destruct (negb (finish (set_game_tasklet false s) =? 0)
                && Ascii.eqb (turn (set_game_tasklet false s)) "O");
        [now apply queue_work_nodup|].
      destruct (negb (finish (set_game_tasklet false s) =? 0)
                && Ascii.eqb (turn (set_game_tasklet false s)) "X");
        [now apply queue_work_nodup | exact Hnd].
    + destruct (game_tasklet_func_effect (set_game_tasklet false s))
        as (C & _ & _ & _ & T & _).
      cbn [finish turn set_game_tasklet] in C, T.
      change (pending ai_one_work (set_game_tasklet false s))
        with (pending ai_one_work s) in C.
      change (pending ai_two_work (set_game_tasklet false s))
        with (pending ai_two_work s) in C.
      destruct Hinv as (I1 & I2). unfold move_inv. rewrite T.
      destruct (negb (finish s =? 0) && Ascii.eqb (turn s) "O") eqn:C1.
      { apply andb_true_iff in C1 as (Cf & Ct).
        apply negb_true_iff, Z.eqb_neq in Cf. apply Ascii.eqb_eq in Ct.
        destruct C as (F & P1 & P2). rewrite F, P2. split; [auto|].
        intros H. apply I2 in H. tauto. }
      destruct (negb (finish s =? 0) && Ascii.eqb (turn s) "X") eqn:C2.
      { apply andb_true_iff in C2 as (Cf & Ct).
        apply negb_true_iff, Z.eqb_neq in Cf. apply Ascii.eqb_eq in Ct.
        destruct C as (F & P1 & P2). rewrite F, P2. split; [|auto].
        intros H. apply I1 in H. tauto. }
      destruct C as (F & P1 & P2). rewrite F, P1, P2. auto.
  - (* worker *)
    destruct (kmldrv_workqueue s) as [|w ws] eqn:Eq.
    { intros [= <-]. split; [rewrite Eq; constructor | exact Hinv]. }
    intros H. apply work_func_frame in H as (Q & _ & _ & _ & _ & W).
    cbn [kmldrv_workqueue set_kmldrv_workqueue turn finish] in Q, W.
    apply list.NoDup_cons in Hnd as (Hw & Hws).
    split; [now rewrite Q|].
    assert (Hin : forall x, pending x s' = true -> elem_of x ws).
    { intros x Hx. unfold pending in Hx. rewrite Q in Hx.
      now apply bool_decide_eq_true in Hx. }
    assert (Hold : forall x, elem_of x ws -> pending x s = true).
    { intros x Hx. unfold pending. rewrite Eq.
      apply bool_decide_eq_true. now apply elem_of_cons; right. }
    assert (Hhead : pending w s = true).
    { unfold pending. rewrite Eq. apply bool_decide_eq_true.
      now apply elem_of_cons; left. }
    destruct Hinv as (I1 & I2). unfold move_inv.
    destruct w.
    + destruct W as (T & F & _). rewrite T, F.
      split; intros H; [apply I1 | apply I2]; now apply Hold, Hin.
    + specialize (I1 Hhead). split; intros H.
      * exfalso. apply Hw. now apply Hin.
      * apply Hin, Hold, I2 in H. destruct I1 as (I1 & _), H as (H & _).
        rewrite I1 in H. discriminate.
    + specialize (I2 Hhead). split; intros H.
      * apply Hin, Hold, I1 in H. destruct I2 as (I2 & _), H as (H & _).
        rewrite I2 in H. discriminate.
      * exfalso. apply Hw. now apply Hin.
    + destruct W as (T & F & _). rewrite T, F.
      split; intros H; [apply I1 | apply I2]; now apply Hold, Hin.
  - (* open *)
    unfold kmldrv_open, atomic_inc_return.
    destruct (wrap_int (open_cnt s + 1) =? 1); intros [= <-]; auto.
  - (* release *)
    unfold kmldrv_release, atomic_dec_and_test.
    destruct (wrap_int (open_cnt s - 1) =? 0); cbn [Z.eqb bind snd];
      [intros [= <-]; auto|].
    unfold flush_workqueue.
    match goal with |- context [run_works _ _ _ _ _ _ ?ws ?s0] =>
      destruct (run_works B N D mcts negamax_predict count_active_nodes ws s0)
        as [s2| |] eqn:E end; cbn [bind]; try discriminate.
    intros [= <-]. apply run_works_frame in E as (Q & _).
    cbn [kmldrv_workqueue set_kmldrv_workqueue del_timer_sync set_timer
         set_open_cnt] in Q.
    cbn [snd fast_buf_clear set_fast_buf kmldrv_workqueue].
    split; [rewrite Q; constructor|].
    apply move_inv_empty. exact Q.
Qed.

Lemma run_order es :
  forall s s',
  NoDup (kmldrv_workqueue s) -> move_inv s ->
  run B N D check_win mcts negamax_predict count_active_nodes es s = Ok s' ->
  NoDup (kmldrv_workqueue s') /\ move_inv s'.
Proof.
  induction es as [|e es IH]; intros s s' Hnd Hinv H; cbn [run] in H.
  - injection H as <-. auto.
  - destruct (step B N D check_win mcts negamax_predict count_active_nodes e s)
      as [s1| |] eqn:E; cbn [bind] in H; try discriminate.
    destruct (step_order e s s1 Hnd Hinv E) as (Hnd1 & Hinv1).
    exact (IH s1 s' Hnd1 Hinv1 H).
Qed.

End Order.

(** X9: the pipeline never leaves its arrays.  With the sizes of a square
    board and engines that answer a cell or -1, every sequence of timer
    expiries, tasklet runs, worker runs, opens and closes runs to its end
    without a store or load outside table and draw_buffer; both arrays keep
    their sizes, and the queue never holds more than its capacity, which
    never changes. *)
Theorem pipeline_never_faults B N D check_win mcts negamax_predict
    count_active_nodes es s :
  geometry B N D -> engine_ok mcts -> engine_ok negamax_predict ->
  sized N D s -> fifo_ok (rx_fifo s) ->
  exists s',
    run B N D check_win mcts negamax_predict count_active_nodes es s = Ok s' /\
    sized N D s' /\ fifo_ok (rx_fifo s') /\
    kf_size (rx_fifo s') = kf_size (rx_fifo s).
Proof.
  intros Hgeo H1 H2 Hs Hf.
  destruct (run_safe B N D check_win mcts negamax_predict count_active_nodes
              Hgeo H1 H2 es s (conj Hs Hf)) as (s' & E & (Hs' & Hf') & K).
  eauto.
Qed.

Lemma pipeline_never_faults_witness :
  geometry 3 9 38 /\ engine_ok first_empty_engine /\
  engine_ok first_empty_engine /\
  sized 9 38 loaded_3x3 /\ fifo_ok (rx_fifo loaded_3x3) /\
  exists s',
    run 3 9 38 check_win_3x3 first_empty_engine first_empty_engine 1
      [EvOpen; EvExpire; EvSoftirq; EvWorker; EvWorker; EvWorker; EvExpire;
       EvSoftirq; EvRelease] loaded_3x3 = Ok s' /\
    sized 9 38 s' /\ fifo_ok (rx_fifo s') /\
    kf_size (rx_fifo s') = kf_size (rx_fifo loaded_3x3).
Proof.
  assert (G : geometry 3 9 38) by (unfold geometry; lia).
  assert (Z : sized 9 38 loaded_3x3) by (split; reflexivity).
  assert (F : fifo_ok (rx_fifo loaded_3x3))
    by (unfold fifo_ok; vm_compute; discriminate).
  split; [exact G|]. split; [exact first_empty_engine_ok|].
  split; [exact first_empty_engine_ok|]. split; [exact Z|]. split; [exact F|].
  exact (pipeline_never_faults 3 9 38 check_win_3x3 first_empty_engine
           first_empty_engine 1
           [EvOpen; EvExpire; EvSoftirq; EvWorker; EvWorker; EvWorker; EvExpire;
            EvSoftirq; EvRelease] loaded_3x3 G first_empty_engine_ok
           first_empty_engine_ok Z F).
Defined.

(** X10: in every state the pipeline reaches, each work item is pending at
    most once (so at most four are pending), a pending side-A move task
    means the turn is 'O' and a pending side-B move task means the turn is
    'X', in both cases with the flag clear; the two move tasks are never
    pending together. *)
Theorem moves_belong_to_the_side_to_move B N D check_win mcts negamax_predict
    count_active_nodes es s :
  geometry B N D -> engine_ok mcts -> engine_ok negamax_predict ->
  pipeline_inv N D s ->
  exists s',
    run B N D check_win mcts negamax_predict count_active_nodes es s = Ok s' /\
    pipeline_inv N D s' /\
    (length (kmldrv_workqueue s') <= 4)%nat /\
    (pending ai_one_work s' = true -> turn s' = "O"%char /\ finish s' = 0) /\
    (pending ai_two_work s' = true -> turn s' = "X"%char /\ finish s' = 0) /\
    ~ (pending ai_one_work s' = true /\ pending ai_two_work s' = true).
Proof.
  intros Hgeo H1 H2 (Hs & Hf & Hnd & Hinv).
  destruct (run_safe B N D check_win mcts negamax_predict count_active_nodes
              Hgeo H1 H2 es s (conj Hs Hf)) as (s' & E & (Hs' & Hf') & K).
  destruct (run_order B N D check_win mcts negamax_predict count_active_nodes
              es s s' Hnd Hinv E) as (Hnd' & Hinv').
  exists s'. split; [exact E|]. split; [unfold pipeline_inv; auto|].
  split; [now apply work_nodup_length|].
  destruct Hinv' as (I1 & I2). split; [exact I1|]. split; [exact I2|].
  intros (P1 & P2). destruct (I1 P1) as (T1 & _), (I2 P2) as (T2 & _).
  rewrite T1 in T2. discriminate.
Qed.

Lemma pipeline_inv_loaded_3x3 : pipeline_inv 9 38 loaded_3x3.
Proof.
  split; [split; reflexivity|].
  split; [unfold fifo_ok; vm_compute; discriminate|].
  split; [constructor|]. now apply move_inv_empty.
Qed.

Lemma moves_belong_to_the_side_to_move_witness :
  geometry 3 9 38 /\ engine_ok first_empty_engine /\
  engine_ok first_empty_engine /\ pipeline_inv 9 38 loaded_3x3 /\
  exists s',
    run 3 9 38 check_win_3x3 first_empty_engine first_empty_engine 1
      [EvOpen; EvExpire; EvSoftirq; EvWorker; EvWorker; EvExpire; EvSoftirq]
      loaded_3x3 = Ok s' /\
    pipeline_inv 9 38 s' /\
    (length (kmldrv_workqueue s') <= 4)%nat /\
    (pending ai_one_work s' = true -> turn s' = "O"%char /\ finish s' = 0) /\
    (pending ai_two_work s' = true -> turn s' = "X"%char /\ finish s' = 0) /\
    ~ (pending ai_one_work s' = true /\ pending ai_two_work s' = true).
Proof.
  assert (G : geometry 3 9 38) by (unfold geometry; lia).
  split; [exact G|]. split; [exact first_empty_engine_ok|].
  split; [exact first_empty_engine_ok|]. split; [exact pipeline_inv_loaded_3x3|].
  exact (moves_belong_to_the_side_to_move 3 9 38 check_win_3x3
           first_empty_engine first_empty_engine 1
           [EvOpen; EvExpire; EvSoftirq; EvWorker; EvWorker; EvExpire; EvSoftirq]
           loaded_3x3 G first_empty_engine_ok first_empty_engine_ok
           pipeline_inv_loaded_3x3).
Defined.

Example second_tick_queues_side_B :
  match run_3x3 [EvOpen; EvExpire; EvSoftirq; EvWorker; EvWorker; EvExpire;
                 EvSoftirq] loaded_3x3 with
  | Ok s' =>
      kmldrv_workqueue s' = [drawboard_work; ai_two_work; mcts_calc_load_work] /\
      turn s' = "X"%char /\ finish s' = 0 /\
      table s' = list_ascii_of_string "O        "
  | _ => False
  end.
Proof. vm_compute. repeat split. Qed.

(** ** kmldrv_exit *)

Lemma game_tasklet_func_tasklet s :
  game_tasklet (game_tasklet_func s) = game_tasklet s.
Proof.
  unfold game_tasklet_func.
  destruct (queue_work_frame drawboard_work
              (queue_work mcts_calc_load_work
                 (if negb (finish s =? 0) && Ascii.eqb (turn s) "O"
                  then queue_work ai_one_work (set_finish 0 s)
                  else if negb (finish s =? 0) && Ascii.eqb (turn s) "X"
                       then queue_work ai_two_work (set_finish 0 s) else s)))
    as (_ & _ & _ & _ & _ & _ & _ & _ & _ & _ & -> & _).
  destruct (queue_work_frame mcts_calc_load_work
              (if negb (finish s =? 0) && Ascii.eqb (turn s) "O"
               then queue_work ai_one_work (set_finish 0 s)
               else if negb (finish s =? 0) && Ascii.eqb (turn s) "X"
                    then queue_work ai_two_work (set_finish 0 s) else s))
    as (_ & _ & _ & _ & _ & _ & _ & _ & _ & _ & -> & _).
  destruct (negb (finish s =? 0) && Ascii.eqb (turn s) "O").
  { now destruct (queue_work_frame ai_one_work (set_finish 0 s))
      as (_ & _ & _ & _ & _ & _ & _ & _ & _ & _ & -> & _). }
  destruct (negb (finish s =? 0) && Ascii.eqb (turn s) "X"); [|reflexivity].
  now destruct (queue_work_frame ai_two_work (set_finish 0 s))
    as (_ & _ & _ & _ & _ & _ & _ & _ & _ & _ & -> & _).
Qed.

Lemma run_quiescent B N D check_win mcts negamax_predict count_active_nodes es :
  forall s, quiescent s -> forallb is_tick es = true ->
  run B N D check_win mcts negamax_predict count_active_nodes es s = Ok s.
Proof.
  induction es as [|e es IH]; intros s Hq Hes; [reflexivity|].
  cbn [forallb] in Hes. apply andb_true_iff in Hes as (He & Hes).
  pose proof Hq as (T & G & Q).
  assert (E : step B N D check_win mcts negamax_predict count_active_nodes e s
              = Ok s).
  { destruct e; try discriminate; cbn [step]; now rewrite ?T, ?G, ?Q. }
  cbn [run]. rewrite E. cbn [bind]. now apply IH.
Qed.

(** No work function looks at the workqueue: what is pending while it runs
    makes no difference to what it does. *)
Lemma work_func_queue B N D mcts negamax_predict count_active_nodes w q s :
  work_func B N D mcts negamax_predict count_active_nodes w
    (set_kmldrv_workqueue q s)
  = let* s' := work_func B N D mcts negamax_predict count_active_nodes w s in
    Ok (set_kmldrv_workqueue q s').
Proof.
  destruct s as [a t d f rw fb av tb tu fi wq g o rl l].
  destruct w; cbn [work_func].
  - unfold drawboard_work_func.
    cbn [attr_obj table draw_buffer set_kmldrv_workqueue].
    destruct (Ascii.eqb (display a) "0"); [reflexivity|].
    destruct (draw_board B N D tb d) as [b| |]; cbn [bind]; try reflexivity.
    unfold produce_board.
    cbn [rx_fifo draw_buffer set_draw_buffer set_kmldrv_workqueue].
    destruct (kfifo_in f b D) as [f' len].
    destruct (len <? D); [|reflexivity].
    unfold printk_ratelimit.
    cbn [ratelimit set_rx_fifo set_draw_buffer set_kmldrv_workqueue].
    destruct rl; reflexivity.
  - unfold ai_one_work_func. cbn [table set_kmldrv_workqueue].
    destruct (negb (mcts tb "O"%char =? -1)); [|reflexivity].
    destruct (array_store tb (mcts tb "O"%char) "O"%char); reflexivity.
  - unfold ai_two_work_func. cbn [table set_kmldrv_workqueue].
    destruct (negb (negamax_predict tb "X"%char =? -1)); [|reflexivity].
    destruct (array_store tb (negamax_predict tb "X"%char) "X"%char); reflexivity.
  - unfold mcts_calc_load. cbn [mcts_avennode set_kmldrv_workqueue].
    destruct av as [[a0 a1] a2]. reflexivity.
Qed.

Lemma set_kmldrv_workqueue_twice q q' s :
  set_kmldrv_workqueue q (set_kmldrv_workqueue q' s) = set_kmldrv_workqueue q s.
Proof. reflexivity. Qed.

Lemma set_kmldrv_workqueue_same s q :
  kmldrv_workqueue s = q -> set_kmldrv_workqueue q s = s.
Proof. intros <-. now destruct s. Qed.

Section Flush.
Variables B N D : Z.
Variable check_win : list ascii -> ascii.
Variables mcts negamax_predict : list ascii -> ascii -> Z.
Variable count_active_nodes : Z.

(** flush_workqueue is the worker run once for every pending item, oldest
    first (and worker runs beyond that find nothing to do). *)
Lemma flush_workqueue_run q :
  forall n s,
  kmldrv_workqueue s = q -> (length q <= n)%nat ->
  run B N D check_win mcts negamax_predict count_active_nodes
    (repeat EvWorker n) s
  = flush_workqueue B N D mcts negamax_predict count_active_nodes s.
Proof.
  unfold flush_workqueue.
  induction q as [|w ws IH]; intros n s Hq Hn; rewrite Hq.
  - cbn [run_works]. rewrite (set_kmldrv_workqueue_same s [] Hq).
    clear Hn. induction n as [|n IHn]; [reflexivity|].
    cbn [repeat run step]. rewrite Hq. cbn [bind]. exact IHn.
  - destruct n as [|n]; [cbn [length] in Hn; lia|].
    cbn [repeat run step run_works]. rewrite Hq.
    rewrite !work_func_queue.
    destruct (work_func B N D mcts negamax_predict count_active_nodes w s)
      as [s1| |]; cbn [bind]; try reflexivity.
    rewrite (IH n (set_kmldrv_workqueue ws s1) eq_refl)
      by (cbn [length] in Hn; lia).
    reflexivity.
Qed.

End Flush.

Lemma queue_work_length w s :
  (length (kmldrv_workqueue (queue_work w s)) <= S (length (kmldrv_workqueue s)))%nat.
Proof.
  unfold queue_work. destruct (bool_decide (elem_of w (kmldrv_workqueue s))).
  - lia.
  - cbn [kmldrv_workqueue set_kmldrv_workqueue]. rewrite length_app. cbn. lia.
Qed.

Lemma game_tasklet_func_length s :
  (length (kmldrv_workqueue (game_tasklet_func s))
   <= length (kmldrv_workqueue s) + 3)%nat.
Proof.
  unfold game_tasklet_func.
  set (s1 := if negb (finish s =? 0) && Ascii.eqb (turn s) "O"
             then queue_work ai_one_work (set_finish 0 s)
             else if negb (finish s =? 0) && Ascii.eqb (turn s) "X"
                  then queue_work ai_two_work (set_finish 0 s) else s).
  pose proof (queue_work_length drawboard_work
                (queue_work mcts_calc_load_work s1)) as H1.
  pose proof (queue_work_length mcts_calc_load_work s1) as H2.
  assert (H3 : (length (kmldrv_workqueue s1) <= S (length (kmldrv_workqueue s)))%nat).
  { unfold s1.
    destruct (negb (finish s =? 0) && Ascii.eqb (turn s) "O");
      [exact (queue_work_length ai_one_work (set_finish 0 s))|].
    destruct (negb (finish s =? 0) && Ascii.eqb (turn s) "X");
      [exact (queue_work_length ai_two_work (set_finish 0 s)) | lia]. }
  lia.
Qed.

Lemma step_softirq_tasklet_kill B N D check_win mcts negamax_predict
    count_active_nodes s :
  step B N D check_win mcts negamax_predict count_active_nodes EvSoftirq s
  = Ok (tasklet_kill s).
Proof. cbn [step]. unfold tasklet_kill. now destruct (game_tasklet s). Qed.

(** X11: kmldrv_exit finishes what is pending and leaves nothing behind.
    It ends in the state the pipeline itself reaches, from the state with
    the timer deleted, by one tasklet run followed by n worker runs, for any
    n of at least the number of pending items plus the three the tasklet can
    add, with the queue freed after that: a scheduled tasklet runs, then
    every pending work item, oldest first, and only then is the queue freed.
    Afterwards no timer, tasklet or work item is pending, the queue is empty
    with capacity 0, and timer, softirq and worker events change nothing any
    more. *)
Theorem kmldrv_exit_quiescent B N D check_win mcts negamax_predict
    count_active_nodes es n s :
  geometry B N D -> engine_ok mcts -> engine_ok negamax_predict ->
  sized N D s -> fifo_ok (rx_fifo s) -> forallb is_tick es = true ->
  (length (kmldrv_workqueue s) + 3 <= n)%nat ->
  exists s3,
    run B N D check_win mcts negamax_predict count_active_nodes
      (EvSoftirq :: repeat EvWorker n) (del_timer_sync s) = Ok s3 /\
    kmldrv_exit B N D mcts negamax_predict count_active_nodes s
    = Ok (kfifo_free s3) /\
    quiescent (kfifo_free s3) /\ rx_fifo (kfifo_free s3) = mk_kfifo 0 [] /\
    run B N D check_win mcts negamax_predict count_active_nodes es
      (kfifo_free s3) = Ok (kfifo_free s3).
Proof.
  intros Hgeo H1 H2 Hs Hf Hes Hn. unfold kmldrv_exit.
  cbn [run]. rewrite step_softirq_tasklet_kill. cbn [bind].
  set (s2 := tasklet_kill (del_timer_sync s)).
  assert (S2 : safe N D s2 /\ timer s2 = false /\ game_tasklet s2 = false /\
               (length (kmldrv_workqueue s2) <= n)%nat).
  { unfold s2, tasklet_kill.
    destruct (game_tasklet (del_timer_sync s)) eqn:G.
    - destruct (game_tasklet_func_effect (set_game_tasklet false (del_timer_sync s)))
        as (_ & _ & _ & A & _ & _ & A' & A'' & T & _).
      rewrite game_tasklet_func_tasklet.
      unfold safe, sized. rewrite A, A', A'', T.
      split; [exact (conj Hs Hf)|]. split; [reflexivity|]. split; [reflexivity|].
      pose proof (game_tasklet_func_length
                    (set_game_tasklet false (del_timer_sync s))) as L.
      cbn [kmldrv_workqueue set_game_tasklet del_timer_sync set_timer] in L.
      unfold del_timer_sync in *. lia.
    - split; [exact (conj Hs Hf)|]. split; [reflexivity|]. split; [exact G|].
      cbn [kmldrv_workqueue del_timer_sync set_timer]. lia. }
  destruct S2 as (Hsafe2 & T2 & G2 & L2).
  rewrite (flush_workqueue_run B N D check_win mcts negamax_predict
             count_active_nodes (kmldrv_workqueue s2) n s2 eq_refl L2).
  unfold flush_workqueue.
  destruct (run_works_safe B N D mcts negamax_predict count_active_nodes
              Hgeo H1 H2 (kmldrv_workqueue s2) (set_kmldrv_workqueue [] s2)
              Hsafe2) as (s3 & E & _ & _).
  rewrite E. cbn [bind].
  apply run_works_frame in E as (Q3 & T3 & G3 & _).
  cbn [kmldrv_workqueue timer game_tasklet set_kmldrv_workqueue] in Q3, T3, G3.
  assert (Hq : quiescent (kfifo_free s3)).
  { unfold quiescent, kfifo_free. cbn [timer game_tasklet kmldrv_workqueue set_rx_fifo].
    rewrite Q3, T3, G3, T2, G2. auto. }
  exists s3. split; [reflexivity|]. split; [reflexivity|]. split; [exact Hq|].
  split; [reflexivity|]. now apply run_quiescent.
Qed.

Lemma kmldrv_exit_quiescent_witness :
  geometry 3 9 38 /\ engine_ok first_empty_engine /\
  engine_ok first_empty_engine /\
  sized 9 38 busy_3x3 /\ fifo_ok (rx_fifo busy_3x3) /\
  forallb is_tick [EvExpire; EvSoftirq; EvWorker] = true /\
  (length (kmldrv_workqueue busy_3x3) + 3 <= 6)%nat /\
  exists s3,
    run 3 9 38 check_win_3x3 first_empty_engine first_empty_engine 1
      (EvSoftirq :: repeat EvWorker 6) (del_timer_sync busy_3x3) = Ok s3 /\
    kmldrv_exit 3 9 38 first_empty_engine first_empty_engine 1 busy_3x3
    = Ok (kfifo_free s3) /\
    quiescent (kfifo_free s3) /\ rx_fifo (kfifo_free s3) = mk_kfifo 0 [] /\
    run 3 9 38 check_win_3x3 first_empty_engine first_empty_engine 1
      [EvExpire; EvSoftirq; EvWorker] (kfifo_free s3) = Ok (kfifo_free s3).
Proof.
  assert (G : geometry 3 9 38) by (unfold geometry; lia).
  assert (Z : sized 9 38 busy_3x3) by (split; vm_compute; reflexivity).
  assert (F : fifo_ok (rx_fifo busy_3x3))
    by (unfold fifo_ok; vm_compute; discriminate).
  assert (L : (length (kmldrv_workqueue busy_3x3) + 3 <= 6)%nat)
    by (vm_compute; lia).
  split; [exact G|]. split; [exact first_empty_engine_ok|].
  split; [exact first_empty_engine_ok|]. split; [exact Z|]. split; [exact F|].
  split; [reflexivity|]. split; [exact L|].
  exact (kmldrv_exit_quiescent 3 9 38 check_win_3x3 first_empty_engine
           first_empty_engine 1 [EvExpire; EvSoftirq; EvWorker] 6 busy_3x3
           G first_empty_engine_ok first_empty_engine_ok Z F eq_refl L).
Defined.

(** With the tasklet scheduled and the three work items of the first tick
    pending, kmldrv_exit still makes the move and renders it. *)
Example kmldrv_exit_busy_3x3 :
  timer busy_3x3 = true /\ game_tasklet busy_3x3 = true /\
  kmldrv_workqueue busy_3x3 = [ai_one_work; mcts_calc_load_work; drawboard_work] /\
  table busy_3x3 = repeat " "%char 9 /\
  match kmldrv_exit 3 9 38 first_empty_engine first_empty_engine 1 busy_3x3 with
  | Ok s' =>
      table s' = list_ascii_of_string "O        " /\ turn s' = "X"%char /\
      draw_buffer s' = snapshot_layout 3 (table s') /\ rx_fifo s' = mk_kfifo 0 []
  | _ => False
  end.
Proof. vm_compute. repeat split. Qed.

(** ** kmldrv_init, failing *)


(** When device_create_file fails, the class and the device stay
    registered; when vmalloc fails after it, they are destroyed. *)
Example kmldrv_init_held_paths :
  kmldrv_init_held (mk_init_env 0 0 0 0 (-12) true true)
  = mk_held false false true true false false /\
  fst (kmldrv_init 9 4096 (mk_init_env 0 0 0 0 (-12) true true) (boot_state 9 38))
  = -12 /\
  kmldrv_init_held (mk_init_env 0 0 0 0 0 false true) = nothing_held /\
  kmldrv_init_held (mk_init_env 0 0 0 0 0 true false) = nothing_held /\
  kmldrv_init_held (mk_init_env 0 0 (-16) 0 0 true true) = nothing_held.
Proof. repeat split. Qed.

(** ** One tick *)




Section Tick.
Variables B N D : Z.
Variable check_win : list ascii -> ascii.
Variables mcts negamax_predict : list ascii -> ascii -> Z.
Variable count_active_nodes : Z.




End Tick.


(** ** Queued bytes stay, the board holds marks *)

Lemma extends_by_nil s s' : rx_fifo s' = rx_fifo s -> extends_by [] s s'.
Proof.
  intros F. unfold extends_by. rewrite F, app_nil_r. repeat split.
Qed.

Lemma extends_by_app m1 m2 s1 s2 s3 :
  extends_by m1 s1 s2 -> extends_by m2 s2 s3 -> extends_by (m1 ++ m2) s1 s3.
Proof.
  intros (D1 & K1 & A1) (D2 & K2 & A2). unfold extends_by.
  rewrite D2, D1, K2, K1, forallb_app, A1, A2, app_assoc. repeat split.
Qed.

Lemma is_mark_insert tbl i mark :
  is_mark mark = true -> forallb is_mark tbl = true ->
  forallb is_mark (<[i := mark]> tbl) = true.
Proof.
  intros Hm. revert i.
  induction tbl as [|c tbl IH]; intros i H; [reflexivity|].
  cbn [forallb] in H. apply andb_true_iff in H as (Hc & Ht).
  destruct i as [|i].
  - change (<[0%nat:=mark]> (c :: tbl)) with (mark :: tbl).
    cbn [forallb]. now rewrite Hm, Ht.
  - change (<[S i:=mark]> (c :: tbl)) with (c :: <[i:=mark]> tbl).
    cbn [forallb]. now rewrite Hc, IH.
Qed.

Lemma is_mark_repeat n : forallb is_mark (repeat " "%char n) = true.
Proof. induction n; [reflexivity | exact IHn]. Qed.

Lemma is_drawn_repeat n : forallb is_drawn (repeat "-"%char n) = true.
Proof. induction n; [reflexivity | exact IHn]. Qed.

Lemma forallb_firstn {A : Type} (p : A -> bool) n (l : list A) :
  forallb p l = true -> forallb p (firstn n l) = true.
Proof.
  revert n. induction l as [|x l IH]; intros [|n] H; try reflexivity.
  cbn [forallb firstn] in *. apply andb_true_iff in H as (-> & H).
  now rewrite IH.
Qed.

Lemma forallb_skipn {A : Type} (p : A -> bool) n (l : list A) :
  forallb p l = true -> forallb p (skipn n l) = true.
Proof.
  revert n. induction l as [|x l IH]; intros [|n] H; try reflexivity;
    [exact H|].
  cbn [forallb skipn] in *. apply andb_true_iff in H as (_ & H). now apply IH.
Qed.

Lemma is_drawn_row_text cells :
  forallb is_mark cells = true -> forallb is_drawn (row_text cells) = true.
Proof.
  induction cells as [|c rest IH]; intros H; [reflexivity|].
  cbn [forallb] in H. apply andb_true_iff in H as (Hc & Hr).
  assert (Dc : is_drawn c = true) by (unfold is_drawn; now rewrite Hc).
  destruct rest as [|c' rest'].
  - cbn [row_text forallb]. now rewrite Dc.
  - change (row_text (c :: c' :: rest'))
      with (c :: "|"%char :: row_text (c' :: rest')).
    cbn [forallb]. rewrite Dc, (IH Hr). reflexivity.
Qed.

Lemma is_drawn_grid_text b rows :
  forall tbl, forallb is_mark tbl = true ->
  forallb is_drawn (grid_text b rows tbl) = true.
Proof.
  induction rows as [|r IH]; intros tbl H; [reflexivity|].
  cbn [grid_text]. unfold row_block.
  rewrite !forallb_app. cbn [forallb]. rewrite !forallb_app. cbn [forallb].
  rewrite is_drawn_row_text by now apply forallb_firstn.
  rewrite is_drawn_repeat, IH by now apply forallb_skipn.
  reflexivity.
Qed.

Lemma is_drawn_snapshot_layout b tbl :
  forallb is_mark tbl = true -> forallb is_drawn (snapshot_layout b tbl) = true.
Proof.
  intros H. unfold snapshot_layout. cbn [forallb].
  now rewrite is_drawn_grid_text.
Qed.

Section Stream.
Variables B N D : Z.
Variable check_win : list ascii -> ascii.
Variables mcts negamax_predict : list ascii -> ascii -> Z.
Variable count_active_nodes : Z.
Hypothesis Hgeo : geometry B N D.

Lemma after_final_render_stream s :
  stream_inv N D s ->
  stream_inv N D (after_final_render (Z.to_nat B) D s) /\
  exists more, extends_by more s (after_final_render (Z.to_nat B) D s).
Proof.
  intros (Hs & Hm). pose proof (sized_snapshot B N D Hgeo s Hs) as Hsnap.
  destruct (after_final_render_frame (Z.to_nat B) D s)
    as (_ & _ & A3 & _ & _ & _ & _ & _ & A9 & A10 & _).
  split.
  - unfold stream_inv, sized. rewrite A3, A9.
    repeat split; try assumption. apply Hs.
  - eexists. unfold extends_by. rewrite A10. unfold kfifo_in. cbn [fst kf_data kf_size].
    split; [reflexivity|]. split; [reflexivity|].
    now apply forallb_firstn, is_drawn_snapshot_layout.
Qed.

Lemma work_func_stream w s s' :
  stream_inv N D s ->
  work_func B N D mcts negamax_predict count_active_nodes w s = Ok s' ->
  stream_inv N D s' /\ exists more, extends_by more s s'.
Proof.
  intros Hinv. pose proof Hinv as ((Ht & Hd) & Hm).
  destruct w; cbn [work_func].
  - unfold drawboard_work_func.
    destruct (Ascii.eqb (display (attr_obj s)) "0").
    { intros [= <-]. split; [exact Hinv|]. exists []. now apply extends_by_nil. }
    rewrite (draw_board_layout B N D (table s) (draw_buffer s) Hgeo Ht Hd).
    cbn [bind]. fold (after_final_render (Z.to_nat B) D s).
    intros [= <-]. now apply after_final_render_stream.
  - unfold ai_one_work_func.
    destruct (negb (mcts (table s) "O"%char =? -1)).
    + unfold array_store.
      destruct ((0 <=? mcts (table s) "O"%char) &&
                (mcts (table s) "O"%char <? Z.of_nat (length (table s))));
        cbn [bind]; try discriminate.
      intros [= <-]. split; [|exists []; now apply extends_by_nil].
      split; [split|];
        cbn [table draw_buffer set_finish set_turn set_table];
        rewrite ?length_insert; try assumption.
      now apply is_mark_insert.
    + cbn [bind]. intros [= <-].
      split; [exact Hinv | exists []; now apply extends_by_nil].
  - unfold ai_two_work_func.
    destruct (negb (negamax_predict (table s) "X"%char =? -1)).
    + unfold array_store.
      destruct ((0 <=? negamax_predict (table s) "X"%char) &&
                (negamax_predict (table s) "X"%char <? Z.of_nat (length (table s))));
        cbn [bind]; try discriminate.
      intros [= <-]. split; [|exists []; now apply extends_by_nil].
      split; [split|];
        cbn [table draw_buffer set_finish set_turn set_table];
        rewrite ?length_insert; try assumption.
      now apply is_mark_insert.
    + cbn [bind]. intros [= <-].
      split; [exact Hinv | exists []; now apply extends_by_nil].
  - unfold mcts_calc_load. destruct (mcts_avennode s) as [[a0 a1] a2].
    intros [= <-]. split; [exact Hinv | exists []; now apply extends_by_nil].
Qed.

Lemma run_works_stream ws :
  forall s s',
  stream_inv N D s ->
  run_works B N D mcts negamax_predict count_active_nodes ws s = Ok s' ->
  stream_inv N D s' /\ exists more, extends_by more s s'.
Proof.
  induction ws as [|w ws IH]; intros s s' Hinv H; cbn [run_works] in H.
  - injection H as <-. split; [exact Hinv|]. exists []. now apply extends_by_nil.
  - destruct (work_func B N D mcts negamax_predict count_active_nodes w s)
      as [s1| |] eqn:E; cbn [bind] in H; try discriminate.
    destruct (work_func_stream w s s1 Hinv E) as (I1 & m1 & E1).
    destruct (IH s1 s' I1 H) as (I2 & m2 & E2).
    split; [exact I2|]. exists (m1 ++ m2). eapply extends_by_app; eauto.
Qed.

Lemma after_timer_stream s :
  stream_inv N D s ->
  stream_inv N D (after_timer B N D check_win s) /\
  exists more, extends_by more s (after_timer B N D check_win s).
Proof.
  intros Hinv. pose proof Hinv as ((Ht & Hd) & Hm).
  pose proof (sized_repeat B N D Hgeo) as Hrep.
  pose proof (is_mark_repeat (Z.to_nat N)) as Mrep.
  destruct (after_final_render_stream s Hinv) as (((Rt & Rd) & Rm) & more & Rx).
  unfold after_timer, stream_inv, sized.
  destruct (Ascii.eqb (check_win (table s)) " ").
  { split; [exact Hinv|]. exists []. now apply extends_by_nil. }
  destruct (Ascii.eqb (display (attr_obj s)) "1");
    destruct (Ascii.eqb (end_ (attr_obj s)) "0");
    cbn [mod_timer set_timer set_table table draw_buffer rx_fifo];
    (split; [repeat split; assumption|]).
  - exists more. exact Rx.
  - exists more. exact Rx.
  - exists []. now apply extends_by_nil.
  - exists []. now apply extends_by_nil.
Qed.

Lemma step_stream e s s' :
  stream_inv N D s ->
  step B N D check_win mcts negamax_predict count_active_nodes e s = Ok s' ->
  stream_inv N D s' /\ exists more, extends_by more s s'.
Proof.
  intros Hinv.
  assert (Same : forall s1, table s1 = table s -> draw_buffer s1 = draw_buffer s ->
            rx_fifo s1 = rx_fifo s ->
            stream_inv N D s1 /\ exists more, extends_by more s s1).
  { intros s1 T Db F. split; [|exists []; now apply extends_by_nil].
    unfold stream_inv, sized. rewrite T, Db. exact Hinv. }
  destruct e; cbn [step].
  - destruct (timer s); [|intros [= <-]; now apply Same].
    assert (H0 : stream_inv N D (set_timer false s)) by exact Hinv.
    rewrite (timer_handler_eq B N D check_win _ Hgeo (proj1 H0)).
    intros [= <-]. exact (after_timer_stream _ H0).
  - destruct (game_tasklet s); [|intros [= <-]; now apply Same].
    intros [= <-].
    destruct (game_tasklet_func_effect (set_game_tasklet false s))
      as (_ & _ & _ & A & _ & _ & A' & A'' & _).
    now apply Same.
  - destruct (kmldrv_workqueue s) as [|w ws]; [intros [= <-]; now apply Same|].
    apply (work_func_stream w (set_kmldrv_workqueue ws s)). exact Hinv.
  - unfold kmldrv_open, atomic_inc_return.
    destruct (wrap_int (open_cnt s + 1) =? 1); intros [= <-]; now apply Same.
  - unfold kmldrv_release, atomic_dec_and_test.
    destruct (wrap_int (open_cnt s - 1) =? 0); cbn [Z.eqb bind snd];
      [intros [= <-]; now apply Same|].
    unfold flush_workqueue.
    match goal with |- context [run_works _ _ _ _ _ _ ?ws ?s0] =>
      destruct (run_works B N D mcts negamax_predict count_active_nodes ws s0)
        as [s2| |] eqn:E end;
      cbn [bind snd]; try discriminate.
    intros [= <-]. apply run_works_stream in E; [|exact Hinv].
    destruct E as (I2 & m2 & E2). split; [exact I2|].
    exists m2. exact E2.
Qed.

Lemma run_stream es :
  forall s s',
  stream_inv N D s ->
  run B N D check_win mcts negamax_predict count_active_nodes es s = Ok s' ->
  stream_inv N D s' /\ exists more, extends_by more s s'.
Proof.
  induction es as [|e es IH]; intros s s' Hinv H; cbn [run] in H.
  - injection H as <-. split; [exact Hinv|]. exists []. now apply extends_by_nil.
  - destruct (step B N D check_win mcts negamax_predict count_active_nodes e s)
      as [s1| |] eqn:E; cbn [bind] in H; try discriminate.
    destruct (step_stream e s s1 Hinv E) as (I1 & m1 & E1).
    destruct (IH s1 s' I1 H) as (I2 & m2 & E2).
    split; [exact I2|]. exists (m1 ++ m2). eapply extends_by_app; eauto.
Qed.

(** X14: the pipeline only ever appends to the export queue, and only
    snapshot characters.  From a state with arrays of the declared sizes
    and a board of ' ', 'O' and 'X', whatever events run without a fault,
    the board still holds these three marks only, the queue has its
    capacity and all the bytes it had, in order, and the bytes that
    followed them are newlines, '|', '-' and marks: no event but a read
    takes a byte out. *)
Theorem export_stream_only_grows es s s' :
  sized N D s -> forallb is_mark (table s) = true ->
  run B N D check_win mcts negamax_predict count_active_nodes es s = Ok s' ->
  forallb is_mark (table s') = true /\
  exists more,
    kf_data (rx_fifo s') = kf_data (rx_fifo s) ++ more /\
    kf_size (rx_fifo s') = kf_size (rx_fifo s) /\
    forallb is_drawn more = true.
Proof.
  intros Hs Hm H.
  destruct (run_stream es s s' (conj Hs Hm) H) as ((_ & M) & more & E).
  split; [exact M|]. exists more. exact E.
Qed.

End Stream.

Lemma export_stream_only_grows_witness :
  geometry 3 9 38 /\ sized 9 38 ticking_3x3 /\
  forallb is_mark (table ticking_3x3) = true /\
  run 3 9 38 check_win_3x3 first_empty_engine first_empty_engine 1
    [EvExpire; EvSoftirq; EvWorker; EvWorker; EvWorker] ticking_3x3
  = Ok after_tick_3x3 /\
  forallb is_mark (table after_tick_3x3) = true /\
  exists more,
    kf_data (rx_fifo after_tick_3x3) = kf_data (rx_fifo ticking_3x3) ++ more /\
    kf_size (rx_fifo after_tick_3x3) = kf_size (rx_fifo ticking_3x3) /\
    forallb is_drawn more = true.
Proof.
  assert (G : geometry 3 9 38) by (unfold geometry; lia).
  assert (Z : sized 9 38 ticking_3x3) by (split; reflexivity).
  assert (M : forallb is_mark (table ticking_3x3) = true)
    by (vm_compute; reflexivity).
  assert (R : run 3 9 38 check_win_3x3 first_empty_engine first_empty_engine 1
                [EvExpire; EvSoftirq; EvWorker; EvWorker; EvWorker] ticking_3x3
              = Ok after_tick_3x3) by (vm_compute; reflexivity).
  split; [exact G|]. split; [exact Z|]. split; [exact M|]. split; [exact R|].
  exact (export_stream_only_grows 3 9 38 check_win_3x3 first_empty_engine
           first_empty_engine 1 G
           [EvExpire; EvSoftirq; EvWorker; EvWorker; EvWorker]
           ticking_3x3 after_tick_3x3 Z M R).
Defined.
